(** * Mock office services: user, calendar, outlook, teams, onedrive

    A shallow embedding of the five Flask services of the repository
    ([src/user/app.py], [src/calendar/app.py], [src/outlook/app.py],
    [src/teams/app.py], [src/onedrive/app.py]) and the properties of their
    request handlers.

    Every service keeps its records in module-level Python lists.  A handler
    is modelled as a computation in a small state-and-exception monad over
    that store: it returns a response (status code and JSON body) or raises a
    Python exception, and it may append to the store.  The records of a
    collection are Rocq records with the keys of the Python dicts as fields;
    a field filled from a request body holds whatever JSON value the body
    had.  The routes [/health] and [/] read the environment and the clock
    only; they are functions of those. *)

From stdpp Require Import gmap strings list.
From Stdlib Require Import ZArith Lia Ascii.

Set Warnings "-register-all".
Local Open Scope string_scope.
Local Open Scope list_scope.
Local Open Scope Z_scope.

(** ** JSON values

    What [request.get_json()] yields and what [jsonify] renders.  Numbers are
    Python integers (unbounded); fractional numbers are left out: no handler
    computes with a number taken from a request. *)

Inductive jvalue : Type :=
  | JNull
  | JBool (b : bool)
  | JInt (n : Z)
  | JStr (s : string)
  | JList (l : list jvalue)
  | JObj (d : gmap string jvalue).

(** ** Exceptions, results and the handler monad *)

Inductive exn : Type :=
  | ValueError
  | TypeError
  | KeyError
  | AttributeError.

Inductive result (A : Type) : Type :=
  | Ok (a : A)
  | Raise (e : exn).
Arguments Ok {A} a.
Arguments Raise {A} e.

(** A handler over a store of type [S]: the store is threaded through, and
    an exception leaves the store as it was when it was raised. *)
Definition M (S A : Type) : Type := S -> result A * S.

Definition ret {S A : Type} (a : A) : M S A := fun s => (Ok a, s).

Definition bind {S A B : Type} (m : M S A) (k : A -> M S B) : M S B :=
  fun s =>
    match m s with
    | (Ok a, s') => k a s'
    | (Raise e, s') => (Raise e, s')
    end.

Definition lift {S A : Type} (r : result A) : M S A := fun s => (r, s).

Definition gets {S A : Type} (f : S -> A) : M S A := fun s => (Ok (f s), s).

Definition modify {S : Type} (f : S -> S) : M S unit := fun s => (Ok tt, f s).

Declare Scope handler_scope.
Delimit Scope handler_scope with handler.
Notation "x <- m ;; k" := (bind m (fun x => k))
  (at level 20, m at level 99, k at level 200, only parsing) : handler_scope.
Notation "'exec' m ;; k" := (bind m (fun _ => k))
  (at level 20, m at level 99, k at level 200, only parsing) : handler_scope.
Local Open Scope handler_scope.

(** An HTTP response: the status code and the JSON body given to [jsonify]. *)
Record response : Type := mkResponse { status : Z; body : jvalue }.

(** [jsonify({'error': msg}), code] *)
Definition error_response (code : Z) (msg : string) : response :=
  mkResponse code (JObj {[ "error" := JStr msg ]}).

(** The stores a service can be in: the one it starts with, and the store
    left by handling any request in a store it can be in. *)
Inductive reachable {S Req : Type} (handle : Req -> M S response) (init : S) : S -> Prop :=
  | reach_init : reachable handle init init
  | reach_step (s : S) (req : Req) (r : result response) (s' : S) :
      reachable handle init s -> handle req s = (r, s') -> reachable handle init s'.

(** ** The Python built-ins the handlers use *)

(** Truth value of an object, as tested by [if x] and [not x]. *)
Definition py_truthy (v : jvalue) : bool :=
  match v with
  | JNull => false
  | JBool b => b
  | JInt n => negb (n =? 0)%Z
  | JStr s => negb (String.eqb s "")
  | JList l => match l with [] => false | _ :: _ => true end
  | JObj d => negb (bool_decide (size d = 0%nat))
  end.

(** [key in data]: key membership for a dict, element membership for a
    list, substring test for a string; other objects are not iterable. *)
Definition py_contains (key : string) (data : jvalue) : result bool :=
  match data with
  | JObj d => Ok (bool_decide (is_Some (d !! key)))
  | JList l =>
      Ok (existsb (fun v => match v with JStr s => String.eqb s key | _ => false end) l)
  | JStr s => Ok (match String.index 0 key s with Some _ => true | None => false end)
  | JNull | JBool _ | JInt _ => Raise TypeError
  end.

(** [data[key]] with a string key. *)
Definition py_getitem (data : jvalue) (key : string) : result jvalue :=
  match data with
  | JObj d => match d !! key with Some v => Ok v | None => Raise KeyError end
  | _ => Raise TypeError
  end.

(** [data.get(key, dflt)]: only dicts have a [get] method. *)
Definition py_get (data : jvalue) (key : string) (dflt : jvalue) : result jvalue :=
  match data with
  | JObj d => Ok (default dflt (d !! key))
  | _ => Raise AttributeError
  end.

(** [max(xs)] of a list of integers; [max([])] raises [ValueError]. *)
Definition py_max (xs : list Z) : result Z :=
  match xs with
  | [] => Raise ValueError
  | x :: xs' => Ok (fold_left Z.max xs' x)
  end.

(** [os.getenv(key, dflt)] in the environment [env]. *)
Definition py_getenv (env : gmap string string) (key dflt : string) : string :=
  default dflt (env !! key).

(** [m] is the greatest element of [xs]: what [max(xs)] returns. *)
Definition is_max (m : Z) (xs : list Z) : Prop :=
  m ∈ xs /\ forall x, x ∈ xs -> x <= m.

(** [sum(xs)] of integers. *)
Definition py_sum (xs : list Z) : Z := fold_left Z.add xs 0.

(** [len(xs)] as a JSON number. *)
Definition py_len {A : Type} (xs : list A) : jvalue := JInt (Z.of_nat (length xs)).

(** [next((x for x in xs if p(x)), None)].  The handlers test the result
    with [if x:]; a record is a dict with keys, hence true, so the test
    separates [Some] from [None]. *)
Definition py_next {A : Type} (p : A -> bool) (xs : list A) : option A :=
  List.find p xs.

(** ** Dates and timestamps (Python's [datetime] module) *)

Record date : Type := mkDate { d_year : Z; d_month : Z; d_day : Z }.

(** A [datetime] object; [dt_tz] is the UTC offset in seconds of an aware
    timestamp, [None] for a naive one. *)
Record datetime : Type := mkDatetime {
  dt_year : Z; dt_month : Z; dt_day : Z;
  dt_hour : Z; dt_minute : Z; dt_second : Z; dt_microsecond : Z;
  dt_tz : option Z
}.

(** [dt.date()]: the calendar date as written in the timestamp; the UTC
    offset plays no part. *)
Definition dt_date (dt : datetime) : date :=
  mkDate (dt_year dt) (dt_month dt) (dt_day dt).

(** [d1 == d2] on dates. *)
Definition date_eqb (d1 d2 : date) : bool :=
  (d_year d1 =? d_year d2) && (d_month d1 =? d_month d2) && (d_day d1 =? d_day d2).

Definition digit_char (n : Z) : ascii :=
  ascii_of_nat (Z.to_nat (48 + n mod 10)).

(** [n] printed in decimal, zero-padded to [width] digits. *)
Fixpoint pad_num (width : nat) (n : Z) : string :=
  match width with
  | O => ""
  | S w => pad_num w (n / 10) +:+ String (digit_char n) ""
  end.

(** [d.isoformat()], the format [%04d-%02d-%02d]. *)
Definition date_isoformat (d : date) : string :=
  pad_num 4 (d_year d) +:+ "-" +:+ pad_num 2 (d_month d) +:+ "-" +:+ pad_num 2 (d_day d).

(** [dt.isoformat()] of a naive timestamp: the microseconds are printed
    only when they are not zero. *)
Definition datetime_isoformat (dt : datetime) : string :=
  date_isoformat (dt_date dt) +:+ "T" +:+ pad_num 2 (dt_hour dt) +:+ ":"
  +:+ pad_num 2 (dt_minute dt) +:+ ":" +:+ pad_num 2 (dt_second dt)
  +:+ (if dt_microsecond dt =? 0 then "" else "." +:+ pad_num 6 (dt_microsecond dt)).

(** [s.replace('Z', '+00:00')]: every occurrence is replaced. *)
Fixpoint str_replace_Z (s : string) : string :=
  match s with
  | EmptyString => EmptyString
  | String c s' =>
      if Ascii.eqb c "Z"%char then "+00:00" +:+ str_replace_Z s'
      else String c (str_replace_Z s')
  end.

(** [v.replace('Z', '+00:00')] on the value stored in a record: only a
    string has the method. *)
Definition py_replace_Z (v : jvalue) : result string :=
  match v with
  | JStr s => Ok (str_replace_Z s)
  | _ => Raise AttributeError
  end.

(** *** A model of [datetime.fromisoformat]

    The parser belongs to the Python library, not to the repository.  The
    handlers below take it as a parameter; [py_fromisoformat] is a model of
    it ([None] stands for its [ValueError]) for the format the library documents (the inverse of [isoformat()],
    before Python 3.11):
    [YYYY-MM-DD[*HH[:MM[:SS[.fff[fff]]]][+HH:MM[:SS[.ffffff]]]]],
    where [*] is any single character.  The UTC offset is kept in
    microseconds. *)

Definition digit_val (c : ascii) : option Z :=
  let n := Z.of_nat (nat_of_ascii c) in
  if (48 <=? n) && (n <=? 57) then Some (n - 48) else None.

Fixpoint parse_digits (num_digits : nat) (acc : Z) (p : list ascii)
  : option (Z * list ascii) :=
  match num_digits, p with
  | O, _ => Some (acc, p)
  | S k, c :: p' => d ← digit_val c; parse_digits k (acc * 10 + d) p'
  | S _, [] => None
  end.

Definition parse_isoformat_date (p : list ascii) : option date :=
  '(year, p) ← parse_digits 4 0 p;
  match p with
  | "-"%char :: p =>
      '(month, p) ← parse_digits 2 0 p;
      match p with
      | "-"%char :: p =>
          '(day, p) ← parse_digits 2 0 p;
          match p with [] => Some (mkDate year month day) | _ => None end
      | _ => None
      end
  | _ => None
  end.

(** [HH[:MM[:SS[.fff[fff]]]]], all of [p]; hour, minute, second, microsecond. *)
Definition parse_hh_mm_ss_ff (p : list ascii) : option (Z * Z * Z * Z) :=
  '(hh, p) ← parse_digits 2 0 p;
  match p with
  | [] => Some (hh, 0, 0, 0)
  | ":"%char :: p =>
      '(mm, p) ← parse_digits 2 0 p;
      match p with
      | [] => Some (hh, mm, 0, 0)
      | ":"%char :: p =>
          '(ss, p) ← parse_digits 2 0 p;
          match p with
          | [] => Some (hh, mm, ss, 0)
          | "."%char :: p =>
              if (length p =? 3)%nat then
                '(ms, p) ← parse_digits 3 0 p; Some (hh, mm, ss, ms * 1000)
              else if (length p =? 6)%nat then
                '(us, p) ← parse_digits 6 0 p; Some (hh, mm, ss, us)
              else None
          | _ => None
          end
      | _ => None
      end
  | _ => None
  end.

(** Splits the time part at the first [+] or [-]: the clock time, and the
    sign and text of the offset when there is one. *)
Fixpoint split_tz (p : list ascii) : list ascii * option (Z * list ascii) :=
  match p with
  | [] => ([], None)
  | c :: p' =>
      if Ascii.eqb c "+"%char then ([], Some (1, p'))
      else if Ascii.eqb c "-"%char then ([], Some (-1, p'))
      else let '(t, tz) := split_tz p' in (c :: t, tz)
  end.

Definition parse_isoformat_time (p : list ascii) : option (Z * Z * Z * Z * option Z) :=
  let '(tstr, tz) := split_tz p in
  '(hh, mm, ss, us) ← parse_hh_mm_ss_ff tstr;
  match tz with
  | None => Some (hh, mm, ss, us, None)
  | Some (tzsign, tzstr) =>
      let n := length tzstr in
      if (n =? 5)%nat || (n =? 8)%nat || (n =? 15)%nat then
        '(th, tm, ts, tus) ← parse_hh_mm_ss_ff tzstr;
        Some (hh, mm, ss, us, Some (tzsign * (((th * 60 + tm) * 60 + ts) * 1000000 + tus)))
      else None
  end.

Definition is_leap (year : Z) : bool :=
  (year mod 4 =? 0) && (negb (year mod 100 =? 0) || (year mod 400 =? 0)).

Definition days_in_month (year month : Z) : Z :=
  if month =? 2 then (if is_leap year then 29 else 28)
  else if (month =? 4) || (month =? 6) || (month =? 9) || (month =? 11) then 30
  else 31.

(** The range checks of the [datetime] and [timezone] constructors. *)
Definition datetime_valid (dt : datetime) : bool :=
  (1 <=? dt_year dt) && (dt_year dt <=? 9999)
  && (1 <=? dt_month dt) && (dt_month dt <=? 12)
  && (1 <=? dt_day dt) && (dt_day dt <=? days_in_month (dt_year dt) (dt_month dt))
  && (dt_hour dt <? 24) && (dt_minute dt <? 60) && (dt_second dt <? 60)
  && match dt_tz dt with
     | None => true
     | Some off => (Z.abs off <? 86400 * 1000000)
     end.

(** What [datetime.utcnow()] and [datetime.now()] can return: a naive
    timestamp with every field in its range. *)
Definition is_clock_reading (dt : datetime) : Prop :=
  1 <= dt_year dt <= 9999 /\ 1 <= dt_month dt <= 12
  /\ 1 <= dt_day dt <= days_in_month (dt_year dt) (dt_month dt)
  /\ 0 <= dt_hour dt < 24 /\ 0 <= dt_minute dt < 60 /\ 0 <= dt_second dt < 60
  /\ 0 <= dt_microsecond dt < 1000000 /\ dt_tz dt = None.

Definition py_fromisoformat (date_string : string) : option datetime :=
  let p := String.list_ascii_of_string date_string in
  let parsed :=
    d ← parse_isoformat_date (take 10 p);
    match drop 10 p with
    | [] => Some (mkDatetime (d_year d) (d_month d) (d_day d) 0 0 0 0 None)
    | _ :: tstr =>
        '(hh, mm, ss, us, tz) ← parse_isoformat_time tstr;
        Some (mkDatetime (d_year d) (d_month d) (d_day d) hh mm ss us tz)
    end in
  dt ← parsed;
  if datetime_valid dt then Some dt else None.

(** ** User service ([src/user/app.py]) *)

Module UserService.

Record User : Type := mkUser {
  u_id : Z;
  u_name : jvalue;
  u_email : jvalue;
  u_role : jvalue
}.

Definition user_json (u : User) : jvalue :=
  JObj {[ "id" := JInt (u_id u); "name" := u_name u;
          "email" := u_email u; "role" := u_role u ]}.

(** Sample data. *)
Definition USERS : list User :=
  [ mkUser 1 (JStr "John Doe") (JStr "john.doe@company.com") (JStr "admin");
    mkUser 2 (JStr "Jane Smith") (JStr "jane.smith@company.com") (JStr "user");
    mkUser 3 (JStr "Bob Johnson") (JStr "bob.johnson@company.com") (JStr "user");
    mkUser 4 (JStr "Alice Brown") (JStr "alice.brown@company.com") (JStr "manager") ].

(** [utcnow] is the reading of the clock, [env] the environment. *)
Definition health (env : gmap string string) (utcnow : datetime) : response :=
  mkResponse 200
    (JObj {[ "status" := JStr "healthy";
             "service" := JStr "user-service";
             "version" := JStr (py_getenv env "VERSION" "1.0.0");
             "timestamp" := JStr (datetime_isoformat utcnow);
             "port" := JStr (py_getenv env "SERVICE_PORT" "5001") ]}).

Definition home (env : gmap string string) : response :=
  mkResponse 200
    (JObj {[ "message" := JStr "User Service API";
             "version" := JStr (py_getenv env "VERSION" "1.0.0");
             "service" := JStr (py_getenv env "SERVICE_NAME" "user-service");
             "endpoints" :=
               JList
                 [ JStr "GET /health - Health check";
              JStr "GET /users - List all users";
              JStr "GET /users/<id> - Get user by ID";
              JStr "POST /users - Create new user" ] ]}).

Definition get_users : M (list User) response :=
  users <- gets (fun s => s) ;;
  ret (mkResponse 200
         (JObj {[ "users" := JList (map user_json users); "count" := py_len users ]})).

Definition get_user (user_id : Z) : M (list User) response :=
  user <- gets (py_next (fun u => (u_id u =? user_id)%Z)) ;;
  match user with
  | Some u => ret (mkResponse 200 (user_json u))
  | None => ret (error_response 404 "User not found")
  end.

Definition create_user (data : jvalue) : M (list User) response :=
  if negb (py_truthy data) then ret (error_response 400 "Name is required")
  else
    has_name <- lift (py_contains "name" data) ;;
    if negb has_name then ret (error_response 400 "Name is required")
    else
      ids <- gets (map u_id) ;;
      top <- lift (py_max ids) ;;
      name <- lift (py_getitem data "name") ;;
      email <- lift (py_get data "email" (JStr "")) ;;
      role <- lift (py_get data "role" (JStr "user")) ;;
      let new_user := mkUser (top + 1) name email role in
      exec modify (fun s => s ++ [new_user]) ;;
      ret (mkResponse 201 (user_json new_user)).

(** The routes of the service that use the store. *)
Inductive request : Type :=
  | GET_users
  | GET_user (user_id : Z)
  | POST_users (data : jvalue).

Definition handle (req : request) : M (list User) response :=
  match req with
  | GET_users => get_users
  | GET_user user_id => get_user user_id
  | POST_users data => create_user data
  end.

Definition is_get (req : request) : bool :=
  match req with POST_users _ => false | _ => true end.

End UserService.

(** [for x in xs: acc = body(x, acc)] with a body that may raise. *)
Fixpoint for_loop {S A B : Type} (xs : list A) (body : A -> B -> M S B) (acc : B) : M S B :=
  match xs with
  | [] => ret acc
  | x :: xs' => acc' <- body x acc ;; for_loop xs' body acc'
  end.

(** The exception of the first element of [xs] on which [g] raises. *)
Fixpoint first_error {A B : Type} (g : A -> result B) (xs : list A) : option exn :=
  match xs with
  | [] => None
  | x :: xs' =>
      match g x with
      | Ok _ => first_error g xs'
      | Raise e => Some e
      end
  end.

(** ** Calendar service ([src/calendar/app.py]) *)

Module CalendarService.

Record Event : Type := mkEvent {
  e_id : Z;
  e_title : jvalue;
  e_start : jvalue;
  e_end : jvalue;
  e_attendees : jvalue
}.

Definition event_json (e : Event) : jvalue :=
  JObj {[ "id" := JInt (e_id e); "title" := e_title e; "start" := e_start e;
          "end" := e_end e; "attendees" := e_attendees e ]}.

(** Sample calendar events. *)
Definition EVENTS : list Event :=
  [ mkEvent 1 (JStr "Team Meeting")
      (JStr "2024-08-22T09:00:00Z") (JStr "2024-08-22T10:00:00Z")
      (JList [JStr "john.doe@company.com"; JStr "jane.smith@company.com"]);
    mkEvent 2 (JStr "Project Review")
      (JStr "2024-08-22T14:00:00Z") (JStr "2024-08-22T15:30:00Z")
      (JList [JStr "alice.brown@company.com"; JStr "bob.johnson@company.com"]);
    mkEvent 3 (JStr "Client Presentation")
      (JStr "2024-08-23T11:00:00Z") (JStr "2024-08-23T12:00:00Z")
      (JList [JStr "john.doe@company.com"; JStr "alice.brown@company.com"]) ].

(** [utcnow] is the reading of the clock, [env] the environment. *)
Definition health (env : gmap string string) (utcnow : datetime) : response :=
  mkResponse 200
    (JObj {[ "status" := JStr "healthy";
             "service" := JStr "calendar-service";
             "version" := JStr (py_getenv env "VERSION" "1.0.0");
             "timestamp" := JStr (datetime_isoformat utcnow);
             "port" := JStr (py_getenv env "SERVICE_PORT" "5002") ]}).

Definition home (env : gmap string string) : response :=
  mkResponse 200
    (JObj {[ "message" := JStr "Calendar Service API";
             "version" := JStr (py_getenv env "VERSION" "1.0.0");
             "service" := JStr (py_getenv env "SERVICE_NAME" "calendar-service");
             "endpoints" :=
               JList
                 [ JStr "GET /health - Health check";
              JStr "GET /events - List all events";
              JStr "GET /events/<id> - Get event by ID";
              JStr "POST /events - Create new event";
              JStr "GET /events/today - Get today's events" ] ]}).

Definition get_events : M (list Event) response :=
  events <- gets (fun s => s) ;;
  ret (mkResponse 200
         (JObj {[ "events" := JList (map event_json events); "count" := py_len events ]})).

Definition get_event (event_id : Z) : M (list Event) response :=
  event <- gets (py_next (fun e => e_id e =? event_id)) ;;
  match event with
  | Some e => ret (mkResponse 200 (event_json e))
  | None => ret (error_response 404 "Event not found")
  end.

Definition create_event (data : jvalue) : M (list Event) response :=
  let required := error_response 400 "Title and start time are required" in
  if negb (py_truthy data) then ret required
  else
    has_title <- lift (py_contains "title" data) ;;
    if negb has_title then ret required
    else
      has_start <- lift (py_contains "start" data) ;;
      if negb has_start then ret required
      else
        ids <- gets (map e_id) ;;
        top <- lift (py_max ids) ;;
        title <- lift (py_getitem data "title") ;;
        start <- lift (py_getitem data "start") ;;
        start' <- lift (py_getitem data "start") ;;
        end_ <- lift (py_get data "end" start') ;;
        attendees <- lift (py_get data "attendees" (JList [])) ;;
        let new_event := mkEvent (top + 1) title start end_ attendees in
        exec modify (fun s => s ++ [new_event]) ;;
        ret (mkResponse 201 (event_json new_event)).

Section Today.

(** [datetime.fromisoformat], the parser of the Python library; [None]
    is the [ValueError] it raises on a string it does not accept. *)
Variable fromisoformat : string -> option datetime.

(** [datetime.fromisoformat(event['start'].replace('Z', '+00:00')).date()] *)
Definition event_date (event : Event) : result date :=
  match py_replace_Z (e_start event) with
  | Ok s =>
      match fromisoformat s with
      | Some dt => Ok (dt_date dt)
      | None => Raise ValueError
      end
  | Raise e => Raise e
  end.

(** The body of the loop of [get_today_events]. *)
Definition today_step (today : date) (event : Event) (today_events : list Event)
  : M (list Event) (list Event) :=
  d <- lift (event_date event) ;;
  if date_eqb d today then ret (today_events ++ [event])
  else ret today_events.

(** The event has a start that parses and whose date, as written, is
    [today]. *)
Definition starts_on (today : date) (event : Event) : bool :=
  match event_date event with
  | Ok d => date_eqb d today
  | Raise _ => false
  end.

(** [now] is the reading of the local clock, [datetime.now()]. *)
Definition get_today_events (now : datetime) : M (list Event) response :=
  let today := dt_date now in
  events <- gets (fun s => s) ;;
  today_events <- for_loop events (today_step today) [] ;;
  ret (mkResponse 200
         (JObj {[ "events" := JList (map event_json today_events);
                  "date" := JStr (date_isoformat today);
                  "count" := py_len today_events ]})).

(** The routes of the service that use the store. *)
Inductive request : Type :=
  | GET_events
  | GET_event (event_id : Z)
  | GET_events_today (now : datetime)
  | POST_events (data : jvalue).

Definition handle (req : request) : M (list Event) response :=
  match req with
  | GET_events => get_events
  | GET_event event_id => get_event event_id
  | GET_events_today now => get_today_events now
  | POST_events data => create_event data
  end.

Definition is_get (req : request) : bool :=
  match req with POST_events _ => false | _ => true end.

End Today.

End CalendarService.

(** ** Outlook service ([src/outlook/app.py]) *)

Module OutlookService.

Record Email : Type := mkEmail {
  m_id : Z;
  m_from : string;
  m_to : string;
  m_subject : string;
  m_body : string;
  m_received : string;
  m_read : bool;
  m_important : bool
}.

Definition email_json (e : Email) : jvalue :=
  JObj {[ "id" := JInt (m_id e); "from" := JStr (m_from e); "to" := JStr (m_to e);
          "subject" := JStr (m_subject e); "body" := JStr (m_body e);
          "received" := JStr (m_received e); "read" := JBool (m_read e);
          "important" := JBool (m_important e) ]}.

(** Sample email data. *)
Definition EMAILS : list Email :=
  [ mkEmail 1 "client@example.com" "john.doe@company.com" "Project Update Required"
      "Please provide an update on the current project status."
      "2024-08-21T09:15:00Z" false true;
    mkEmail 2 "hr@company.com" "all@company.com" "Team Building Event Next Week"
      "Don't forget about our team building event scheduled for next Friday."
      "2024-08-21T11:30:00Z" true false;
    mkEmail 3 "vendor@supplier.com" "alice.brown@company.com" "Invoice #12345"
      "Please find attached invoice for your recent order."
      "2024-08-21T14:20:00Z" false false ].

(** The record [send_email] builds: it has a [sent] time and a [status]
    where a stored email has [received], [read] and [important]. *)
Record SentEmail : Type := mkSentEmail {
  s_id : Z;
  s_from : jvalue;
  s_to : jvalue;
  s_subject : jvalue;
  s_body : jvalue;
  s_sent : string;
  s_status : string
}.

Definition sent_email_json (e : SentEmail) : jvalue :=
  JObj {[ "id" := JInt (s_id e); "from" := s_from e; "to" := s_to e;
          "subject" := s_subject e; "body" := s_body e;
          "sent" := JStr (s_sent e); "status" := JStr (s_status e) ]}.

Definition unread (emails : list Email) : list Email :=
  List.filter (fun e => negb (m_read e)) emails.

(** [utcnow] is the reading of the clock, [env] the environment. *)
Definition health (env : gmap string string) (utcnow : datetime) : response :=
  mkResponse 200
    (JObj {[ "status" := JStr "healthy";
             "service" := JStr "outlook-service";
             "version" := JStr (py_getenv env "VERSION" "1.0.0");
             "timestamp" := JStr (datetime_isoformat utcnow);
             "port" := JStr (py_getenv env "SERVICE_PORT" "5004") ]}).

Definition home (env : gmap string string) : response :=
  mkResponse 200
    (JObj {[ "message" := JStr "Outlook Service API";
             "version" := JStr (py_getenv env "VERSION" "1.0.0");
             "service" := JStr (py_getenv env "SERVICE_NAME" "outlook-service");
             "endpoints" :=
               JList
                 [ JStr "GET /health - Health check";
              JStr "GET /emails - List all emails";
              JStr "GET /emails/<id> - Get email by ID";
              JStr "GET /emails/unread - Get unread emails";
              JStr "GET /emails/important - Get important emails";
              JStr "POST /emails/send - Send new email" ] ]}).

Definition get_emails : M (list Email) response :=
  emails <- gets (fun s => s) ;;
  ret (mkResponse 200
         (JObj {[ "emails" := JList (map email_json emails);
                  "count" := py_len emails;
                  "unread_count" := py_len (unread emails) ]})).

Definition get_email (email_id : Z) : M (list Email) response :=
  email <- gets (py_next (fun e => m_id e =? email_id)) ;;
  match email with
  | Some e => ret (mkResponse 200 (email_json e))
  | None => ret (error_response 404 "Email not found")
  end.

Definition get_unread_emails : M (list Email) response :=
  unread_emails <- gets unread ;;
  ret (mkResponse 200
         (JObj {[ "emails" := JList (map email_json unread_emails);
                  "count" := py_len unread_emails ]})).

Definition get_important_emails : M (list Email) response :=
  important_emails <- gets (List.filter m_important) ;;
  ret (mkResponse 200
         (JObj {[ "emails" := JList (map email_json important_emails);
                  "count" := py_len important_emails ]})).

(** [utcnow] is the reading of the clock, [datetime.utcnow()].  The new
    record is returned and not stored. *)
Definition send_email (utcnow : datetime) (data : jvalue) : M (list Email) response :=
  let required := error_response 400 "To and subject are required" in
  if negb (py_truthy data) then ret required
  else
    has_to <- lift (py_contains "to" data) ;;
    if negb has_to then ret required
    else
      has_subject <- lift (py_contains "subject" data) ;;
      if negb has_subject then ret required
      else
        ids <- gets (map m_id) ;;
        top <- lift (py_max ids) ;;
        from <- lift (py_get data "from" (JStr "user@company.com")) ;;
        to <- lift (py_getitem data "to") ;;
        subject <- lift (py_getitem data "subject") ;;
        body_ <- lift (py_get data "body" (JStr "")) ;;
        let new_email :=
          mkSentEmail (top + 1) from to subject body_
            (datetime_isoformat utcnow +:+ "Z") "sent" in
        ret (mkResponse 201
               (JObj {[ "message" := JStr "Email sent successfully";
                        "email" := sent_email_json new_email ]})).

Definition get_email_stats : M (list Email) response :=
  emails <- gets (fun s => s) ;;
  let total_emails := Z.of_nat (length emails) in
  let unread_count := Z.of_nat (length (unread emails)) in
  let important_count := Z.of_nat (length (List.filter m_important emails)) in
  ret (mkResponse 200
         (JObj {[ "total_emails" := JInt total_emails;
                  "unread_emails" := JInt unread_count;
                  "important_emails" := JInt important_count;
                  "read_emails" := JInt (total_emails - unread_count) ]})).

(** The routes of the service that use the store. *)
Inductive request : Type :=
  | GET_emails
  | GET_email (email_id : Z)
  | GET_emails_unread
  | GET_emails_important
  | POST_emails_send (utcnow : datetime) (data : jvalue)
  | GET_emails_stats.

Definition handle (req : request) : M (list Email) response :=
  match req with
  | GET_emails => get_emails
  | GET_email email_id => get_email email_id
  | GET_emails_unread => get_unread_emails
  | GET_emails_important => get_important_emails
  | POST_emails_send utcnow data => send_email utcnow data
  | GET_emails_stats => get_email_stats
  end.

Definition is_get (req : request) : bool :=
  match req with POST_emails_send _ _ => false | _ => true end.

End OutlookService.

(** ** Teams service ([src/teams/app.py]) *)

Module TeamsService.

Record Team : Type := mkTeam {
  t_id : Z;
  t_name : string;
  t_members : list string;
  t_created : string
}.

Record Message : Type := mkMessage {
  g_id : Z;
  g_team_id : Z;
  g_from : jvalue;
  g_message : jvalue;
  g_timestamp : string;
  g_type : string
}.

Record Meeting : Type := mkMeeting {
  h_id : Z;
  h_team_id : Z;
  h_title : string;
  h_start : string;
  h_duration : Z;
  h_participants : list string
}.

(** The three module-level lists of the service. *)
Record Store : Type := mkStore {
  teams : list Team;
  messages : list Message;
  meetings : list Meeting
}.

Definition strings_json (l : list string) : jvalue := JList (map JStr l).

Definition team_json (t : Team) : jvalue :=
  JObj {[ "id" := JInt (t_id t); "name" := JStr (t_name t);
          "members" := strings_json (t_members t); "created" := JStr (t_created t) ]}.

Definition message_json (m : Message) : jvalue :=
  JObj {[ "id" := JInt (g_id m); "team_id" := JInt (g_team_id m); "from" := g_from m;
          "message" := g_message m; "timestamp" := JStr (g_timestamp m);
          "type" := JStr (g_type m) ]}.

Definition meeting_json (m : Meeting) : jvalue :=
  JObj {[ "id" := JInt (h_id m); "team_id" := JInt (h_team_id m);
          "title" := JStr (h_title m); "start" := JStr (h_start m);
          "duration" := JInt (h_duration m);
          "participants" := strings_json (h_participants m) ]}.

(** Sample teams and messages data. *)
Definition TEAMS : list Team :=
  [ mkTeam 1 "Development Team"
      ["john.doe@company.com"; "jane.smith@company.com"; "bob.johnson@company.com"]
      "2024-01-15T10:00:00Z";
    mkTeam 2 "Marketing Team"
      ["alice.brown@company.com"; "jane.smith@company.com"]
      "2024-02-01T14:30:00Z" ].

Definition MESSAGES : list Message :=
  [ mkMessage 1 1 (JStr "john.doe@company.com")
      (JStr "Good morning everyone! Ready for today's sprint review?")
      "2024-08-21T08:30:00Z" "text";
    mkMessage 2 1 (JStr "jane.smith@company.com")
      (JStr "Yes! I've prepared the demo for the new features.")
      "2024-08-21T08:32:00Z" "text";
    mkMessage 3 2 (JStr "alice.brown@company.com")
      (JStr "The new campaign metrics look promising!")
      "2024-08-21T10:15:00Z" "text" ].

Definition MEETINGS : list Meeting :=
  [ mkMeeting 1 1 "Daily Standup" "2024-08-22T09:00:00Z" 30
      ["john.doe@company.com"; "jane.smith@company.com"] ].

Definition initial : Store := mkStore TEAMS MESSAGES MEETINGS.

(** [utcnow] is the reading of the clock, [env] the environment. *)
Definition health (env : gmap string string) (utcnow : datetime) : response :=
  mkResponse 200
    (JObj {[ "status" := JStr "healthy";
             "service" := JStr "teams-service";
             "version" := JStr (py_getenv env "VERSION" "1.0.0");
             "timestamp" := JStr (datetime_isoformat utcnow);
             "port" := JStr (py_getenv env "SERVICE_PORT" "5005") ]}).

Definition home (env : gmap string string) : response :=
  mkResponse 200
    (JObj {[ "message" := JStr "Teams Service API";
             "version" := JStr (py_getenv env "VERSION" "1.0.0");
             "service" := JStr (py_getenv env "SERVICE_NAME" "teams-service");
             "endpoints" :=
               JList
                 [ JStr "GET /health - Health check";
              JStr "GET /teams - List all teams";
              JStr "GET /teams/<id> - Get team by ID";
              JStr "GET /teams/<id>/messages - Get team messages";
              JStr "GET /meetings - List all meetings";
              JStr "POST /teams/<id>/messages - Send message to team" ] ]}).

Definition get_teams : M Store response :=
  ts <- gets teams ;;
  ret (mkResponse 200
         (JObj {[ "teams" := JList (map team_json ts); "count" := py_len ts ]})).

Definition get_team (team_id : Z) : M Store response :=
  team <- gets (fun s => py_next (fun t => t_id t =? team_id) (teams s)) ;;
  match team with
  | Some t => ret (mkResponse 200 (team_json t))
  | None => ret (error_response 404 "Team not found")
  end.

Definition get_team_messages (team_id : Z) : M Store response :=
  team_messages <- gets (fun s => List.filter (fun m => g_team_id m =? team_id) (messages s)) ;;
  ret (mkResponse 200
         (JObj {[ "messages" := JList (map message_json team_messages);
                  "count" := py_len team_messages;
                  "team_id" := JInt team_id ]})).

(** [utcnow] is the reading of the clock, [datetime.utcnow()]. *)
Definition send_team_message (utcnow : datetime) (team_id : Z) (data : jvalue)
  : M Store response :=
  let required := error_response 400 "Message content is required" in
  if negb (py_truthy data) then ret required
  else
    has_message <- lift (py_contains "message" data) ;;
    if negb has_message then ret required
    else
      (* Check if team exists *)
      team <- gets (fun s => py_next (fun t => t_id t =? team_id) (teams s)) ;;
      match team with
      | None => ret (error_response 404 "Team not found")
      | Some _ =>
          ids <- gets (fun s => map g_id (messages s)) ;;
          top <- lift (py_max ids) ;;
          from <- lift (py_get data "from" (JStr "user@company.com")) ;;
          message <- lift (py_getitem data "message") ;;
          let new_message :=
            mkMessage (top + 1) team_id from message
              (datetime_isoformat utcnow +:+ "Z") "text" in
          exec modify (fun s => mkStore (teams s) (messages s ++ [new_message]) (meetings s)) ;;
          ret (mkResponse 201 (message_json new_message))
      end.

Definition get_meetings : M Store response :=
  ms <- gets meetings ;;
  ret (mkResponse 200
         (JObj {[ "meetings" := JList (map meeting_json ms); "count" := py_len ms ]})).

Definition get_stats : M Store response :=
  total_teams <- gets (fun s => Z.of_nat (length (teams s))) ;;
  total_messages <- gets (fun s => Z.of_nat (length (messages s))) ;;
  total_meetings <- gets (fun s => Z.of_nat (length (meetings s))) ;;
  all_members <- gets (fun s => concat (map t_members (teams s))) ;;
  let unique_members := Z.of_nat (size (list_to_set all_members : gset string)) in
  ret (mkResponse 200
         (JObj {[ "total_teams" := JInt total_teams;
                  "total_messages" := JInt total_messages;
                  "total_meetings" := JInt total_meetings;
                  "unique_members" := JInt unique_members;
                  "active_teams" := JInt total_teams ]})).

(** The routes of the service that use the store. *)
Inductive request : Type :=
  | GET_teams
  | GET_team (team_id : Z)
  | GET_team_messages (team_id : Z)
  | POST_team_messages (utcnow : datetime) (team_id : Z) (data : jvalue)
  | GET_meetings
  | GET_stats.

Definition handle (req : request) : M Store response :=
  match req with
  | GET_teams => get_teams
  | GET_team team_id => get_team team_id
  | GET_team_messages team_id => get_team_messages team_id
  | POST_team_messages utcnow team_id data => send_team_message utcnow team_id data
  | GET_meetings => get_meetings
  | GET_stats => get_stats
  end.

Definition is_get (req : request) : bool :=
  match req with POST_team_messages _ _ _ => false | _ => true end.

End TeamsService.

(** ** OneDrive service ([src/onedrive/app.py])

    [get_storage_info] reports a size in megabytes as a rounded float; the
    float is a parameter of its model and the request type below does not
    include the route. *)

Module OneDriveService.

Record File : Type := mkFile {
  f_id : Z;
  f_name : string;
  f_size : Z;
  f_type : string;
  f_modified : string;
  f_owner : string;
  f_shared : bool
}.

Record Folder : Type := mkFolder {
  o_id : Z;
  o_name : string;
  o_file_count : Z
}.

Record Store : Type := mkStore {
  files : list File;
  folders : list Folder
}.

Definition file_json (f : File) : jvalue :=
  JObj {[ "id" := JInt (f_id f); "name" := JStr (f_name f); "size" := JInt (f_size f);
          "type" := JStr (f_type f); "modified" := JStr (f_modified f);
          "owner" := JStr (f_owner f); "shared" := JBool (f_shared f) ]}.

Definition folder_json (f : Folder) : jvalue :=
  JObj {[ "id" := JInt (o_id f); "name" := JStr (o_name f);
          "file_count" := JInt (o_file_count f) ]}.

(** Sample file data. *)
Definition FILES : list File :=
  [ mkFile 1 "Project Proposal.docx" 2048576 "document" "2024-08-20T10:30:00Z"
      "john.doe@company.com" true;
    mkFile 2 "Budget Report.xlsx" 1024000 "spreadsheet" "2024-08-21T14:15:00Z"
      "alice.brown@company.com" false;
    mkFile 3 "Presentation.pptx" 5242880 "presentation" "2024-08-21T16:45:00Z"
      "jane.smith@company.com" true ].

Definition FOLDERS : list Folder :=
  [ mkFolder 1 "Projects" 15; mkFolder 2 "Reports" 8; mkFolder 3 "Templates" 12 ].

Definition initial : Store := mkStore FILES FOLDERS.

(** [utcnow] is the reading of the clock, [env] the environment. *)
Definition health (env : gmap string string) (utcnow : datetime) : response :=
  mkResponse 200
    (JObj {[ "status" := JStr "healthy";
             "service" := JStr "onedrive-service";
             "version" := JStr (py_getenv env "VERSION" "1.0.0");
             "timestamp" := JStr (datetime_isoformat utcnow);
             "port" := JStr (py_getenv env "SERVICE_PORT" "5003") ]}).

Definition home (env : gmap string string) : response :=
  mkResponse 200
    (JObj {[ "message" := JStr "OneDrive Service API";
             "version" := JStr (py_getenv env "VERSION" "1.0.0");
             "service" := JStr (py_getenv env "SERVICE_NAME" "onedrive-service");
             "endpoints" :=
               JList
                 [ JStr "GET /health - Health check";
              JStr "GET /files - List all files";
              JStr "GET /files/<id> - Get file by ID";
              JStr "GET /folders - List all folders";
              JStr "GET /files/shared - Get shared files";
              JStr "GET /storage - Get storage info" ] ]}).

Definition get_files : M Store response :=
  fs <- gets files ;;
  ret (mkResponse 200
         (JObj {[ "files" := JList (map file_json fs); "count" := py_len fs ]})).

Definition get_file (file_id : Z) : M Store response :=
  file <- gets (fun s => py_next (fun f => f_id f =? file_id) (files s)) ;;
  match file with
  | Some f => ret (mkResponse 200 (file_json f))
  | None => ret (error_response 404 "File not found")
  end.

Definition get_folders : M Store response :=
  fs <- gets folders ;;
  ret (mkResponse 200
         (JObj {[ "folders" := JList (map folder_json fs); "count" := py_len fs ]})).

Definition get_shared_files : M Store response :=
  shared_files <- gets (fun s => List.filter f_shared (files s)) ;;
  ret (mkResponse 200
         (JObj {[ "files" := JList (map file_json shared_files);
                  "count" := py_len shared_files ]})).

Section Storage.

(** [round(total_size / 1024 / 1024, 2)]: Python's float division and
    rounding, rendered as a JSON number; it is left abstract. *)
Variable size_mb : Z -> jvalue.

Definition get_storage_info : M Store response :=
  total_size <- gets (fun s => py_sum (map f_size (files s))) ;;
  total_files <- gets (fun s => py_len (files s)) ;;
  n_folders <- gets (fun s => py_len (folders s)) ;;
  shared_files <- gets (fun s => py_len (List.filter f_shared (files s))) ;;
  ret (mkResponse 200
         (JObj {[ "total_files" := total_files;
                  "total_size_bytes" := JInt total_size;
                  "total_size_mb" := size_mb total_size;
                  "folders" := n_folders;
                  "shared_files" := shared_files ]})).

End Storage.

(** The routes of the service that use the store; all of them read. *)
Inductive request : Type :=
  | GET_files
  | GET_file (file_id : Z)
  | GET_folders
  | GET_files_shared.

Definition handle (req : request) : M Store response :=
  match req with
  | GET_files => get_files
  | GET_file file_id => get_file file_id
  | GET_folders => get_folders
  | GET_files_shared => get_shared_files
  end.

End OneDriveService.

(** ** The wording of the specification

    The properties the specification states for all the services, and its
    reading of "today's events", to be compared with the handlers. *)

(** A handler "appends exactly one new record" in the store [s]: when it
    answers 201 the collection is one longer, its last element is the record
    returned in the response, and the records before it are as they were. *)
Definition appends_one_record {St R : Type} (coll : St -> list R) (json : R -> jvalue)
    (returned : jvalue -> option jvalue) (h : M St response) (s : St) : Prop :=
  forall resp s',
    h s = (Ok resp, s') -> status resp = 201 ->
    length (coll s') = S (length (coll s))
    /\ (exists rec, last (coll s') = Some rec /\ returned (body resp) = Some (json rec))
    /\ take (length (coll s)) (coll s') = coll s.

(** A handler "gets by id" from a collection: for an id that no record has
    it answers 404 with the collection's message, and for an id that some
    record has it answers 200 with the first record having it. *)
Definition serves_by_id {St R : Type} (coll : St -> list R) (key : R -> Z)
    (json : R -> jvalue) (msg : string) (get : Z -> M St response) : Prop :=
  forall (id : Z) (s : St),
    (id ∉ map key (coll s) -> get id s = (Ok (error_response 404 msg), s))
    /\ (id ∈ map key (coll s) ->
        exists pre x post,
          coll s = pre ++ x :: post /\ key x = id /\ (id ∉ map key pre)
          /\ get id s = (Ok (mkResponse 200 (json x)), s)).

(** The field [key] of a rendered record or response. *)
Definition json_field (key : string) (v : jvalue) : option jvalue :=
  match v with
  | JObj d => d !! key
  | _ => None
  end.

(** The id found in a rendered record. *)
Definition json_id (v : jvalue) : option Z :=
  match json_field "id" v with
  | Some (JInt n) => Some n
  | _ => None
  end.

(** A handler "assigns max + 1": whenever it answers 201 the collection has
    grown by exactly one record, the id of that stored record is one more
    than the greatest id the collection had, and the response is that
    record (so the id in the response is that id too). *)
Definition assigns_next_id {St R : Type} (coll : St -> list R) (key : R -> Z)
    (json : R -> jvalue) (h : M St response) : Prop :=
  forall s resp s',
    h s = (Ok resp, s') -> status resp = 201 ->
    exists top rec,
      is_max top (map key (coll s))
      /\ key rec = top + 1
      /\ coll s' = coll s ++ [rec]
      /\ body resp = json rec
      /\ json_id (body resp) = Some (top + 1).

(** A handler creates in the store [s]: it answers 201 with a record that it
    appends to the collection, under one more than the greatest id there
    was. *)
Definition creates_with_next_id {St R : Type} (coll : St -> list R) (key : R -> Z)
    (json : R -> jvalue) (h : M St response) (s : St) : Prop :=
  exists top rec s',
    is_max top (map key (coll s))
    /\ key rec = top + 1
    /\ coll s' = coll s ++ [rec]
    /\ h s = (Ok (mkResponse 201 (json rec)), s').

(** A handler answers 201 in the store [s] without storing: the store is
    left as it was, and the id of the record in the response is one more
    than the greatest id of the collection. *)
Definition returns_next_id {St R : Type} (coll : St -> list R) (key : R -> Z)
    (returned : jvalue -> option jvalue) (h : M St response) (s : St) : Prop :=
  exists top resp,
    is_max top (map key (coll s))
    /\ h s = (Ok resp, s)
    /\ status resp = 201
    /\ (returned (body resp) ≫= json_id) = Some (top + 1).



(** A trailing [Z] replaced by [+00:00]. *)
Fixpoint spec_replace_trailing_Z (s : string) : string :=
  match s with
  | EmptyString => EmptyString
  | String c EmptyString => if Ascii.eqb c "Z"%char then "+00:00" else s
  | String c s' => String c (spec_replace_trailing_Z s')
  end.

Definition date_pred (d : date) : date :=
  if 1 <? d_day d then mkDate (d_year d) (d_month d) (d_day d - 1)
  else if 1 <? d_month d then
    mkDate (d_year d) (d_month d - 1) (days_in_month (d_year d) (d_month d - 1))
  else mkDate (d_year d - 1) 12 31.

Definition date_succ (d : date) : date :=
  if d_day d <? days_in_month (d_year d) (d_month d) then
    mkDate (d_year d) (d_month d) (d_day d + 1)
  else if d_month d <? 12 then mkDate (d_year d) (d_month d + 1) 1
  else mkDate (d_year d + 1) 1 1.

(** The date of the instant in UTC: the offset (less than a day either way)
    is subtracted from the time of day. *)
Definition utc_date (dt : datetime) : date :=
  match dt_tz dt with
  | None => dt_date dt
  | Some off =>
      let t := ((dt_hour dt * 60 + dt_minute dt) * 60 + dt_second dt) * 1000000
               + dt_microsecond dt - off in
      if t <? 0 then date_pred (dt_date dt)
      else if 86400 * 1000000 <=? t then date_succ (dt_date dt)
      else dt_date dt
  end.

(** The events the specification lists for [today]: those whose start,
    parsed after replacing a trailing [Z], has [today] as its UTC date. *)
Definition spec_today_events (fromisoformat : string -> option datetime) (today : date)
    (events : list CalendarService.Event) : list CalendarService.Event :=
  List.filter
    (fun e =>
       match CalendarService.e_start e with
       | JStr s =>
           match fromisoformat (spec_replace_trailing_Z s) with
           | Some dt => date_eqb (utc_date dt) today
           | None => false
           end
       | _ => false
       end)
    events.

Example create_user_run :
  UserService.create_user (JObj {[ "name" := JStr "Test" ]}) UserService.USERS
  = (Ok (mkResponse 201 (UserService.user_json
                           (UserService.mkUser 5 (JStr "Test") (JStr "") (JStr "user")))),
     UserService.USERS ++ [UserService.mkUser 5 (JStr "Test") (JStr "") (JStr "user")]).
Proof. vm_compute. reflexivity. Qed.

Example date_isoformat_run : date_isoformat (mkDate 2024 8 22) = "2024-08-22".
Proof. reflexivity. Qed.

Example str_replace_Z_run : str_replace_Z "2024-08-22T09:00:00Z" = "2024-08-22T09:00:00+00:00".
Proof. reflexivity. Qed.

Example py_fromisoformat_run :
  py_fromisoformat "2024-08-22T09:00:00+00:00" = Some (mkDatetime 2024 8 22 9 0 0 0 (Some 0)).
Proof. reflexivity. Qed.

Example py_fromisoformat_Z : py_fromisoformat "2024-08-22T09:00:00Z" = None.
Proof. reflexivity. Qed.

Example py_fromisoformat_offset :
  py_fromisoformat "2024-08-22T23:30:00-05:00"
  = Some (mkDatetime 2024 8 22 23 30 0 0 (Some (-18000000000))).
Proof. reflexivity. Qed.

Example py_fromisoformat_words : py_fromisoformat "tomorrow" = None.
Proof. reflexivity. Qed.

Example py_fromisoformat_date_only :
  py_fromisoformat "2024-02-29" = Some (mkDatetime 2024 2 29 0 0 0 0 None).
Proof. reflexivity. Qed.

Example py_fromisoformat_bad_day : py_fromisoformat "2023-02-29" = None.
Proof. reflexivity. Qed.

Example send_email_run :
  OutlookService.send_email (mkDatetime 2024 8 24 10 0 0 0 None)
    (JObj {[ "to" := JStr "a@b.c"; "subject" := JStr "Hi" ]}) OutlookService.EMAILS
  = (Ok (mkResponse 201
           (JObj {[ "message" := JStr "Email sent successfully";
                    "email" := OutlookService.sent_email_json
                      (OutlookService.mkSentEmail 4 (JStr "user@company.com") (JStr "a@b.c")
                         (JStr "Hi") (JStr "") "2024-08-24T10:00:00Z" "sent") ]})),
     OutlookService.EMAILS).
Proof. vm_compute. reflexivity. Qed.

Example get_stats_run :
  TeamsService.get_stats TeamsService.initial
  = (Ok (mkResponse 200
           (JObj {[ "total_teams" := JInt 2; "total_messages" := JInt 3;
                    "total_meetings" := JInt 1; "unique_members" := JInt 4;
                    "active_teams" := JInt 2 ]})),
     TeamsService.initial).
Proof. vm_compute. reflexivity. Qed.

(** ** Facts about the built-ins *)

Lemma py_truthy_obj (d : gmap string jvalue) (key : string) :
  is_Some (d !! key) -> py_truthy (JObj d) = true.
Proof.
  intros [v Hv]. simpl.
  destruct (bool_decide_reflect (size d = 0%nat)) as [Hsize|]; [|done].
  apply map_size_empty_iff in Hsize. subst d. by rewrite lookup_empty in Hv.
Qed.

Lemma py_contains_obj_true (d : gmap string jvalue) (key : string) :
  is_Some (d !! key) -> py_contains key (JObj d) = Ok true.
Proof. intros H. simpl. by rewrite bool_decide_eq_true_2. Qed.

Lemma py_contains_obj_false (d : gmap string jvalue) (key : string) :
  d !! key = None -> py_contains key (JObj d) = Ok false.
Proof.
  intros H. simpl. rewrite bool_decide_eq_false_2; [done|].
  rewrite H. by intros [? ?].
Qed.

Lemma fold_left_max_is_max (xs : list Z) (x : Z) :
  is_max (fold_left Z.max xs x) (x :: xs).
Proof.
  revert x. induction xs as [|y xs IH]; intros x; simpl.
  - split; [apply list_elem_of_here|].
    intros z Hz. apply list_elem_of_singleton in Hz. lia.
  - destruct (IH (Z.max x y)) as [Hmem Hle]. split.
    + apply elem_of_cons in Hmem as [Heq|Htl].
      * rewrite Heq. destruct (Z.max_spec x y) as [[_ ->]|[_ ->]].
        -- apply list_elem_of_further, list_elem_of_here.
        -- apply list_elem_of_here.
      * by do 2 apply list_elem_of_further.
    + assert (Z.max x y <= fold_left Z.max xs (Z.max x y)) as Hmax
        by apply Hle, list_elem_of_here.
      intros z Hz. apply elem_of_cons in Hz as [->|Hz]; [lia|].
      apply elem_of_cons in Hz as [->|Hz]; [lia|].
      by apply Hle, list_elem_of_further.
Qed.

Lemma py_max_is_max (xs : list Z) (m : Z) : py_max xs = Ok m -> is_max m xs.
Proof.
  destruct xs as [|x xs]; simpl; [done|].
  intros [= <-]. apply fold_left_max_is_max.
Qed.

Lemma py_max_nonempty (xs : list Z) : xs <> [] -> exists m, py_max xs = Ok m.
Proof. destruct xs; [done|]. intros _. by eexists. Qed.

Lemma is_max_unique (m m' : Z) (xs : list Z) : is_max m xs -> is_max m' xs -> m = m'.
Proof. intros [Hin Hle] [Hin' Hle']. specialize (Hle _ Hin'). specialize (Hle' _ Hin). lia. Qed.

(** The id after the greatest one is not in use. *)
Lemma is_max_fresh (m : Z) (xs : list Z) : is_max m xs -> m + 1 ∉ xs.
Proof. intros [_ Hle] Hin. specialize (Hle _ Hin). lia. Qed.



(** [next(...)] over records keyed by an integer field. *)
Lemma py_next_absent {A : Type} (key : A -> Z) (k : Z) (xs : list A) :
  k ∉ map key xs -> py_next (fun x => key x =? k) xs = None.
Proof.
  unfold py_next. induction xs as [|x xs IH]; simpl; [done|].
  intros Hk. apply not_elem_of_cons in Hk as [Hne Hk].
  destruct (Z.eqb_spec (key x) k); [done|]. by apply IH.
Qed.

Lemma py_next_present {A : Type} (key : A -> Z) (k : Z) (xs : list A) :
  k ∈ map key xs -> exists x, py_next (fun x => key x =? k) xs = Some x /\ key x = k.
Proof.
  unfold py_next. induction xs as [|x xs IH]; simpl.
  - intros H. by apply elem_of_nil in H.
  - intros H. destruct (Z.eqb_spec (key x) k) as [Heq|Hne]; [by eauto|].
    apply elem_of_cons in H as [Hk|Hk]; [done|]. by apply IH.
Qed.

Lemma py_next_split {A : Type} (key : A -> Z) (k : Z) (xs : list A) :
  k ∈ map key xs ->
  exists pre x post,
    xs = pre ++ x :: post /\ key x = k /\ (k ∉ map key pre)
    /\ py_next (fun x => key x =? k) xs = Some x.
Proof.
  unfold py_next. induction xs as [|y xs IH]; simpl.
  - intros H. by apply elem_of_nil in H.
  - intros H. destruct (Z.eqb_spec (key y) k) as [Heq|Hne].
    + exists [], y, xs. repeat split; [done|]. apply not_elem_of_nil.
    + apply elem_of_cons in H as [Hk|Hk]; [done|].
      destruct (IH Hk) as (pre & x & post & -> & Hx & Hpre & Hfind).
      exists (y :: pre), x, post. repeat split; try done.
      simpl. apply not_elem_of_cons. split; [congruence|done].
Qed.

Lemma serves_by_id_intro {St R : Type} (coll : St -> list R) (key : R -> Z)
    (json : R -> jvalue) (msg : string) (get : Z -> M St response) :
  (forall id s,
      get id s
      = (Ok (match py_next (fun x => key x =? id) (coll s) with
             | Some x => mkResponse 200 (json x)
             | None => error_response 404 msg
             end), s)) ->
  serves_by_id coll key json msg get.
Proof.
  intros Hget id s. rewrite Hget. split.
  - intros Habsent. by rewrite py_next_absent.
  - intros Hpresent.
    destruct (py_next_split key id (coll s) Hpresent) as (pre & x & post & ? & ? & ? & ->).
    by exists pre, x, post.
Qed.

(** ** User service: validation and creation *)

(** C6: [POST /users] with a JSON object without the key [name] (the empty
    object among them) answers 400 with [{error: "Name is required"}], and
    the users are as they were. *)
Theorem create_user_name_required (d : gmap string jvalue) (users : list UserService.User) :
  d !! "name" = None ->
  UserService.create_user (JObj d) users
  = (Ok (error_response 400 "Name is required"), users).
Proof.
  intros Hname. unfold UserService.create_user.
  destruct (py_truthy (JObj d)); cbn [negb]; [|done].
  unfold bind, lift. by rewrite py_contains_obj_false.
Qed.

Lemma create_user_name_required_witness :
  UserService.create_user (JObj ∅) UserService.USERS
  = (Ok (error_response 400 "Name is required"), UserService.USERS).
Proof. apply (create_user_name_required ∅ UserService.USERS). reflexivity. Defined.

Lemma py_getitem_obj (d : gmap string jvalue) (key : string) (v : jvalue) :
  d !! key = Some v -> py_getitem (JObj d) key = Ok v.
Proof. intros H. simpl. by rewrite H. Qed.

(** Unfolds the monad in a handler and splits on every test it makes. *)
Ltac run_handler :=
  unfold bind, lift, gets, modify, ret in *;
  repeat (simplify_eq/=; try case_match); simplify_eq/=.

Lemma create_user_created (d : gmap string jvalue) (users : list UserService.User)
    (name : jvalue) (top : Z) :
  d !! "name" = Some name ->
  py_max (map UserService.u_id users) = Ok top ->
  let new_user :=
    UserService.mkUser (top + 1) name
      (default (JStr "") (d !! "email")) (default (JStr "user") (d !! "role")) in
  UserService.create_user (JObj d) users
  = (Ok (mkResponse 201 (UserService.user_json new_user)), users ++ [new_user]).
Proof.
  intros Hname Htop new_user. unfold UserService.create_user.
  rewrite (py_truthy_obj d "name") by eauto. cbn [negb].
  unfold bind, lift, gets, modify, ret.
  rewrite py_contains_obj_true by eauto. cbn [negb].
  rewrite Htop. rewrite (py_getitem_obj d "name" name) by done. done.
Qed.

Lemma create_user_inv (data : jvalue) (users users' : list UserService.User)
    (r : result response) :
  UserService.create_user data users = (r, users') ->
  (users' = users /\ forall resp, r = Ok resp -> status resp = 400)
  \/ (exists d name top,
        data = JObj d /\ d !! "name" = Some name
        /\ py_max (map UserService.u_id users) = Ok top).
Proof.
  intros H. unfold UserService.create_user in H.
  destruct data as [| | | | |d].
  1-5: left; run_handler; (split; [done|]); intros ? ?; simplify_eq/=; auto.
  destruct (d !! "name") as [name|] eqn:Hname.
  - destruct (py_max (map UserService.u_id users)) as [top|e] eqn:Htop.
    + right. by exists d, name, top.
    + left. run_handler; (split; [done|]); intros ? ?; simplify_eq/=; auto.
  - left. run_handler; (split; [done|]); intros ? ?; simplify_eq/=; auto.
Qed.

(** C7: on a store with at least one user, [POST /users] with the body
    [{"name": "Test"}] answers 201 with a record whose id is one more than
    the greatest id in the store, whose email is the empty string and whose
    role is ["user"]; that record is appended to the store. *)
Theorem create_user_defaults (users : list UserService.User) :
  users <> [] ->
  exists top,
    is_max top (map UserService.u_id users)
    /\ UserService.create_user (JObj {[ "name" := JStr "Test" ]}) users
       = (Ok (mkResponse 201
                (UserService.user_json
                   (UserService.mkUser (top + 1) (JStr "Test") (JStr "") (JStr "user")))),
          users ++ [UserService.mkUser (top + 1) (JStr "Test") (JStr "") (JStr "user")]).
Proof.
  intros Hne.
  destruct (py_max_nonempty (map UserService.u_id users)) as [top Htop];
    [by destruct users|].
  exists top. split; [by apply py_max_is_max|].
  pose proof (create_user_created {[ "name" := JStr "Test" ]} users (JStr "Test") top
                (lookup_singleton_eq _ _) Htop) as Hrun.
  by rewrite !lookup_singleton_ne in Hrun by done.
Qed.

Lemma create_user_defaults_witness :
  exists top,
    is_max top (map UserService.u_id UserService.USERS)
    /\ UserService.create_user (JObj {[ "name" := JStr "Test" ]}) UserService.USERS
       = (Ok (mkResponse 201
                (UserService.user_json
                   (UserService.mkUser (top + 1) (JStr "Test") (JStr "") (JStr "user")))),
          UserService.USERS
          ++ [UserService.mkUser (top + 1) (JStr "Test") (JStr "") (JStr "user")]).
Proof. apply (create_user_defaults UserService.USERS). discriminate. Defined.

(** ** Teams service: posting a message *)

Lemma send_team_message_created (utcnow : datetime) (team_id : Z)
    (d : gmap string jvalue) (s : TeamsService.Store) (message : jvalue)
    (team : TeamsService.Team) (top : Z) :
  d !! "message" = Some message ->
  py_next (fun t => TeamsService.t_id t =? team_id) (TeamsService.teams s) = Some team ->
  py_max (map TeamsService.g_id (TeamsService.messages s)) = Ok top ->
  let new_message :=
    TeamsService.mkMessage (top + 1) team_id
      (default (JStr "user@company.com") (d !! "from")) message
      (datetime_isoformat utcnow +:+ "Z") "text" in
  TeamsService.send_team_message utcnow team_id (JObj d) s
  = (Ok (mkResponse 201 (TeamsService.message_json new_message)),
     TeamsService.mkStore (TeamsService.teams s)
       (TeamsService.messages s ++ [new_message]) (TeamsService.meetings s)).
Proof.
  intros Hmessage Hteam Htop new_message. unfold TeamsService.send_team_message.
  rewrite (py_truthy_obj d "message") by eauto. cbn [negb].
  unfold bind, lift, gets, modify, ret.
  rewrite py_contains_obj_true by eauto. cbn [negb].
  rewrite Hteam, Htop. rewrite (py_getitem_obj d "message" message) by done. done.
Qed.

Lemma send_team_message_inv (utcnow : datetime) (team_id : Z) (data : jvalue)
    (s s' : TeamsService.Store) (r : result response) :
  TeamsService.send_team_message utcnow team_id data s = (r, s') ->
  (s' = s /\ forall resp, r = Ok resp -> status resp = 400 \/ status resp = 404)
  \/ (exists d message team top,
        data = JObj d /\ d !! "message" = Some message
        /\ py_next (fun t => TeamsService.t_id t =? team_id) (TeamsService.teams s) = Some team
        /\ py_max (map TeamsService.g_id (TeamsService.messages s)) = Ok top).
Proof.
  intros H. unfold TeamsService.send_team_message in H.
  destruct data as [| | | | |d].
  1-5: left; run_handler; (split; [done|]); intros ? ?; simplify_eq/=; auto.
  destruct (d !! "message") as [message|] eqn:Hmessage.
  - destruct (py_next (fun t => TeamsService.t_id t =? team_id) (TeamsService.teams s))
      as [team|] eqn:Hteam.
    + destruct (py_max (map TeamsService.g_id (TeamsService.messages s))) as [top|e] eqn:Htop.
      * right. by exists d, message, team, top.
      * left. run_handler; (split; [done|]); intros ? ?; simplify_eq/=; auto.
    + left. run_handler; (split; [done|]); intros ? ?; simplify_eq/=; auto.
  - left. run_handler; (split; [done|]); intros ? ?; simplify_eq/=; auto.
Qed.

(** C5: [POST /teams/{id}/messages] for an id that no team has, with a JSON
    object that has the key [message], answers 404 with
    [{error: "Team not found"}]; the store, and so the messages, are as they
    were. *)
Theorem send_team_message_team_not_found (utcnow : datetime) (team_id : Z)
    (d : gmap string jvalue) (s : TeamsService.Store) :
  team_id ∉ map TeamsService.t_id (TeamsService.teams s) ->
  is_Some (d !! "message") ->
  TeamsService.send_team_message utcnow team_id (JObj d) s
  = (Ok (error_response 404 "Team not found"), s).
Proof.
  intros Habsent Hmessage. unfold TeamsService.send_team_message.
  rewrite (py_truthy_obj d "message") by done. cbn [negb].
  unfold bind, lift, gets, ret.
  rewrite py_contains_obj_true by done. cbn [negb].
  by rewrite (py_next_absent TeamsService.t_id).
Qed.

Lemma send_team_message_team_not_found_witness :
  TeamsService.send_team_message (mkDatetime 2024 8 24 10 0 0 0 None) 999
    (JObj {[ "message" := JStr "hello" ]}) TeamsService.initial
  = (Ok (error_response 404 "Team not found"), TeamsService.initial).
Proof.
  apply (send_team_message_team_not_found _ 999 {[ "message" := JStr "hello" ]}
           TeamsService.initial).
  - vm_compute. intros H. repeat (apply elem_of_cons in H as [H|H]; [discriminate H|]).
    by apply elem_of_nil in H.
  - by rewrite lookup_singleton_eq.
Defined.

(** C10: in [POST /teams/{id}/messages] the presence of [message] is checked
    before the team is looked up: for a JSON object without the key
    [message] the answer is 400 with [{error: "Message content is required"}]
    whatever the team id and the teams of the store, so also when no team has
    that id; the store is as it was. *)
Theorem send_team_message_validates_first (utcnow : datetime) (team_id : Z)
    (d : gmap string jvalue) (s : TeamsService.Store) :
  d !! "message" = None ->
  TeamsService.send_team_message utcnow team_id (JObj d) s
  = (Ok (error_response 400 "Message content is required"), s).
Proof.
  intros Hmessage. unfold TeamsService.send_team_message.
  destruct (py_truthy (JObj d)); cbn [negb]; [|done].
  unfold bind, lift. by rewrite py_contains_obj_false.
Qed.

Lemma send_team_message_validates_first_witness :
  TeamsService.send_team_message (mkDatetime 2024 8 24 10 0 0 0 None) 999
    (JObj {[ "from" := JStr "me@company.com" ]}) TeamsService.initial
  = (Ok (error_response 400 "Message content is required"), TeamsService.initial).
Proof.
  apply (send_team_message_validates_first _ 999 {[ "from" := JStr "me@company.com" ]}
           TeamsService.initial).
  by apply lookup_singleton_ne.
Defined.

(** ** Calendar service: today's events *)

Lemma date_eqb_eq (d1 d2 : date) : date_eqb d1 d2 = true <-> d1 = d2.
Proof.
  destruct d1 as [y1 m1 a1], d2 as [y2 m2 a2]. unfold date_eqb. simpl.
  rewrite !andb_true_iff, !Z.eqb_eq. split.
  - by intros [[-> ->] ->].
  - intros [= -> -> ->]. done.
Qed.

Lemma date_eqb_neq (d1 d2 : date) : d1 <> d2 -> date_eqb d1 d2 = false.
Proof.
  intros Hne. destruct (date_eqb d1 d2) eqn:Heq; [|done].
  by apply date_eqb_eq in Heq.
Qed.

Lemma first_error_snoc {A B : Type} (g : A -> result B) (xs : list A) (x : A) :
  first_error g (xs ++ [x])
  = match first_error g xs with
    | Some e => Some e
    | None => match g x with Ok _ => None | Raise e => Some e end
    end.
Proof.
  induction xs as [|y xs IH]; simpl.
  - by destruct (g x).
  - by destruct (g y).
Qed.

Section TodayFacts.

Variable fromisoformat : string -> option datetime.

(** The loop of [get_today_events] is a filter, and it stops at the first
    event whose start does not parse; the store is not touched. *)
Lemma for_loop_today (today : date) (events acc s : list CalendarService.Event) :
  for_loop events (CalendarService.today_step fromisoformat today) acc s
  = match first_error (CalendarService.event_date fromisoformat) events with
    | None =>
        (Ok (acc ++ List.filter (CalendarService.starts_on fromisoformat today) events), s)
    | Some e => (Raise e, s)
    end.
Proof.
  revert acc. induction events as [|ev events IH]; intros acc; simpl.
  - by rewrite app_nil_r.
  - unfold bind at 1. unfold CalendarService.today_step at 1.
    unfold CalendarService.starts_on at 1. unfold bind, lift.
    destruct (CalendarService.event_date fromisoformat ev) as [d|e]; [|done].
    destruct (date_eqb d today); unfold ret; rewrite IH;
      destruct (first_error _ events); try done.
    by rewrite <- app_assoc.
Qed.

Lemma get_today_events_ok (now : datetime) (events : list CalendarService.Event) :
  first_error (CalendarService.event_date fromisoformat) events = None ->
  CalendarService.get_today_events fromisoformat now events
  = (Ok (mkResponse 200
           (JObj {[ "events" :=
                      JList (map CalendarService.event_json
                               (List.filter
                                  (CalendarService.starts_on fromisoformat (dt_date now))
                                  events));
                    "date" := JStr (date_isoformat (dt_date now));
                    "count" :=
                      py_len (List.filter
                                (CalendarService.starts_on fromisoformat (dt_date now))
                                events) ]})),
     events).
Proof.
  intros Hparse. unfold CalendarService.get_today_events, bind, gets.
  rewrite for_loop_today, Hparse. done.
Qed.

Lemma get_today_events_raises (now : datetime) (events : list CalendarService.Event)
    (e : exn) :
  first_error (CalendarService.event_date fromisoformat) events = Some e ->
  CalendarService.get_today_events fromisoformat now events = (Raise e, events).
Proof.
  intros Hparse. unfold CalendarService.get_today_events, bind, gets.
  rewrite for_loop_today, Hparse. done.
Qed.

End TodayFacts.

(** Evaluates the date of every concrete event in the goal. *)
Ltac eval_event_dates :=
  repeat match goal with
    | |- context [CalendarService.event_date py_fromisoformat ?e] =>
        let v := eval vm_compute in (CalendarService.event_date py_fromisoformat e) in
        let H := fresh "Hdate" in
        assert (CalendarService.event_date py_fromisoformat e = v) as H
          by (vm_compute; reflexivity);
        rewrite H; clear H
    end.

Lemma sample_events_not_today (today : date) :
  today <> mkDate 2024 8 22 ->
  today <> mkDate 2024 8 23 ->
  List.filter (CalendarService.starts_on py_fromisoformat today) CalendarService.EVENTS = [].
Proof.
  intros H22 H23. unfold CalendarService.EVENTS.
  cbn [List.filter]. unfold CalendarService.starts_on. eval_event_dates.
  rewrite !(date_eqb_neq (mkDate 2024 8 22)) by done.
  rewrite !(date_eqb_neq (mkDate 2024 8 23)) by done.
  done.
Qed.

(** C2, amended: [GET /events/today] answers, and only then, when the start
    of every stored event is a string that the parser accepts once every [Z]
    in it is replaced by [+00:00]; the answer lists, in stored order, the
    events whose parsed start has the clock's local date as its date as
    written (no conversion to UTC), with that date and their count; when
    some start does not parse the handler raises the exception of the first
    such event.  On the sample events and a clock that is on neither
    2024-08-22 nor 2024-08-23 the answer is [{events: [], date, count: 0}]. *)
Theorem get_today_events_filters :
  (forall (fromisoformat : string -> option datetime) (now : datetime)
          (events : list CalendarService.Event),
      (first_error (CalendarService.event_date fromisoformat) events = None ->
       CalendarService.get_today_events fromisoformat now events
       = (Ok (mkResponse 200
                (JObj {[ "events" :=
                           JList (map CalendarService.event_json
                                    (List.filter
                                       (CalendarService.starts_on fromisoformat (dt_date now))
                                       events));
                         "date" := JStr (date_isoformat (dt_date now));
                         "count" :=
                           py_len (List.filter
                                     (CalendarService.starts_on fromisoformat (dt_date now))
                                     events) ]})),
          events))
      /\ (forall e,
             first_error (CalendarService.event_date fromisoformat) events = Some e ->
             CalendarService.get_today_events fromisoformat now events = (Raise e, events)))
  /\ (forall now : datetime,
         dt_date now <> mkDate 2024 8 22 ->
         dt_date now <> mkDate 2024 8 23 ->
         CalendarService.get_today_events py_fromisoformat now CalendarService.EVENTS
         = (Ok (mkResponse 200
                  (JObj {[ "events" := JList [];
                           "date" := JStr (date_isoformat (dt_date now));
                           "count" := JInt 0 ]})),
            CalendarService.EVENTS)).
Proof.
  split.
  - intros fromisoformat now events. split.
    + apply get_today_events_ok.
    + intros e. apply get_today_events_raises.
  - intros now H22 H23.
    rewrite get_today_events_ok by (vm_compute; reflexivity).
    by rewrite sample_events_not_today.
Qed.

Lemma get_today_events_filters_witness :
  CalendarService.get_today_events py_fromisoformat (mkDatetime 2024 8 23 10 0 0 0 None)
    CalendarService.EVENTS
  = (Ok (mkResponse 200
           (JObj {[ "events" :=
                      JList (map CalendarService.event_json (drop 2 CalendarService.EVENTS));
                    "date" := JStr "2024-08-23"; "count" := JInt 1 ]})),
     CalendarService.EVENTS)
  /\ CalendarService.get_today_events py_fromisoformat (mkDatetime 2024 8 23 10 0 0 0 None)
       [CalendarService.mkEvent 1 (JStr "Retro") (JInt 5) (JInt 5) (JList [])]
     = (Raise AttributeError,
        [CalendarService.mkEvent 1 (JStr "Retro") (JInt 5) (JInt 5) (JList [])])
  /\ CalendarService.get_today_events py_fromisoformat (mkDatetime 2024 8 24 10 0 0 0 None)
       CalendarService.EVENTS
     = (Ok (mkResponse 200
              (JObj {[ "events" := JList []; "date" := JStr "2024-08-24";
                       "count" := JInt 0 ]})),
        CalendarService.EVENTS).
Proof.
  split; [|split].
  - apply (proj1 (proj1 get_today_events_filters py_fromisoformat
                    (mkDatetime 2024 8 23 10 0 0 0 None) CalendarService.EVENTS)).
    vm_compute. reflexivity.
  - apply (proj2 (proj1 get_today_events_filters py_fromisoformat
                    (mkDatetime 2024 8 23 10 0 0 0 None)
                    [CalendarService.mkEvent 1 (JStr "Retro") (JInt 5) (JInt 5) (JList [])])).
    vm_compute. reflexivity.
  - apply (proj2 get_today_events_filters (mkDatetime 2024 8 24 10 0 0 0 None));
      discriminate.
Defined.

(** C2 as the specification words it fails twice.  With a fourth event that
    starts at 23:30 on 2024-08-22 at offset -05:00, and the clock on
    2024-08-22, the handler lists that event although its UTC date is
    2024-08-23; and with a fourth event whose start is the string
    [tomorrow] the handler raises and gives no list at all. *)
Lemma get_today_events_counterexample :
  let now := mkDatetime 2024 8 22 12 0 0 0 None in
  let late :=
    CalendarService.mkEvent 4 (JStr "Late call") (JStr "2024-08-22T23:30:00-05:00")
      (JStr "2024-08-23T00:30:00-05:00") (JList []) in
  let vague :=
    CalendarService.mkEvent 4 (JStr "Retro") (JStr "tomorrow") (JStr "tomorrow") (JList []) in
  (CalendarService.get_today_events py_fromisoformat now (CalendarService.EVENTS ++ [late])
   = (Ok (mkResponse 200
            (JObj {[ "events" :=
                       JList (map CalendarService.event_json
                                (take 2 CalendarService.EVENTS ++ [late]));
                     "date" := JStr "2024-08-22"; "count" := JInt 3 ]})),
      CalendarService.EVENTS ++ [late])
   /\ spec_today_events py_fromisoformat (dt_date now) (CalendarService.EVENTS ++ [late])
      = take 2 CalendarService.EVENTS)
  /\ CalendarService.get_today_events py_fromisoformat now (CalendarService.EVENTS ++ [vague])
     = (Raise ValueError, CalendarService.EVENTS ++ [vague]).
Proof. vm_compute. repeat split; reflexivity. Qed.

(** ** Calendar service: creating an event *)

Lemma create_event_created (d : gmap string jvalue) (events : list CalendarService.Event)
    (title start : jvalue) (top : Z) :
  d !! "title" = Some title ->
  d !! "start" = Some start ->
  py_max (map CalendarService.e_id events) = Ok top ->
  let new_event :=
    CalendarService.mkEvent (top + 1) title start
      (default start (d !! "end")) (default (JList []) (d !! "attendees")) in
  CalendarService.create_event (JObj d) events
  = (Ok (mkResponse 201 (CalendarService.event_json new_event)), events ++ [new_event]).
Proof.
  intros Htitle Hstart Htop new_event. unfold CalendarService.create_event.
  rewrite (py_truthy_obj d "title") by eauto. cbn [negb].
  unfold bind, lift, gets, modify, ret.
  rewrite !py_contains_obj_true by eauto. cbn [negb].
  rewrite Htop. rewrite (py_getitem_obj d "title" title) by done.
  rewrite (py_getitem_obj d "start" start) by done. done.
Qed.

Lemma create_event_inv (data : jvalue) (events events' : list CalendarService.Event)
    (r : result response) :
  CalendarService.create_event data events = (r, events') ->
  (events' = events /\ forall resp, r = Ok resp -> status resp = 400)
  \/ (exists d title start top,
        data = JObj d /\ d !! "title" = Some title /\ d !! "start" = Some start
        /\ py_max (map CalendarService.e_id events) = Ok top).
Proof.
  intros H. unfold CalendarService.create_event in H.
  destruct data as [| | | | |d].
  1-5: left; run_handler; (split; [done|]); intros ? ?; simplify_eq/=; auto.
  destruct (d !! "title") as [title|] eqn:Htitle.
  - destruct (d !! "start") as [start|] eqn:Hstart.
    + destruct (py_max (map CalendarService.e_id events)) as [top|e] eqn:Htop.
      * right. by exists d, title, start, top.
      * left. run_handler; (split; [done|]); intros ? ?; simplify_eq/=; auto.
    + left. run_handler; (split; [done|]); intros ? ?; simplify_eq/=; auto.
  - left. run_handler; (split; [done|]); intros ? ?; simplify_eq/=; auto.
Qed.

(** C9: [POST /events] checks that [title] and [start] are present and
    nothing else: on a store that is not empty it answers 201 and stores the
    start as given, whatever value it is.  When the start is a string that
    the parser rejects (after the replacement of [Z]), [GET /events/today]
    on the resulting store raises instead of answering; the exception is the
    parser's [ValueError] when the starts of the events stored before all
    parse. *)
Theorem create_event_accepts_any_start (fromisoformat : string -> option datetime)
    (now : datetime) (d : gmap string jvalue) (events : list CalendarService.Event)
    (title start : jvalue) :
  d !! "title" = Some title ->
  d !! "start" = Some start ->
  events <> [] ->
  exists new_event,
    CalendarService.create_event (JObj d) events
    = (Ok (mkResponse 201 (CalendarService.event_json new_event)), events ++ [new_event])
    /\ CalendarService.e_start new_event = start
    /\ forall str,
         start = JStr str ->
         fromisoformat (str_replace_Z str) = None ->
         (exists e,
             CalendarService.get_today_events fromisoformat now (events ++ [new_event])
             = (Raise e, events ++ [new_event]))
         /\ (first_error (CalendarService.event_date fromisoformat) events = None ->
             CalendarService.get_today_events fromisoformat now (events ++ [new_event])
             = (Raise ValueError, events ++ [new_event])).
Proof.
  intros Htitle Hstart Hne.
  destruct (py_max_nonempty (map CalendarService.e_id events)) as [top Htop];
    [by destruct events|].
  eexists. split; [by apply create_event_created|]. split; [done|].
  intros str -> Hreject.
  match goal with
  | |- context [events ++ [?ev]] => set (new_event := ev)
  end.
  assert (CalendarService.event_date fromisoformat new_event = Raise ValueError) as Hdate.
  { unfold CalendarService.event_date. simpl. by rewrite Hreject. }
  pose proof (first_error_snoc (CalendarService.event_date fromisoformat) events new_event)
    as Hfirst.
  rewrite Hdate in Hfirst. split.
  - destruct (first_error (CalendarService.event_date fromisoformat) events) as [e|];
      eexists; by apply get_today_events_raises.
  - intros Hbefore. rewrite Hbefore in Hfirst. by apply get_today_events_raises.
Qed.

Lemma create_event_accepts_any_start_witness :
  exists new_event,
    CalendarService.create_event
      (JObj {[ "title" := JStr "Retro"; "start" := JStr "tomorrow" ]}) CalendarService.EVENTS
    = (Ok (mkResponse 201 (CalendarService.event_json new_event)),
       CalendarService.EVENTS ++ [new_event])
    /\ CalendarService.get_today_events py_fromisoformat (mkDatetime 2024 8 24 10 0 0 0 None)
         (CalendarService.EVENTS ++ [new_event])
       = (Raise ValueError, CalendarService.EVENTS ++ [new_event]).
Proof.
  destruct (create_event_accepts_any_start py_fromisoformat
              (mkDatetime 2024 8 24 10 0 0 0 None)
              {[ "title" := JStr "Retro"; "start" := JStr "tomorrow" ]}
              CalendarService.EVENTS (JStr "Retro") (JStr "tomorrow"))
    as (new_event & Hcreate & _ & Htoday).
  - vm_compute. reflexivity.
  - vm_compute. reflexivity.
  - discriminate.
  - exists new_event. split; [exact Hcreate|].
    apply (Htoday "tomorrow"); [reflexivity| vm_compute; reflexivity | vm_compute; reflexivity].
Defined.

(** ** Outlook service: sending an email *)

(** [send_email] never touches the stored emails. *)
Lemma send_email_store (utcnow : datetime) (data : jvalue)
    (emails emails' : list OutlookService.Email) (r : result response) :
  OutlookService.send_email utcnow data emails = (r, emails') -> emails' = emails.
Proof.
  intros H. unfold OutlookService.send_email in H.
  destruct data as [| | | | |d]; run_handler; done.
Qed.

Lemma send_email_sent (utcnow : datetime) (d : gmap string jvalue)
    (emails : list OutlookService.Email) (to subject : jvalue) (top : Z) :
  d !! "to" = Some to ->
  d !! "subject" = Some subject ->
  py_max (map OutlookService.m_id emails) = Ok top ->
  OutlookService.send_email utcnow (JObj d) emails
  = (Ok (mkResponse 201
           (JObj {[ "message" := JStr "Email sent successfully";
                    "email" :=
                      OutlookService.sent_email_json
                        (OutlookService.mkSentEmail (top + 1)
                           (default (JStr "user@company.com") (d !! "from")) to subject
                           (default (JStr "") (d !! "body"))
                           (datetime_isoformat utcnow +:+ "Z") "sent") ]})),
     emails).
Proof.
  intros Hto Hsubject Htop. unfold OutlookService.send_email.
  rewrite (py_truthy_obj d "to") by eauto. cbn [negb].
  unfold bind, lift, gets, ret.
  rewrite !py_contains_obj_true by eauto. cbn [negb].
  rewrite Htop. rewrite (py_getitem_obj d "to" to) by done.
  rewrite (py_getitem_obj d "subject" subject) by done. done.
Qed.

(** ** Get by id, in every service *)

(** C8: each of the five get-by-id endpoints answers 404 with its own
    message ("User not found", "Event not found", "Email not found", "Team
    not found", "File not found") for an id that no record of its
    collection has, and 200 with the first record having the id otherwise;
    the store is as it was. *)
Theorem get_by_id_found_or_404 :
  serves_by_id (fun s => s) UserService.u_id UserService.user_json
    "User not found" UserService.get_user
  /\ serves_by_id (fun s => s) CalendarService.e_id CalendarService.event_json
       "Event not found" CalendarService.get_event
  /\ serves_by_id (fun s => s) OutlookService.m_id OutlookService.email_json
       "Email not found" OutlookService.get_email
  /\ serves_by_id TeamsService.teams TeamsService.t_id TeamsService.team_json
       "Team not found" TeamsService.get_team
  /\ serves_by_id OneDriveService.files OneDriveService.f_id OneDriveService.file_json
       "File not found" OneDriveService.get_file.
Proof.
  split; [|split; [|split; [|split]]]; apply serves_by_id_intro; intros id s.
  - unfold UserService.get_user, bind, gets, ret. by case_match.
  - unfold CalendarService.get_event, bind, gets, ret. by case_match.
  - unfold OutlookService.get_email, bind, gets, ret. by case_match.
  - unfold TeamsService.get_team, bind, gets, ret. by case_match.
  - unfold OneDriveService.get_file, bind, gets, ret. by case_match.
Qed.

Lemma get_by_id_found_or_404_witness :
  UserService.get_user 999 UserService.USERS
  = (Ok (error_response 404 "User not found"), UserService.USERS)
  /\ (exists pre x post,
         OneDriveService.files OneDriveService.initial = pre ++ x :: post
         /\ OneDriveService.f_id x = 2 /\ (2 ∉ map OneDriveService.f_id pre)
         /\ OneDriveService.get_file 2 OneDriveService.initial
            = (Ok (mkResponse 200 (OneDriveService.file_json x)), OneDriveService.initial)).
Proof.
  destruct get_by_id_found_or_404 as (Huser & _ & _ & _ & Hfile). split.
  - apply (Huser 999 UserService.USERS). vm_compute. intros H.
    repeat (apply elem_of_cons in H as [H|H]; [discriminate H|]).
    by apply elem_of_nil in H.
  - apply (Hfile 2 OneDriveService.initial). vm_compute.
    apply list_elem_of_further, list_elem_of_here.
Defined.

(** ** What a create or send request does to the store *)

Lemma create_user_201 (data : jvalue) (users users' : list UserService.User)
    (resp : response) :
  UserService.create_user data users = (Ok resp, users') ->
  status resp = 201 ->
  exists d name top,
    data = JObj d /\ d !! "name" = Some name
    /\ py_max (map UserService.u_id users) = Ok top
    /\ resp = mkResponse 201 (UserService.user_json
               (UserService.mkUser (top + 1) name
                  (default (JStr "") (d !! "email")) (default (JStr "user") (d !! "role"))))
    /\ users' = users ++ [UserService.mkUser (top + 1) name
                           (default (JStr "") (d !! "email"))
                           (default (JStr "user") (d !! "role"))].
Proof.
  intros H Hstatus.
  destruct (create_user_inv _ _ _ _ H) as [[_ H400]|(d & name & top & -> & Hname & Htop)].
  - specialize (H400 resp eq_refl). congruence.
  - rewrite (create_user_created d users name top Hname Htop) in H.
    simplify_eq. by exists d, name, top.
Qed.

Lemma create_event_201 (data : jvalue) (events events' : list CalendarService.Event)
    (resp : response) :
  CalendarService.create_event data events = (Ok resp, events') ->
  status resp = 201 ->
  exists d title start top,
    data = JObj d /\ d !! "title" = Some title /\ d !! "start" = Some start
    /\ py_max (map CalendarService.e_id events) = Ok top
    /\ resp = mkResponse 201 (CalendarService.event_json
               (CalendarService.mkEvent (top + 1) title start
                  (default start (d !! "end")) (default (JList []) (d !! "attendees"))))
    /\ events' = events ++ [CalendarService.mkEvent (top + 1) title start
                             (default start (d !! "end"))
                             (default (JList []) (d !! "attendees"))].
Proof.
  intros H Hstatus.
  destruct (create_event_inv _ _ _ _ H)
    as [[_ H400]|(d & title & start & top & -> & Htitle & Hstart & Htop)].
  - specialize (H400 resp eq_refl). congruence.
  - rewrite (create_event_created d events title start top Htitle Hstart Htop) in H.
    simplify_eq. by exists d, title, start, top.
Qed.

Lemma send_team_message_201 (utcnow : datetime) (team_id : Z) (data : jvalue)
    (s s' : TeamsService.Store) (resp : response) :
  TeamsService.send_team_message utcnow team_id data s = (Ok resp, s') ->
  status resp = 201 ->
  exists d message team top,
    data = JObj d /\ d !! "message" = Some message
    /\ py_next (fun t => TeamsService.t_id t =? team_id) (TeamsService.teams s) = Some team
    /\ py_max (map TeamsService.g_id (TeamsService.messages s)) = Ok top
    /\ resp = mkResponse 201 (TeamsService.message_json
               (TeamsService.mkMessage (top + 1) team_id
                  (default (JStr "user@company.com") (d !! "from")) message
                  (datetime_isoformat utcnow +:+ "Z") "text"))
    /\ s' = TeamsService.mkStore (TeamsService.teams s)
              (TeamsService.messages s
               ++ [TeamsService.mkMessage (top + 1) team_id
                     (default (JStr "user@company.com") (d !! "from")) message
                     (datetime_isoformat utcnow +:+ "Z") "text"])
              (TeamsService.meetings s).
Proof.
  intros H Hstatus.
  destruct (send_team_message_inv _ _ _ _ _ _ H)
    as [[_ H40x]|(d & message & team & top & -> & Hmessage & Hteam & Htop)].
  - destruct (H40x resp eq_refl); congruence.
  - rewrite (send_team_message_created utcnow team_id d s message team top
               Hmessage Hteam Htop) in H.
    simplify_eq. by exists d, message, team, top.
Qed.

Lemma send_email_201 (utcnow : datetime) (data : jvalue)
    (emails emails' : list OutlookService.Email) (resp : response) :
  OutlookService.send_email utcnow data emails = (Ok resp, emails') ->
  status resp = 201 ->
  exists d to subject top,
    data = JObj d /\ d !! "to" = Some to /\ d !! "subject" = Some subject
    /\ py_max (map OutlookService.m_id emails) = Ok top.
Proof.
  intros H Hstatus. unfold OutlookService.send_email in H.
  destruct data as [| | | | |d].
  1-5: run_handler; done.
  destruct (d !! "to") as [to|] eqn:Hto; [|run_handler; done].
  destruct (d !! "subject") as [subject|] eqn:Hsubject; [|run_handler; done].
  destruct (py_max (map OutlookService.m_id emails)) as [top|e] eqn:Htop;
    [|run_handler; done].
  by exists d, to, subject, top.
Qed.

Lemma appends_one_record_snoc {St R : Type} (coll : St -> list R) (json : R -> jvalue)
    (h : M St response) (s : St) :
  (forall resp s',
      h s = (Ok resp, s') -> status resp = 201 ->
      exists rec, coll s' = coll s ++ [rec] /\ body resp = json rec) ->
  appends_one_record coll json Some h s.
Proof.
  intros Hsnoc resp s' Hrun Hstatus.
  destruct (Hsnoc resp s' Hrun Hstatus) as (rec & -> & ->). split; [|split].
  - rewrite length_app. simpl. lia.
  - exists rec. split; [apply last_snoc|done].
  - by rewrite take_app_length.
Qed.

(** ** Appending on creation *)

(** C1, amended: [POST /users], [POST /events] and [POST /teams/{id}/messages]
    append exactly one record when they answer 201: the collection is one
    longer, its last element is the record returned, and the records before
    it are as they were (for the teams service the teams and meetings are
    untouched as well).  [POST /emails/send] answers 201 with a record that
    it does not store: the emails are as they were. *)
Theorem create_appends_one_record :
  (forall data users,
      appends_one_record (fun s => s) UserService.user_json Some
        (UserService.create_user data) users)
  /\ (forall data events,
         appends_one_record (fun s => s) CalendarService.event_json Some
           (CalendarService.create_event data) events)
  /\ (forall utcnow team_id data s,
         appends_one_record TeamsService.messages TeamsService.message_json Some
           (TeamsService.send_team_message utcnow team_id data) s
         /\ forall r s',
              TeamsService.send_team_message utcnow team_id data s = (r, s') ->
              TeamsService.teams s' = TeamsService.teams s
              /\ TeamsService.meetings s' = TeamsService.meetings s)
  /\ (forall utcnow data emails resp emails',
         OutlookService.send_email utcnow data emails = (Ok resp, emails') ->
         status resp = 201 ->
         emails' = emails /\ exists sent, json_field "email" (body resp) = Some sent).
Proof.
  split; [|split; [|split]].
  - intros data users. apply appends_one_record_snoc. intros resp users' H Hstatus.
    destruct (create_user_201 _ _ _ _ H Hstatus) as (d & name & top & _ & _ & _ & -> & ->).
    by eexists.
  - intros data events. apply appends_one_record_snoc. intros resp events' H Hstatus.
    destruct (create_event_201 _ _ _ _ H Hstatus)
      as (d & title & start & top & _ & _ & _ & _ & -> & ->).
    by eexists.
  - intros utcnow team_id data s. split.
    + apply appends_one_record_snoc. intros resp s' H Hstatus.
      destruct (send_team_message_201 _ _ _ _ _ _ H Hstatus)
        as (d & message & team & top & _ & _ & _ & _ & -> & ->).
      by eexists.
    + intros r s' H.
      destruct (send_team_message_inv _ _ _ _ _ _ H)
        as [[-> _]|(d & message & team & top & -> & Hmessage & Hteam & Htop)]; [done|].
      rewrite (send_team_message_created utcnow team_id d s message team top
                 Hmessage Hteam Htop) in H.
      by simplify_eq.
  - intros utcnow data emails resp emails' H Hstatus.
    split; [by eapply send_email_store|].
    destruct (send_email_201 _ _ _ _ _ H Hstatus)
      as (d & to & subject & top & -> & Hto & Hsubject & Htop).
    rewrite (send_email_sent utcnow d emails to subject top Hto Hsubject Htop) in H.
    simplify_eq. eexists. simpl. by simplify_map_eq.
Qed.

Lemma create_appends_one_record_witness :
  let new_user := UserService.mkUser 5 (JStr "Test") (JStr "") (JStr "user") in
  (length (UserService.USERS ++ [new_user]) = S (length UserService.USERS)
   /\ (exists rec,
          last (UserService.USERS ++ [new_user]) = Some rec
          /\ Some (UserService.user_json new_user) = Some (UserService.user_json rec))
   /\ take (length UserService.USERS) (UserService.USERS ++ [new_user]) = UserService.USERS)
  /\ (exists resp,
         OutlookService.send_email (mkDatetime 2024 8 24 10 0 0 0 None)
           (JObj {[ "to" := JStr "a@b.c"; "subject" := JStr "Hi" ]}) OutlookService.EMAILS
         = (Ok resp, OutlookService.EMAILS)
         /\ OutlookService.EMAILS = OutlookService.EMAILS
         /\ exists sent, json_field "email" (body resp) = Some sent).
Proof.
  intros new_user.
  destruct create_appends_one_record as (Huser & _ & _ & Hsend). split.
  - apply (Huser (JObj {[ "name" := JStr "Test" ]}) UserService.USERS
             (mkResponse 201 (UserService.user_json new_user))
             (UserService.USERS ++ [new_user])); [|reflexivity].
    vm_compute. reflexivity.
  - pose proof (send_email_sent (mkDatetime 2024 8 24 10 0 0 0 None)
                  {[ "to" := JStr "a@b.c"; "subject" := JStr "Hi" ]} OutlookService.EMAILS
                  (JStr "a@b.c") (JStr "Hi") 3) as Hsent.
    specialize (Hsent ltac:(vm_compute; reflexivity) ltac:(vm_compute; reflexivity)
                  ltac:(vm_compute; reflexivity)).
    eexists. split; [exact Hsent|]. eapply Hsend; [exact Hsent|reflexivity].
Defined.

(** C1 as the specification words it fails for [POST /emails/send]: on the
    sample emails a send with [to] and [subject] answers 201 and the
    collection still has its three emails. *)
Lemma send_email_counterexample :
  ~ appends_one_record (fun s => s) OutlookService.email_json (json_field "email")
      (OutlookService.send_email (mkDatetime 2024 8 24 10 0 0 0 None)
         (JObj {[ "to" := JStr "a@b.c"; "subject" := JStr "Hi" ]}))
      OutlookService.EMAILS.
Proof.
  intros Happends.
  pose proof (send_email_sent (mkDatetime 2024 8 24 10 0 0 0 None)
                {[ "to" := JStr "a@b.c"; "subject" := JStr "Hi" ]} OutlookService.EMAILS
                (JStr "a@b.c") (JStr "Hi") 3) as Hsent.
  specialize (Hsent ltac:(vm_compute; reflexivity) ltac:(vm_compute; reflexivity)
                ltac:(vm_compute; reflexivity)).
  destruct (Happends _ _ Hsent eq_refl) as [Hlen _]. discriminate Hlen.
Qed.

(** ** The stores a service can reach *)

Lemma reachable_ind_inv {St Req : Type} (handle : Req -> M St response) (init : St)
    (P : St -> Prop) :
  P init ->
  (forall s req r s', P s -> handle req s = (r, s') -> P s') ->
  forall s, reachable handle init s -> P s.
Proof.
  intros Hinit Hstep s Hreach. induction Hreach as [|s req r s' _ IH Hrun]; [done|].
  by eapply Hstep.
Qed.

(** A list of ids stays duplicate-free when the id after its greatest one
    is appended. *)
Lemma NoDup_snoc_next (ids : list Z) (top : Z) :
  py_max ids = Ok top -> NoDup ids -> NoDup (ids ++ [top + 1]).
Proof.
  intros Htop Hnodup. apply NoDup_app. split; [done|]. split.
  - intros x Hx Hnew. apply list_elem_of_singleton in Hnew. subst x.
    by apply (is_max_fresh top ids); [apply py_max_is_max|].
  - apply NoDup_singleton.
Qed.

(** Decides a closed [NoDup] goal. *)
Ltac nodup_sample := apply (bool_decide_unpack _); vm_compute; exact I.

Lemma user_handle_store (req : UserService.request) (s s' : list UserService.User)
    (r : result response) :
  UserService.handle req s = (r, s') ->
  s' = s
  \/ exists top new_user,
       py_max (map UserService.u_id s) = Ok top
       /\ UserService.u_id new_user = top + 1 /\ s' = s ++ [new_user].
Proof.
  destruct req as [|user_id|data]; simpl; intros H.
  - left. unfold UserService.get_users in H. run_handler. done.
  - left. unfold UserService.get_user in H. run_handler; done.
  - destruct (create_user_inv _ _ _ _ H) as [[-> _]|(d & name & top & -> & Hname & Htop)];
      [by left|].
    rewrite (create_user_created d s name top Hname Htop) in H. simplify_eq.
    right. eexists top, _. split; [done|]. split; [|reflexivity]. done.
Qed.

Lemma calendar_handle_store (fromisoformat : string -> option datetime)
    (req : CalendarService.request) (s s' : list CalendarService.Event)
    (r : result response) :
  CalendarService.handle fromisoformat req s = (r, s') ->
  s' = s
  \/ exists top new_event,
       py_max (map CalendarService.e_id s) = Ok top
       /\ CalendarService.e_id new_event = top + 1 /\ s' = s ++ [new_event].
Proof.
  destruct req as [|event_id|now|data]; simpl; intros H.
  - left. unfold CalendarService.get_events in H. run_handler. done.
  - left. unfold CalendarService.get_event in H. run_handler; done.
  - left. destruct (first_error (CalendarService.event_date fromisoformat) s) as [e|] eqn:He.
    + rewrite (get_today_events_raises _ _ _ _ He) in H. by simplify_eq.
    + rewrite (get_today_events_ok _ _ _ He) in H. by simplify_eq.
  - destruct (create_event_inv _ _ _ _ H)
      as [[-> _]|(d & title & start & top & -> & Htitle & Hstart & Htop)]; [by left|].
    rewrite (create_event_created d s title start top Htitle Hstart Htop) in H. simplify_eq.
    right. eexists top, _. split; [done|]. split; [|reflexivity]. done.
Qed.

Lemma outlook_handle_store (req : OutlookService.request) (s s' : list OutlookService.Email)
    (r : result response) :
  OutlookService.handle req s = (r, s') -> s' = s.
Proof.
  destruct req as [|email_id| | |utcnow data|]; simpl; intros H.
  - unfold OutlookService.get_emails in H. run_handler. done.
  - unfold OutlookService.get_email in H. run_handler; done.
  - unfold OutlookService.get_unread_emails in H. run_handler. done.
  - unfold OutlookService.get_important_emails in H. run_handler. done.
  - by eapply send_email_store.
  - unfold OutlookService.get_email_stats in H. run_handler. done.
Qed.

Lemma teams_handle_store (req : TeamsService.request) (s s' : TeamsService.Store)
    (r : result response) :
  TeamsService.handle req s = (r, s') ->
  s' = s
  \/ exists top new_message,
       py_max (map TeamsService.g_id (TeamsService.messages s)) = Ok top
       /\ TeamsService.g_id new_message = top + 1
       /\ s' = TeamsService.mkStore (TeamsService.teams s)
                 (TeamsService.messages s ++ [new_message]) (TeamsService.meetings s).
Proof.
  destruct req as [|team_id|team_id|utcnow team_id data| |]; simpl; intros H.
  - left. unfold TeamsService.get_teams in H. run_handler. done.
  - left. unfold TeamsService.get_team in H. run_handler; done.
  - left. unfold TeamsService.get_team_messages in H. run_handler. done.
  - destruct (send_team_message_inv _ _ _ _ _ _ H)
      as [[-> _]|(d & message & team & top & -> & Hmessage & Hteam & Htop)]; [by left|].
    rewrite (send_team_message_created utcnow team_id d s message team top
               Hmessage Hteam Htop) in H.
    simplify_eq. right. eexists top, _. split; [done|]. split; [|reflexivity]. done.
  - left. unfold TeamsService.get_meetings in H. run_handler. done.
  - left. unfold TeamsService.get_stats in H. run_handler. done.
Qed.

Lemma onedrive_handle_store (req : OneDriveService.request) (s s' : OneDriveService.Store)
    (r : result response) :
  OneDriveService.handle req s = (r, s') -> s' = s.
Proof.
  destruct req as [|file_id| |]; simpl; intros H.
  - unfold OneDriveService.get_files in H. run_handler. done.
  - unfold OneDriveService.get_file in H. run_handler; done.
  - unfold OneDriveService.get_folders in H. run_handler. done.
  - unfold OneDriveService.get_shared_files in H. run_handler. done.
Qed.

(** ** Ids: unique, and one more than the greatest *)

Lemma json_id_user (u : UserService.User) :
  json_id (UserService.user_json u) = Some (UserService.u_id u).
Proof. unfold json_id, json_field, UserService.user_json. by simplify_map_eq. Qed.

Lemma json_id_event (e : CalendarService.Event) :
  json_id (CalendarService.event_json e) = Some (CalendarService.e_id e).
Proof. unfold json_id, json_field, CalendarService.event_json. by simplify_map_eq. Qed.

Lemma json_id_message (m : TeamsService.Message) :
  json_id (TeamsService.message_json m) = Some (TeamsService.g_id m).
Proof. unfold json_id, json_field, TeamsService.message_json. by simplify_map_eq. Qed.

Lemma json_id_sent_email (e : OutlookService.SentEmail) :
  json_id (OutlookService.sent_email_json e) = Some (OutlookService.s_id e).
Proof. unfold json_id, json_field, OutlookService.sent_email_json. by simplify_map_eq. Qed.

Lemma json_field_sent_email (msg sent : jvalue) :
  json_field "email" (JObj {[ "message" := msg; "email" := sent ]}) = Some sent.
Proof. unfold json_field. by simplify_map_eq. Qed.

(** C3: in every store a service can reach from its sample data the ids of
    each collection are pairwise different.  A create or send assigns the
    greatest id of the collection plus one: with the required fields and a
    collection that is not empty it answers 201 and the record it stores
    (for [POST /emails/send], the record it returns, which is not stored)
    has that id; and whenever a handler answers 201 the record appended has
    that id and is the record in the response.  On an empty collection a
    create or send with the required fields raises ([max] of an empty list)
    and stores nothing. *)
Theorem ids_unique_and_next :
  ((forall s, reachable UserService.handle UserService.USERS s ->
              NoDup (map UserService.u_id s))
   /\ (forall fromisoformat s,
          reachable (CalendarService.handle fromisoformat) CalendarService.EVENTS s ->
          NoDup (map CalendarService.e_id s))
   /\ (forall s, reachable OutlookService.handle OutlookService.EMAILS s ->
                 NoDup (map OutlookService.m_id s))
   /\ (forall s, reachable TeamsService.handle TeamsService.initial s ->
                 NoDup (map TeamsService.t_id (TeamsService.teams s))
                 /\ NoDup (map TeamsService.g_id (TeamsService.messages s))
                 /\ NoDup (map TeamsService.h_id (TeamsService.meetings s)))
   /\ (forall s, reachable OneDriveService.handle OneDriveService.initial s ->
                 NoDup (map OneDriveService.f_id (OneDriveService.files s))
                 /\ NoDup (map OneDriveService.o_id (OneDriveService.folders s))))
  /\ ((forall (d : gmap string jvalue) users,
          is_Some (d !! "name") -> users <> [] ->
          creates_with_next_id (fun s => s) UserService.u_id UserService.user_json
            (UserService.create_user (JObj d)) users)
      /\ (forall (d : gmap string jvalue) events,
             is_Some (d !! "title") -> is_Some (d !! "start") -> events <> [] ->
             creates_with_next_id (fun s => s) CalendarService.e_id
               CalendarService.event_json (CalendarService.create_event (JObj d)) events)
      /\ (forall utcnow team_id (d : gmap string jvalue) s,
             is_Some (d !! "message") ->
             team_id ∈ map TeamsService.t_id (TeamsService.teams s) ->
             TeamsService.messages s <> [] ->
             creates_with_next_id TeamsService.messages TeamsService.g_id
               TeamsService.message_json
               (TeamsService.send_team_message utcnow team_id (JObj d)) s)
      /\ (forall utcnow (d : gmap string jvalue) emails,
             is_Some (d !! "to") -> is_Some (d !! "subject") -> emails <> [] ->
             returns_next_id (fun s => s) OutlookService.m_id (json_field "email")
               (OutlookService.send_email utcnow (JObj d)) emails))
  /\ ((forall data,
          assigns_next_id (fun s => s) UserService.u_id UserService.user_json
            (UserService.create_user data))
      /\ (forall data,
             assigns_next_id (fun s => s) CalendarService.e_id CalendarService.event_json
               (CalendarService.create_event data))
      /\ (forall utcnow team_id data,
             assigns_next_id TeamsService.messages TeamsService.g_id
               TeamsService.message_json
               (TeamsService.send_team_message utcnow team_id data))
      /\ (forall utcnow data emails resp emails',
             OutlookService.send_email utcnow data emails = (Ok resp, emails') ->
             status resp = 201 ->
             emails' = emails
             /\ returns_next_id (fun s => s) OutlookService.m_id (json_field "email")
                  (OutlookService.send_email utcnow data) emails))
  /\ ((forall d : gmap string jvalue,
          is_Some (d !! "name") ->
          UserService.create_user (JObj d) [] = (Raise ValueError, []))
      /\ (forall d : gmap string jvalue,
             is_Some (d !! "title") -> is_Some (d !! "start") ->
             CalendarService.create_event (JObj d) [] = (Raise ValueError, []))
      /\ (forall utcnow (d : gmap string jvalue),
             is_Some (d !! "to") -> is_Some (d !! "subject") ->
             OutlookService.send_email utcnow (JObj d) [] = (Raise ValueError, []))
      /\ (forall utcnow team_id (d : gmap string jvalue) s,
             is_Some (d !! "message") ->
             team_id ∈ map TeamsService.t_id (TeamsService.teams s) ->
             TeamsService.messages s = [] ->
             TeamsService.send_team_message utcnow team_id (JObj d) s
             = (Raise ValueError, s))).
Proof.
  split; [|split; [|split]].
  - split; [|split; [|split; [|split]]].
    + apply reachable_ind_inv; [nodup_sample|].
      intros s req r s' Hs Hrun.
      destruct (user_handle_store _ _ _ _ Hrun) as [->|(top & new & Htop & Hid & ->)];
        [done|].
      rewrite map_app. simpl. rewrite Hid. by apply NoDup_snoc_next.
    + intros fromisoformat. apply reachable_ind_inv; [nodup_sample|].
      intros s req r s' Hs Hrun.
      destruct (calendar_handle_store _ _ _ _ _ Hrun)
        as [->|(top & new & Htop & Hid & ->)]; [done|].
      rewrite map_app. simpl. rewrite Hid. by apply NoDup_snoc_next.
    + apply reachable_ind_inv; [nodup_sample|].
      intros s req r s' Hs Hrun. by rewrite (outlook_handle_store _ _ _ _ Hrun).
    + apply reachable_ind_inv; [repeat split; nodup_sample|].
      intros s req r s' (Hteams & Hmessages & Hmeetings) Hrun.
      destruct (teams_handle_store _ _ _ _ Hrun) as [->|(top & new & Htop & Hid & ->)];
        [done|].
      simpl. repeat split; try done.
      rewrite map_app. simpl. rewrite Hid. by apply NoDup_snoc_next.
    + apply reachable_ind_inv; [split; nodup_sample|].
      intros s req r s' Hs Hrun. by rewrite (onedrive_handle_store _ _ _ _ Hrun).
  - split; [|split; [|split]].
    + intros d users [name Hname] Hne.
      destruct (py_max_nonempty (map UserService.u_id users)) as [top Htop];
        [by destruct users|].
      eexists top, _, _. split; [by apply py_max_is_max|].
      split; [|split; [|by apply (create_user_created d users name top)]]; reflexivity.
    + intros d events [title Htitle] [start Hstart] Hne.
      destruct (py_max_nonempty (map CalendarService.e_id events)) as [top Htop];
        [by destruct events|].
      eexists top, _, _. split; [by apply py_max_is_max|].
      split; [|split; [|by apply (create_event_created d events title start top)]];
        reflexivity.
    + intros utcnow team_id d s [message Hmessage] Hteam Hne.
      destruct (py_next_present TeamsService.t_id team_id _ Hteam) as (team & Hfind & _).
      destruct (py_max_nonempty (map TeamsService.g_id (TeamsService.messages s)))
        as [top Htop]; [by destruct (TeamsService.messages s)|].
      eexists top, _, _. split; [by apply py_max_is_max|].
      split;
        [|split;
          [|by apply (send_team_message_created utcnow team_id d s message team top)]];
        reflexivity.
    + intros utcnow d emails [to Hto] [subject Hsubject] Hne.
      destruct (py_max_nonempty (map OutlookService.m_id emails)) as [top Htop];
        [by destruct emails|].
      eexists top, _. split; [by apply py_max_is_max|].
      split; [by apply (send_email_sent utcnow d emails to subject top)|].
      split; [reflexivity|].
      cbn [body]. rewrite json_field_sent_email. simpl. by rewrite json_id_sent_email.
  - split; [|split; [|split]].
    + intros data s resp s' Hrun Hstatus.
      destruct (create_user_201 _ _ _ _ Hrun Hstatus)
        as (d & name & top & _ & _ & Htop & -> & ->).
      eexists top, _. split; [by apply py_max_is_max|].
      split; [|split; [reflexivity|split; [reflexivity|]]]; [reflexivity|].
      simpl. by rewrite json_id_user.
    + intros data s resp s' Hrun Hstatus.
      destruct (create_event_201 _ _ _ _ Hrun Hstatus)
        as (d & title & start & top & _ & _ & _ & Htop & -> & ->).
      eexists top, _. split; [by apply py_max_is_max|].
      split; [|split; [reflexivity|split; [reflexivity|]]]; [reflexivity|].
      simpl. by rewrite json_id_event.
    + intros utcnow team_id data s resp s' Hrun Hstatus.
      destruct (send_team_message_201 _ _ _ _ _ _ Hrun Hstatus)
        as (d & message & team & top & _ & _ & _ & Htop & -> & ->).
      eexists top, _. split; [by apply py_max_is_max|].
      split; [|split; [reflexivity|split; [reflexivity|]]]; [reflexivity|].
      simpl. by rewrite json_id_message.
    + intros utcnow data emails resp emails' Hrun Hstatus.
      pose proof (send_email_store _ _ _ _ _ Hrun) as ->. split; [done|].
      destruct (send_email_201 _ _ _ _ _ Hrun Hstatus)
        as (d & to & subject & top & -> & Hto & Hsubject & Htop).
      eexists top, _. split; [by apply py_max_is_max|].
      split; [by apply (send_email_sent utcnow d emails to subject top)|].
      split; [reflexivity|].
      cbn [body]. rewrite json_field_sent_email. simpl. by rewrite json_id_sent_email.
  - split; [|split; [|split]].
    + intros d Hname. unfold UserService.create_user.
      rewrite (py_truthy_obj d "name") by done. cbn [negb].
      unfold bind, lift, gets. by rewrite py_contains_obj_true.
    + intros d Htitle Hstart. unfold CalendarService.create_event.
      rewrite (py_truthy_obj d "title") by done. cbn [negb].
      unfold bind, lift, gets. by rewrite !py_contains_obj_true.
    + intros utcnow d Hto Hsubject. unfold OutlookService.send_email.
      rewrite (py_truthy_obj d "to") by done. cbn [negb].
      unfold bind, lift, gets. by rewrite !py_contains_obj_true.
    + intros utcnow team_id d s Hmessage Hteam Hempty.
      unfold TeamsService.send_team_message.
      rewrite (py_truthy_obj d "message") by done. cbn [negb].
      unfold bind, lift, gets. rewrite py_contains_obj_true by done. cbn [negb].
      destruct (py_next_present TeamsService.t_id team_id _ Hteam) as (team & -> & _).
      by rewrite Hempty.
Qed.

Lemma ids_unique_and_next_witness :
  let new_user := UserService.mkUser 5 (JStr "Test") (JStr "") (JStr "user") in
  (NoDup (map UserService.u_id (UserService.USERS ++ [new_user]))
   /\ NoDup (map CalendarService.e_id
               (CalendarService.EVENTS
                ++ [CalendarService.mkEvent 4 (JStr "Retro") (JStr "2024-08-26T15:00:00Z")
                      (JStr "2024-08-26T15:00:00Z") (JList [])]))
   /\ NoDup (map TeamsService.g_id
               (TeamsService.MESSAGES
                ++ [TeamsService.mkMessage 4 2 (JStr "user@company.com") (JStr "hello")
                      "2024-08-24T10:00:00Z" "text"])))
  /\ (creates_with_next_id (fun s => s) UserService.u_id UserService.user_json
        (UserService.create_user (JObj {[ "name" := JStr "Test" ]})) UserService.USERS
      /\ creates_with_next_id (fun s => s) CalendarService.e_id CalendarService.event_json
           (CalendarService.create_event
              (JObj {[ "title" := JStr "Retro"; "start" := JStr "2024-08-26T15:00:00Z" ]}))
           CalendarService.EVENTS
      /\ creates_with_next_id TeamsService.messages TeamsService.g_id
           TeamsService.message_json
           (TeamsService.send_team_message (mkDatetime 2024 8 24 10 0 0 0 None) 2
              (JObj {[ "message" := JStr "hello" ]}))
           TeamsService.initial
      /\ returns_next_id (fun s => s) OutlookService.m_id (json_field "email")
           (OutlookService.send_email (mkDatetime 2024 8 24 10 0 0 0 None)
              (JObj {[ "to" := JStr "a@b.c"; "subject" := JStr "Hi" ]}))
           OutlookService.EMAILS)
  /\ (exists top rec,
         is_max top (map CalendarService.e_id CalendarService.EVENTS)
         /\ CalendarService.e_id rec = top + 1
         /\ CalendarService.EVENTS
            ++ [CalendarService.mkEvent 4 (JStr "Retro") (JStr "2024-08-26T15:00:00Z")
                  (JStr "2024-08-26T15:00:00Z") (JList [])]
            = CalendarService.EVENTS ++ [rec]
         /\ CalendarService.event_json
              (CalendarService.mkEvent 4 (JStr "Retro") (JStr "2024-08-26T15:00:00Z")
                 (JStr "2024-08-26T15:00:00Z") (JList []))
            = CalendarService.event_json rec
         /\ json_id (CalendarService.event_json
                       (CalendarService.mkEvent 4 (JStr "Retro")
                          (JStr "2024-08-26T15:00:00Z") (JStr "2024-08-26T15:00:00Z")
                          (JList [])))
            = Some (top + 1))
  /\ UserService.create_user (JObj {[ "name" := JStr "Test" ]}) [] = (Raise ValueError, [])
  /\ CalendarService.create_event
       (JObj {[ "title" := JStr "Retro"; "start" := JStr "2024-08-26T15:00:00Z" ]}) []
     = (Raise ValueError, []).
Proof.
  intros new_user.
  destruct ids_unique_and_next
    as ((Huser & Hcalendar & _ & Hteams & _)
        & (Hcreate_user & Hcreate_event & Hsend_message & Hsend_email)
        & (_ & Hnext_event & _)
        & (Hempty_user & Hempty_event & _)).
  split; [|split; [|split; [|split]]].
  - split; [|split].
    + apply Huser.
      apply (reach_step _ _ UserService.USERS
               (UserService.POST_users (JObj {[ "name" := JStr "Test" ]}))
               (Ok (mkResponse 201 (UserService.user_json new_user)))
               (UserService.USERS ++ [new_user])); [apply reach_init|].
      vm_compute. reflexivity.
    + apply (Hcalendar py_fromisoformat).
      apply (reach_step _ _ CalendarService.EVENTS
               (CalendarService.POST_events
                  (JObj {[ "title" := JStr "Retro";
                           "start" := JStr "2024-08-26T15:00:00Z" ]}))
               (Ok (mkResponse 201
                      (CalendarService.event_json
                         (CalendarService.mkEvent 4 (JStr "Retro")
                            (JStr "2024-08-26T15:00:00Z") (JStr "2024-08-26T15:00:00Z")
                            (JList [])))))
               _ (reach_init _ _)).
      vm_compute. reflexivity.
    + assert (TeamsService.handle
                (TeamsService.POST_team_messages (mkDatetime 2024 8 24 10 0 0 0 None) 2
                   (JObj {[ "message" := JStr "hello" ]}))
                TeamsService.initial
              = (Ok (mkResponse 201
                       (TeamsService.message_json
                          (TeamsService.mkMessage 4 2 (JStr "user@company.com")
                             (JStr "hello") "2024-08-24T10:00:00Z" "text"))),
                 TeamsService.mkStore TeamsService.TEAMS
                   (TeamsService.MESSAGES
                    ++ [TeamsService.mkMessage 4 2 (JStr "user@company.com")
                          (JStr "hello") "2024-08-24T10:00:00Z" "text"])
                   TeamsService.MEETINGS)) as Hrun
        by (vm_compute; reflexivity).
      exact (proj1 (proj2 (Hteams _ (reach_step _ _ _ _ _ _ (reach_init _ _) Hrun)))).
  - split; [|split; [|split]].
    + apply Hcreate_user; [eexists; apply lookup_singleton_eq|discriminate].
    + apply Hcreate_event;
        [eexists; vm_compute; reflexivity|eexists; vm_compute; reflexivity|discriminate].
    + apply Hsend_message; [eexists; apply lookup_singleton_eq| |discriminate].
      apply list_elem_of_further, list_elem_of_here.
    + apply Hsend_email;
        [eexists; vm_compute; reflexivity|eexists; vm_compute; reflexivity|discriminate].
  - apply (Hnext_event
             (JObj {[ "title" := JStr "Retro"; "start" := JStr "2024-08-26T15:00:00Z" ]})
             CalendarService.EVENTS
             (mkResponse 201
                (CalendarService.event_json
                   (CalendarService.mkEvent 4 (JStr "Retro") (JStr "2024-08-26T15:00:00Z")
                      (JStr "2024-08-26T15:00:00Z") (JList []))))
             (CalendarService.EVENTS
              ++ [CalendarService.mkEvent 4 (JStr "Retro") (JStr "2024-08-26T15:00:00Z")
                    (JStr "2024-08-26T15:00:00Z") (JList [])])); [|reflexivity].
    vm_compute. reflexivity.
  - apply Hempty_user. eexists. apply lookup_singleton_eq.
  - apply Hempty_event; eexists; vm_compute; reflexivity.
Defined.

(** ** Repeating a request *)








(** ** Validation in the other create handlers *)

Lemma py_next_some {A : Type} (key : A -> Z) (k : Z) (xs : list A) (x : A) :
  py_next (fun y => key y =? k) xs = Some x -> key x = k /\ x ∈ xs.
Proof.
  unfold py_next. induction xs as [|y xs IH]; simpl; [done|].
  destruct (Z.eqb_spec (key y) k) as [Heq|Hne].
  - intros [= <-]. split; [done|apply list_elem_of_here].
  - intros H. destruct (IH H) as [Hk Hin]. split; [done|by apply list_elem_of_further].
Qed.

Lemma py_max_ok_nonempty (xs : list Z) (m : Z) : py_max xs = Ok m -> xs <> [].
Proof. by destruct xs. Qed.

Lemma map_nonempty {A B : Type} (f : A -> B) (xs : list A) : xs <> [] -> map f xs <> [].
Proof. by destruct xs. Qed.

Lemma map_nonempty_inv {A B : Type} (f : A -> B) (xs : list A) : map f xs <> [] -> xs <> [].
Proof. by destruct xs. Qed.

(** [POST /events] with a JSON object that lacks [title] or lacks [start]
    answers 400 with [{error: "Title and start time are required"}] and
    stores nothing. *)
Theorem create_event_requires_title_and_start (d : gmap string jvalue)
    (events : list CalendarService.Event) :
  d !! "title" = None \/ d !! "start" = None ->
  CalendarService.create_event (JObj d) events
  = (Ok (error_response 400 "Title and start time are required"), events).
Proof.
  intros Hmissing. unfold CalendarService.create_event.
  destruct (py_truthy (JObj d)); cbn [negb]; [|done].
  unfold bind, lift, ret.
  destruct (d !! "title") as [title|] eqn:Htitle.
  - destruct Hmissing as [?|Hstart]; [done|].
    rewrite py_contains_obj_true by eauto. cbn [negb].
    by rewrite py_contains_obj_false.
  - by rewrite py_contains_obj_false.
Qed.

Lemma create_event_requires_title_and_start_witness :
  CalendarService.create_event (JObj {[ "title" := JStr "Retro" ]}) CalendarService.EVENTS
  = (Ok (error_response 400 "Title and start time are required"), CalendarService.EVENTS).
Proof.
  apply (create_event_requires_title_and_start {[ "title" := JStr "Retro" ]}).
  right. by apply lookup_singleton_ne.
Defined.

(** [POST /emails/send] with a JSON object that lacks [to] or lacks
    [subject] answers 400 with [{error: "To and subject are required"}]; the
    emails are as they were. *)
Theorem send_email_requires_to_and_subject (utcnow : datetime) (d : gmap string jvalue)
    (emails : list OutlookService.Email) :
  d !! "to" = None \/ d !! "subject" = None ->
  OutlookService.send_email utcnow (JObj d) emails
  = (Ok (error_response 400 "To and subject are required"), emails).
Proof.
  intros Hmissing. unfold OutlookService.send_email.
  destruct (py_truthy (JObj d)); cbn [negb]; [|done].
  unfold bind, lift, ret.
  destruct (d !! "to") as [to|] eqn:Hto.
  - destruct Hmissing as [?|Hsubject]; [done|].
    rewrite py_contains_obj_true by eauto. cbn [negb].
    by rewrite py_contains_obj_false.
  - by rewrite py_contains_obj_false.
Qed.

Lemma send_email_requires_to_and_subject_witness :
  OutlookService.send_email (mkDatetime 2024 8 24 10 0 0 0 None)
    (JObj {[ "subject" := JStr "Hi" ]}) OutlookService.EMAILS
  = (Ok (error_response 400 "To and subject are required"), OutlookService.EMAILS).
Proof.
  apply (send_email_requires_to_and_subject _ {[ "subject" := JStr "Hi" ]}).
  left. by apply lookup_singleton_ne.
Defined.

(** A body that Python takes for false ([null], [false], [0], the empty
    string, list or object) is rejected with 400 by every create or send
    handler, each with its own message, and nothing is stored. *)
Theorem falsy_body_rejected (data : jvalue) :
  py_truthy data = false ->
  (forall users,
      UserService.create_user data users
      = (Ok (error_response 400 "Name is required"), users))
  /\ (forall events,
         CalendarService.create_event data events
         = (Ok (error_response 400 "Title and start time are required"), events))
  /\ (forall utcnow emails,
         OutlookService.send_email utcnow data emails
         = (Ok (error_response 400 "To and subject are required"), emails))
  /\ (forall utcnow team_id s,
         TeamsService.send_team_message utcnow team_id data s
         = (Ok (error_response 400 "Message content is required"), s)).
Proof.
  intros Hfalsy. repeat split; intros.
  - unfold UserService.create_user. by rewrite Hfalsy.
  - unfold CalendarService.create_event. by rewrite Hfalsy.
  - unfold OutlookService.send_email. by rewrite Hfalsy.
  - unfold TeamsService.send_team_message. by rewrite Hfalsy.
Qed.

Lemma falsy_body_rejected_witness :
  UserService.create_user (JList []) UserService.USERS
  = (Ok (error_response 400 "Name is required"), UserService.USERS)
  /\ TeamsService.send_team_message (mkDatetime 2024 8 24 10 0 0 0 None) 1 JNull
       TeamsService.initial
     = (Ok (error_response 400 "Message content is required"), TeamsService.initial).
Proof.
  split.
  - apply (proj1 (falsy_body_rejected (JList []) eq_refl)).
  - apply (proj2 (proj2 (proj2 (falsy_body_rejected JNull eq_refl)))).
Defined.

(** ** When a create or send answers 201 *)

(** Each create or send handler answers 201 exactly when the body is a JSON
    object with the required keys and the collection whose ids it reads is
    not empty (and, for a team message, some team has the id of the path). *)
Theorem answers_201_iff :
  (forall data users,
      (exists resp users',
          UserService.create_user data users = (Ok resp, users') /\ status resp = 201)
      <-> exists d, data = JObj d /\ is_Some (d !! "name") /\ users <> [])
  /\ (forall data events,
         (exists resp events',
             CalendarService.create_event data events = (Ok resp, events')
             /\ status resp = 201)
         <-> exists d,
               data = JObj d /\ is_Some (d !! "title") /\ is_Some (d !! "start")
               /\ events <> [])
  /\ (forall utcnow data emails,
         (exists resp emails',
             OutlookService.send_email utcnow data emails = (Ok resp, emails')
             /\ status resp = 201)
         <-> exists d,
               data = JObj d /\ is_Some (d !! "to") /\ is_Some (d !! "subject")
               /\ emails <> [])
  /\ (forall utcnow team_id data s,
         (exists resp s',
             TeamsService.send_team_message utcnow team_id data s = (Ok resp, s')
             /\ status resp = 201)
         <-> exists d,
               data = JObj d /\ is_Some (d !! "message")
               /\ team_id ∈ map TeamsService.t_id (TeamsService.teams s)
               /\ TeamsService.messages s <> []).
Proof.
  split; [|split; [|split]].
  - intros data users. split.
    + intros (resp & users' & Hrun & Hstatus).
      destruct (create_user_201 _ _ _ _ Hrun Hstatus)
        as (d & name & top & -> & Hname & Htop & _).
      exists d. split; [done|]. split; [by eauto|].
      by eapply map_nonempty_inv, py_max_ok_nonempty.
    + intros (d & -> & [name Hname] & Hne).
      destruct (py_max_nonempty (map UserService.u_id users)) as [top Htop];
        [by apply map_nonempty|].
      eexists _, _. split; [by apply (create_user_created d users name top)|done].
  - intros data events. split.
    + intros (resp & events' & Hrun & Hstatus).
      destruct (create_event_201 _ _ _ _ Hrun Hstatus)
        as (d & title & start & top & -> & Htitle & Hstart & Htop & _).
      exists d. split; [done|]. split; [by eauto|]. split; [by eauto|].
      by eapply map_nonempty_inv, py_max_ok_nonempty.
    + intros (d & -> & [title Htitle] & [start Hstart] & Hne).
      destruct (py_max_nonempty (map CalendarService.e_id events)) as [top Htop];
        [by apply map_nonempty|].
      eexists _, _.
      split; [by apply (create_event_created d events title start top)|done].
  - intros utcnow data emails. split.
    + intros (resp & emails' & Hrun & Hstatus).
      destruct (send_email_201 _ _ _ _ _ Hrun Hstatus)
        as (d & to & subject & top & -> & Hto & Hsubject & Htop).
      exists d. split; [done|]. split; [by eauto|]. split; [by eauto|].
      by eapply map_nonempty_inv, py_max_ok_nonempty.
    + intros (d & -> & [to Hto] & [subject Hsubject] & Hne).
      destruct (py_max_nonempty (map OutlookService.m_id emails)) as [top Htop];
        [by apply map_nonempty|].
      eexists _, _.
      split; [by apply (send_email_sent utcnow d emails to subject top)|done].
  - intros utcnow team_id data s. split.
    + intros (resp & s' & Hrun & Hstatus).
      destruct (send_team_message_201 _ _ _ _ _ _ Hrun Hstatus)
        as (d & message & team & top & -> & Hmessage & Hteam & Htop & _).
      exists d. split; [done|]. split; [by eauto|]. split.
      * destruct (py_next_some _ _ _ _ Hteam) as [<- Hin].
        by apply list_elem_of_fmap_2.
      * by eapply map_nonempty_inv, py_max_ok_nonempty.
    + intros (d & -> & [message Hmessage] & Hteam & Hne).
      destruct (py_next_present TeamsService.t_id team_id _ Hteam) as (team & Hfind & _).
      destruct (py_max_nonempty (map TeamsService.g_id (TeamsService.messages s)))
        as [top Htop]; [by apply map_nonempty|].
      eexists _, _.
      split; [by apply (send_team_message_created utcnow team_id d s message team top)|done].
Qed.

(** ** Bodies that are not JSON objects *)

Lemma existsb_is_name (key : string) (l : list jvalue) :
  JStr key ∈ l ->
  existsb (fun v => match v with JStr s => String.eqb s key | _ => false end) l = true.
Proof.
  intros Hin. apply existsb_exists. exists (JStr key). split.
  - by apply list_elem_of_In.
  - apply String.eqb_refl.
Qed.

Lemma str_truthy_of_index (key s : string) (n : nat) :
  key <> "" -> String.index 0 key s = Some n -> py_truthy (JStr s) = true.
Proof.
  intros Hkey Hindex. destruct s as [|c s]; [|done].
  destruct key; [done|]. simpl in Hindex. discriminate.
Qed.

(** [POST /users] tests [name] with Python's [in], which also accepts lists
    and strings: on a store that is not empty, a JSON string that has
    [name] as a substring, or a JSON list that has the element ["name"],
    passes the test and then makes [data['name']] raise [TypeError]; a
    number other than zero and [true] make the test itself raise.  None of
    them is answered with 400, and nothing is stored. *)
Theorem create_user_malformed_body (users : list UserService.User) :
  users <> [] ->
  (forall s n,
      String.index 0 "name" s = Some n ->
      UserService.create_user (JStr s) users = (Raise TypeError, users))
  /\ (forall l,
         JStr "name" ∈ l ->
         UserService.create_user (JList l) users = (Raise TypeError, users))
  /\ (forall n,
         n <> 0 ->
         UserService.create_user (JInt n) users = (Raise TypeError, users))
  /\ UserService.create_user (JBool true) users = (Raise TypeError, users).
Proof.
  intros Hne.
  destruct (py_max_nonempty (map UserService.u_id users)) as [top Htop];
    [by apply map_nonempty|].
  split; [|split; [|split]].
  - intros s n Hindex. unfold UserService.create_user.
    rewrite (str_truthy_of_index "name" s n) by done. cbn [negb].
    unfold bind, lift, gets. cbn [py_contains]. rewrite Hindex. cbn [negb].
    by rewrite Htop.
  - intros l Hin. unfold UserService.create_user.
    assert (py_truthy (JList l) = true) as -> by (destruct l; [by apply elem_of_nil in Hin|done]).
    cbn [negb]. unfold bind, lift, gets. cbn [py_contains].
    rewrite existsb_is_name by done. cbn [negb]. by rewrite Htop.
  - intros n Hn. unfold UserService.create_user. cbn [py_truthy].
    destruct (Z.eqb_spec n 0); [done|]. done.
  - done.
Qed.

Lemma create_user_malformed_body_witness :
  UserService.create_user (JStr "my name is Bob") UserService.USERS
  = (Raise TypeError, UserService.USERS)
  /\ UserService.create_user (JList [JStr "id"; JStr "name"]) UserService.USERS
     = (Raise TypeError, UserService.USERS)
  /\ UserService.create_user (JInt 7) UserService.USERS = (Raise TypeError, UserService.USERS).
Proof.
  destruct (create_user_malformed_body UserService.USERS ltac:(discriminate))
    as (Hstr & Hlist & Hint & _).
  split; [|split].
  - apply (Hstr "my name is Bob" 3%nat). vm_compute. reflexivity.
  - apply Hlist. apply list_elem_of_further, list_elem_of_here.
  - apply Hint. discriminate.
Defined.

(** ** Defaults of the optional fields *)

(** [POST /events] with [title] and [start] only, on a store that is not
    empty, stores an event that ends when it starts and has no attendees,
    under the greatest id plus one. *)
Theorem create_event_defaults (d : gmap string jvalue) (events : list CalendarService.Event)
    (title start : jvalue) :
  d !! "title" = Some title ->
  d !! "start" = Some start ->
  d !! "end" = None ->
  d !! "attendees" = None ->
  events <> [] ->
  exists top,
    is_max top (map CalendarService.e_id events)
    /\ CalendarService.create_event (JObj d) events
       = (Ok (mkResponse 201
                (CalendarService.event_json
                   (CalendarService.mkEvent (top + 1) title start start (JList [])))),
          events ++ [CalendarService.mkEvent (top + 1) title start start (JList [])]).
Proof.
  intros Htitle Hstart Hend Hattendees Hne.
  destruct (py_max_nonempty (map CalendarService.e_id events)) as [top Htop];
    [by apply map_nonempty|].
  exists top. split; [by apply py_max_is_max|].
  pose proof (create_event_created d events title start top Htitle Hstart Htop) as Hrun.
  by rewrite Hend, Hattendees in Hrun.
Qed.

Lemma create_event_defaults_witness :
  exists top,
    is_max top (map CalendarService.e_id CalendarService.EVENTS)
    /\ CalendarService.create_event
         (JObj {[ "title" := JStr "Retro"; "start" := JStr "2024-08-26T15:00:00Z" ]})
         CalendarService.EVENTS
       = (Ok (mkResponse 201
                (CalendarService.event_json
                   (CalendarService.mkEvent (top + 1) (JStr "Retro")
                      (JStr "2024-08-26T15:00:00Z") (JStr "2024-08-26T15:00:00Z")
                      (JList [])))),
          CalendarService.EVENTS
          ++ [CalendarService.mkEvent (top + 1) (JStr "Retro")
                (JStr "2024-08-26T15:00:00Z") (JStr "2024-08-26T15:00:00Z") (JList [])]).
Proof.
  apply (create_event_defaults
           {[ "title" := JStr "Retro"; "start" := JStr "2024-08-26T15:00:00Z" ]}
           CalendarService.EVENTS (JStr "Retro") (JStr "2024-08-26T15:00:00Z"));
    try (vm_compute; reflexivity).
  discriminate.
Defined.

(** [POST /emails/send] with [to] and [subject] only, on a store that is not
    empty, answers 201 with the message "Email sent successfully" and a
    record sent from [user@company.com] with an empty body, status [sent],
    the clock reading followed by [Z] as its time, and the greatest stored
    id plus one. *)
Theorem send_email_defaults (utcnow : datetime) (d : gmap string jvalue)
    (emails : list OutlookService.Email) (to subject : jvalue) :
  d !! "to" = Some to ->
  d !! "subject" = Some subject ->
  d !! "from" = None ->
  d !! "body" = None ->
  emails <> [] ->
  exists top,
    is_max top (map OutlookService.m_id emails)
    /\ OutlookService.send_email utcnow (JObj d) emails
       = (Ok (mkResponse 201
                (JObj {[ "message" := JStr "Email sent successfully";
                         "email" :=
                           OutlookService.sent_email_json
                             (OutlookService.mkSentEmail (top + 1) (JStr "user@company.com")
                                to subject (JStr "")
                                (datetime_isoformat utcnow +:+ "Z") "sent") ]})),
          emails).
Proof.
  intros Hto Hsubject Hfrom Hbody Hne.
  destruct (py_max_nonempty (map OutlookService.m_id emails)) as [top Htop];
    [by apply map_nonempty|].
  exists top. split; [by apply py_max_is_max|].
  pose proof (send_email_sent utcnow d emails to subject top Hto Hsubject Htop) as Hrun.
  by rewrite Hfrom, Hbody in Hrun.
Qed.

Lemma send_email_defaults_witness :
  exists top,
    is_max top (map OutlookService.m_id OutlookService.EMAILS)
    /\ OutlookService.send_email (mkDatetime 2024 8 24 10 0 0 0 None)
         (JObj {[ "to" := JStr "a@b.c"; "subject" := JStr "Hi" ]}) OutlookService.EMAILS
       = (Ok (mkResponse 201
                (JObj {[ "message" := JStr "Email sent successfully";
                         "email" :=
                           OutlookService.sent_email_json
                             (OutlookService.mkSentEmail (top + 1) (JStr "user@company.com")
                                (JStr "a@b.c") (JStr "Hi") (JStr "")
                                (datetime_isoformat (mkDatetime 2024 8 24 10 0 0 0 None)
                                 +:+ "Z") "sent") ]})),
          OutlookService.EMAILS).
Proof.
  apply (send_email_defaults (mkDatetime 2024 8 24 10 0 0 0 None)
           {[ "to" := JStr "a@b.c"; "subject" := JStr "Hi" ]}
           OutlookService.EMAILS (JStr "a@b.c") (JStr "Hi"));
    try (vm_compute; reflexivity).
  discriminate.
Defined.

(** ** Creating, then reading *)

Lemma py_next_app {A : Type} (p : A -> bool) (xs ys : list A) :
  py_next p (xs ++ ys)
  = match py_next p xs with
    | Some x => Some x
    | None => py_next p ys
    end.
Proof.
  unfold py_next. induction xs as [|x xs IH]; simpl; [done|].
  by destruct (p x).
Qed.

Lemma py_next_snoc_fresh {A : Type} (key : A -> Z) (xs : list A) (x : A) :
  key x ∉ map key xs -> py_next (fun y => key y =? key x) (xs ++ [x]) = Some x.
Proof.
  intros Hfresh. rewrite py_next_app, py_next_absent by done.
  unfold py_next. simpl. by rewrite Z.eqb_refl.
Qed.

Lemma py_next_snoc_old {A : Type} (key : A -> Z) (k : Z) (xs : list A) (x : A) :
  k ∈ map key xs ->
  py_next (fun y => key y =? k) (xs ++ [x]) = py_next (fun y => key y =? k) xs.
Proof.
  intros Hold. rewrite py_next_app.
  by destruct (py_next_present key k xs Hold) as (y & -> & _).
Qed.

(** The record a create answers with is the record a get by its id answers
    with afterwards: [POST /users] then [GET /users/{id}], and [POST /events]
    then [GET /events/{id}], for the id in the 201 response. *)
Theorem created_record_is_served :
  (forall data users resp users',
      UserService.create_user data users = (Ok resp, users') ->
      status resp = 201 ->
      exists id,
        json_id (body resp) = Some id
        /\ UserService.get_user id users' = (Ok (mkResponse 200 (body resp)), users'))
  /\ (forall data events resp events',
         CalendarService.create_event data events = (Ok resp, events') ->
         status resp = 201 ->
         exists id,
           json_id (body resp) = Some id
           /\ CalendarService.get_event id events'
              = (Ok (mkResponse 200 (body resp)), events')).
Proof.
  split.
  - intros data users resp users' Hrun Hstatus.
    destruct (create_user_201 _ _ _ _ Hrun Hstatus)
      as (d & name & top & _ & _ & Htop & -> & ->).
    exists (top + 1). split; [apply json_id_user|].
    unfold UserService.get_user, bind, gets, ret.
    match goal with
    | |- context [users ++ [?u]] =>
        pose proof (py_next_snoc_fresh UserService.u_id users u) as Hfind
    end.
    cbn [UserService.u_id] in Hfind.
    rewrite Hfind by (apply is_max_fresh; by apply py_max_is_max). done.
  - intros data events resp events' Hrun Hstatus.
    destruct (create_event_201 _ _ _ _ Hrun Hstatus)
      as (d & title & start & top & _ & _ & _ & Htop & -> & ->).
    exists (top + 1). split; [apply json_id_event|].
    unfold CalendarService.get_event, bind, gets, ret.
    match goal with
    | |- context [events ++ [?e]] =>
        pose proof (py_next_snoc_fresh CalendarService.e_id events e) as Hfind
    end.
    cbn [CalendarService.e_id] in Hfind.
    rewrite Hfind by (apply is_max_fresh; by apply py_max_is_max). done.
Qed.

Lemma created_record_is_served_witness :
  exists id,
    json_id (UserService.user_json
               (UserService.mkUser 5 (JStr "Test") (JStr "") (JStr "user"))) = Some id
    /\ UserService.get_user id
         (UserService.USERS ++ [UserService.mkUser 5 (JStr "Test") (JStr "") (JStr "user")])
       = (Ok (mkResponse 200
                (UserService.user_json
                   (UserService.mkUser 5 (JStr "Test") (JStr "") (JStr "user")))),
          UserService.USERS ++ [UserService.mkUser 5 (JStr "Test") (JStr "") (JStr "user")]).
Proof.
  apply (proj1 created_record_is_served (JObj {[ "name" := JStr "Test" ]}) UserService.USERS
           (mkResponse 201 (UserService.user_json
              (UserService.mkUser 5 (JStr "Test") (JStr "") (JStr "user"))))
           (UserService.USERS
            ++ [UserService.mkUser 5 (JStr "Test") (JStr "") (JStr "user")]));
    [|reflexivity].
  vm_compute. reflexivity.
Defined.

(** A create does not disturb what is stored: whatever [POST /users] (or
    [POST /events]) answers, a get by an id that was in use before answers
    afterwards as it did before. *)
Theorem create_keeps_stored_records :
  (forall data users r users' k,
      UserService.create_user data users = (r, users') ->
      k ∈ map UserService.u_id users ->
      UserService.get_user k users' = (fst (UserService.get_user k users), users'))
  /\ (forall data events r events' k,
         CalendarService.create_event data events = (r, events') ->
         k ∈ map CalendarService.e_id events ->
         CalendarService.get_event k events'
         = (fst (CalendarService.get_event k events), events')).
Proof.
  split.
  - intros data users r users' k Hrun Hold.
    destruct (user_handle_store (UserService.POST_users data) _ _ _ Hrun)
      as [->|(top & new & _ & _ & ->)];
      unfold UserService.get_user, bind, gets, ret; [by case_match|].
    rewrite (py_next_snoc_old UserService.u_id k users new Hold). by case_match.
  - intros data events r events' k Hrun Hold.
    destruct (create_event_inv _ _ _ _ Hrun)
      as [[-> _]|(d & title & start & top & -> & Htitle & Hstart & Htop)];
      [unfold CalendarService.get_event, bind, gets, ret; by case_match|].
    rewrite (create_event_created d events title start top Htitle Hstart Htop) in Hrun.
    simplify_eq.
    unfold CalendarService.get_event, bind, gets, ret.
    match goal with
    | |- context [events ++ [?e]] =>
        rewrite (py_next_snoc_old CalendarService.e_id k events e Hold)
    end.
    by case_match.
Qed.

Lemma create_keeps_stored_records_witness :
  UserService.get_user 2
    (UserService.USERS ++ [UserService.mkUser 5 (JStr "Test") (JStr "") (JStr "user")])
  = (fst (UserService.get_user 2 UserService.USERS),
     UserService.USERS ++ [UserService.mkUser 5 (JStr "Test") (JStr "") (JStr "user")]).
Proof.
  apply (proj1 create_keeps_stored_records (JObj {[ "name" := JStr "Test" ]})
           UserService.USERS
           (Ok (mkResponse 201 (UserService.user_json
                  (UserService.mkUser 5 (JStr "Test") (JStr "") (JStr "user")))))).
  - vm_compute. reflexivity.
  - apply list_elem_of_further, list_elem_of_here.
Defined.

(** ** Invariants of the reachable stores *)

Lemma teams_handle_step (req : TeamsService.request) (s s' : TeamsService.Store)
    (r : result response) :
  TeamsService.handle req s = (r, s') ->
  s' = s
  \/ exists top new_message,
       py_max (map TeamsService.g_id (TeamsService.messages s)) = Ok top
       /\ TeamsService.g_id new_message = top + 1
       /\ TeamsService.g_team_id new_message ∈ map TeamsService.t_id (TeamsService.teams s)
       /\ s' = TeamsService.mkStore (TeamsService.teams s)
                 (TeamsService.messages s ++ [new_message]) (TeamsService.meetings s).
Proof.
  intros H. destruct req as [|team_id|team_id|utcnow team_id data| |];
    try (destruct (teams_handle_store _ _ _ _ H) as [->|(top & new & Htop & _ & ->)];
         [by left|]; simpl in H;
         unfold TeamsService.get_teams, TeamsService.get_team,
           TeamsService.get_team_messages, TeamsService.get_meetings,
           TeamsService.get_stats in H;
         run_handler; by left).
  simpl in H.
  destruct (send_team_message_inv _ _ _ _ _ _ H)
    as [[-> _]|(d & message & team & top & -> & Hmessage & Hteam & Htop)]; [by left|].
  rewrite (send_team_message_created utcnow team_id d s message team top
             Hmessage Hteam Htop) in H.
  simplify_eq. right.
  exists top, (TeamsService.mkMessage (top + 1) team_id
                 (default (JStr "user@company.com") (d !! "from")) message
                 (datetime_isoformat utcnow +:+ "Z") "text").
  split; [done|]. split; [reflexivity|]. split; [|reflexivity]. simpl.
  destruct (py_next_some _ _ _ _ Hteam) as [<- Hin]. by apply list_elem_of_fmap_2.
Qed.

Lemma user_reachable_prefix (s : list UserService.User) :
  reachable UserService.handle UserService.USERS s -> UserService.USERS `prefix_of` s.
Proof.
  revert s. apply reachable_ind_inv; [done|].
  intros s req r s' Hs Hrun.
  destruct (user_handle_store _ _ _ _ Hrun) as [->|(top & new & _ & _ & ->)]; [done|].
  by apply prefix_app_r.
Qed.

Lemma calendar_reachable_prefix (fromisoformat : string -> option datetime)
    (s : list CalendarService.Event) :
  reachable (CalendarService.handle fromisoformat) CalendarService.EVENTS s ->
  CalendarService.EVENTS `prefix_of` s.
Proof.
  revert s. apply reachable_ind_inv; [done|].
  intros s req r s' Hs Hrun.
  destruct (calendar_handle_store _ _ _ _ _ Hrun) as [->|(top & new & _ & _ & ->)];
    [done|].
  by apply prefix_app_r.
Qed.

Lemma teams_reachable_inv (s : TeamsService.Store) :
  reachable TeamsService.handle TeamsService.initial s ->
  TeamsService.teams s = TeamsService.TEAMS
  /\ TeamsService.meetings s = TeamsService.MEETINGS
  /\ TeamsService.MESSAGES `prefix_of` TeamsService.messages s
  /\ Forall (fun m => TeamsService.g_team_id m ∈ map TeamsService.t_id TeamsService.TEAMS)
       (TeamsService.messages s).
Proof.
  revert s. apply reachable_ind_inv.
  - repeat split; try done.
    repeat (apply Forall_cons; split;
            [first [apply list_elem_of_here | apply list_elem_of_further, list_elem_of_here]|]).
    apply Forall_nil_2.
  - intros s req r s' (Hteams & Hmeetings & Hprefix & Hrefs) Hrun.
    destruct (teams_handle_step _ _ _ _ Hrun)
      as [->|(top & new & _ & _ & Hteam & ->)]; [done|].
    rewrite Hteams in Hteam.
    cbn [TeamsService.teams TeamsService.meetings TeamsService.messages].
    repeat split; try done.
    + by apply prefix_app_r.
    + apply Forall_app. split; [done|]. by apply Forall_singleton.
Qed.

Lemma prefix_nonempty {A : Type} (xs ys : list A) : xs <> [] -> xs `prefix_of` ys -> ys <> [].
Proof. intros Hne [k ->]. by destruct xs. Qed.

Lemma py_max_seqZ (n : nat) :
  (0 < n)%nat -> py_max (seqZ 1 (Z.of_nat n)) = Ok (Z.of_nat n).
Proof.
  intros Hn.
  destruct (py_max_nonempty (seqZ 1 (Z.of_nat n))) as [m Hm].
  { intros Hnil. apply (f_equal length) in Hnil. rewrite length_seqZ in Hnil.
    simpl in Hnil. lia. }
  rewrite Hm. f_equal. apply (is_max_unique _ _ _ (py_max_is_max _ _ Hm)). split.
  - apply elem_of_seqZ. lia.
  - intros x Hx. apply elem_of_seqZ in Hx. lia.
Qed.

Lemma positions_snoc (ids : list Z) (top : Z) :
  ids = seqZ 1 (Z.of_nat (length ids)) ->
  py_max ids = Ok top ->
  ids ++ [top + 1] = seqZ 1 (Z.of_nat (length (ids ++ [top + 1]))).
Proof.
  intros Hpos Htop.
  assert (0 < length ids)%nat as Hlen
    by (pose proof (py_max_ok_nonempty _ _ Htop); destruct ids; [done|simpl; lia]).
  rewrite Hpos in Htop. rewrite py_max_seqZ in Htop by done. injection Htop as <-.
  rewrite length_app. simpl. rewrite Nat.add_1_r, seqZ_S, <- Hpos. do 2 f_equal. lia.
Qed.

Lemma user_reachable_positions (s : list UserService.User) :
  reachable UserService.handle UserService.USERS s ->
  map UserService.u_id s = seqZ 1 (Z.of_nat (length s)).
Proof.
  revert s. apply reachable_ind_inv; [done|].
  intros s req r s' Hs Hrun.
  destruct (user_handle_store _ _ _ _ Hrun) as [->|(top & new & Htop & Hid & ->)];
    [done|].
  rewrite map_app. simpl. rewrite Hid.
  rewrite <- (length_map UserService.u_id) in Hs.
  pose proof (positions_snoc _ _ Hs Htop) as Hsnoc.
  by rewrite !length_app, length_map in *.
Qed.

Lemma calendar_reachable_positions (fromisoformat : string -> option datetime)
    (s : list CalendarService.Event) :
  reachable (CalendarService.handle fromisoformat) CalendarService.EVENTS s ->
  map CalendarService.e_id s = seqZ 1 (Z.of_nat (length s)).
Proof.
  revert s. apply reachable_ind_inv; [done|].
  intros s req r s' Hs Hrun.
  destruct (calendar_handle_store _ _ _ _ _ Hrun)
    as [->|(top & new & Htop & Hid & ->)]; [done|].
  rewrite map_app. simpl. rewrite Hid.
  rewrite <- (length_map CalendarService.e_id) in Hs.
  pose proof (positions_snoc _ _ Hs Htop) as Hsnoc.
  by rewrite !length_app, length_map in *.
Qed.

Lemma teams_reachable_positions (s : TeamsService.Store) :
  reachable TeamsService.handle TeamsService.initial s ->
  map TeamsService.g_id (TeamsService.messages s)
  = seqZ 1 (Z.of_nat (length (TeamsService.messages s))).
Proof.
  revert s. apply reachable_ind_inv; [done|].
  intros s req r s' Hs Hrun.
  destruct (teams_handle_store _ _ _ _ Hrun) as [->|(top & new & Htop & Hid & ->)];
    [done|].
  simpl. rewrite map_app. simpl. rewrite Hid.
  rewrite <- (length_map TeamsService.g_id) in Hs.
  pose proof (positions_snoc _ _ Hs Htop) as Hsnoc.
  by rewrite !length_app, length_map in *.
Qed.

(** In every store a service can reach from its sample data the ids are the
    positions: the users, the events and the team messages carry the ids 1,
    2, ..., n in stored order, so the next id is the number of records plus
    one. *)
Theorem ids_are_positions :
  (forall s, reachable UserService.handle UserService.USERS s ->
             map UserService.u_id s = seqZ 1 (Z.of_nat (length s)))
  /\ (forall fromisoformat s,
         reachable (CalendarService.handle fromisoformat) CalendarService.EVENTS s ->
         map CalendarService.e_id s = seqZ 1 (Z.of_nat (length s)))
  /\ (forall s, reachable TeamsService.handle TeamsService.initial s ->
                map TeamsService.g_id (TeamsService.messages s)
                = seqZ 1 (Z.of_nat (length (TeamsService.messages s)))).
Proof.
  split; [exact user_reachable_positions|].
  split; [exact calendar_reachable_positions|exact teams_reachable_positions].
Qed.

(** No request removes or rewrites a record: the users, the events and the
    team messages before a request are a prefix of those after it, whatever
    the request and its outcome. *)
Theorem stores_are_append_only :
  (forall req s r s', UserService.handle req s = (r, s') -> s `prefix_of` s')
  /\ (forall fromisoformat req s r s',
         CalendarService.handle fromisoformat req s = (r, s') -> s `prefix_of` s')
  /\ (forall req s r s',
         TeamsService.handle req s = (r, s') ->
         TeamsService.messages s `prefix_of` TeamsService.messages s').
Proof.
  split; [|split].
  - intros req s r s' Hrun.
    destruct (user_handle_store _ _ _ _ Hrun) as [->|(top & new & _ & _ & ->)]; [done|].
    by apply prefix_app_r.
  - intros fromisoformat req s r s' Hrun.
    destruct (calendar_handle_store _ _ _ _ _ Hrun) as [->|(top & new & _ & _ & ->)];
      [done|].
    by apply prefix_app_r.
  - intros req s r s' Hrun.
    destruct (teams_handle_store _ _ _ _ Hrun) as [->|(top & new & _ & _ & ->)]; [done|].
    by apply prefix_app_r.
Qed.

Lemma stores_are_append_only_witness :
  UserService.USERS
  `prefix_of` UserService.USERS
              ++ [UserService.mkUser 5 (JStr "Test") (JStr "") (JStr "user")].
Proof.
  apply (proj1 stores_are_append_only
           (UserService.POST_users (JObj {[ "name" := JStr "Test" ]})) UserService.USERS
           (Ok (mkResponse 201 (UserService.user_json
                  (UserService.mkUser 5 (JStr "Test") (JStr "") (JStr "user")))))).
  vm_compute. reflexivity.
Defined.

(** The failure on an empty collection cannot happen from the sample data:
    in every store a service can reach, a create with the required fields
    answers 201 ([POST /users] with [name], [POST /events] with [title] and
    [start], [POST /teams/{id}/messages] with [message] for the id of a
    sample team). *)
Theorem valid_create_succeeds_when_reachable :
  (forall s (d : gmap string jvalue),
      reachable UserService.handle UserService.USERS s ->
      is_Some (d !! "name") ->
      exists new_user,
        UserService.create_user (JObj d) s
        = (Ok (mkResponse 201 (UserService.user_json new_user)), s ++ [new_user]))
  /\ (forall fromisoformat s (d : gmap string jvalue),
         reachable (CalendarService.handle fromisoformat) CalendarService.EVENTS s ->
         is_Some (d !! "title") -> is_Some (d !! "start") ->
         exists new_event,
           CalendarService.create_event (JObj d) s
           = (Ok (mkResponse 201 (CalendarService.event_json new_event)), s ++ [new_event]))
  /\ (forall utcnow team_id s (d : gmap string jvalue),
         reachable TeamsService.handle TeamsService.initial s ->
         is_Some (d !! "message") ->
         team_id ∈ map TeamsService.t_id TeamsService.TEAMS ->
         exists new_message,
           TeamsService.send_team_message utcnow team_id (JObj d) s
           = (Ok (mkResponse 201 (TeamsService.message_json new_message)),
              TeamsService.mkStore (TeamsService.teams s)
                (TeamsService.messages s ++ [new_message]) (TeamsService.meetings s))).
Proof.
  split; [|split].
  - intros s d Hreach [name Hname].
    destruct (py_max_nonempty (map UserService.u_id s)) as [top Htop].
    { apply map_nonempty. eapply prefix_nonempty; [|by apply user_reachable_prefix]. done. }
    eexists. by apply (create_user_created d s name top).
  - intros fromisoformat s d Hreach [title Htitle] [start Hstart].
    destruct (py_max_nonempty (map CalendarService.e_id s)) as [top Htop].
    { apply map_nonempty.
      eapply prefix_nonempty; [|by eapply calendar_reachable_prefix]. done. }
    eexists. by apply (create_event_created d s title start top).
  - intros utcnow team_id s d Hreach [message Hmessage] Hteam.
    destruct (teams_reachable_inv s Hreach) as (Hteams & _ & Hprefix & _).
    rewrite <- Hteams in Hteam.
    destruct (py_next_present TeamsService.t_id team_id _ Hteam) as (team & Hfind & _).
    destruct (py_max_nonempty (map TeamsService.g_id (TeamsService.messages s)))
      as [top Htop].
    { apply map_nonempty. eapply prefix_nonempty; [|exact Hprefix]. done. }
    eexists. by apply (send_team_message_created utcnow team_id d s message team top).
Qed.

Lemma valid_create_succeeds_when_reachable_witness :
  exists new_user,
    UserService.create_user (JObj {[ "name" := JStr "Again" ]})
      (UserService.USERS ++ [UserService.mkUser 5 (JStr "Test") (JStr "") (JStr "user")])
    = (Ok (mkResponse 201 (UserService.user_json new_user)),
       (UserService.USERS ++ [UserService.mkUser 5 (JStr "Test") (JStr "") (JStr "user")])
       ++ [new_user]).
Proof.
  apply (proj1 valid_create_succeeds_when_reachable).
  - apply (reach_step _ _ UserService.USERS
             (UserService.POST_users (JObj {[ "name" := JStr "Test" ]}))
             (Ok (mkResponse 201 (UserService.user_json
                    (UserService.mkUser 5 (JStr "Test") (JStr "") (JStr "user")))))
             _ (reach_init _ _)).
    vm_compute. reflexivity.
  - eexists. apply lookup_singleton_eq.
Defined.

(** Team messages keep pointing at teams: in every store the teams service
    can reach, the teams and meetings are the sample ones and every message
    carries the id of a stored team. *)
Theorem messages_refer_to_teams (s : TeamsService.Store) :
  reachable TeamsService.handle TeamsService.initial s ->
  TeamsService.teams s = TeamsService.TEAMS
  /\ TeamsService.meetings s = TeamsService.MEETINGS
  /\ forall m, m ∈ TeamsService.messages s ->
               TeamsService.g_team_id m ∈ map TeamsService.t_id (TeamsService.teams s).
Proof.
  intros Hreach. destruct (teams_reachable_inv s Hreach) as (Hteams & Hmeetings & _ & Hrefs).
  split; [done|]. split; [done|].
  intros m Hm. rewrite Hteams. by apply (proj1 (Forall_forall _ _) Hrefs).
Qed.

Lemma messages_refer_to_teams_witness :
  let new_message :=
    TeamsService.mkMessage 4 2 (JStr "user@company.com") (JStr "hello")
      "2024-08-24T10:00:00Z" "text" in
  let s := TeamsService.mkStore TeamsService.TEAMS (TeamsService.MESSAGES ++ [new_message])
             TeamsService.MEETINGS in
  TeamsService.teams s = TeamsService.TEAMS
  /\ TeamsService.meetings s = TeamsService.MEETINGS
  /\ forall m, m ∈ TeamsService.messages s ->
               TeamsService.g_team_id m ∈ map TeamsService.t_id (TeamsService.teams s).
Proof.
  intros new_message s. apply messages_refer_to_teams.
  apply (reach_step _ _ TeamsService.initial
           (TeamsService.POST_team_messages (mkDatetime 2024 8 24 10 0 0 0 None) 2
              (JObj {[ "message" := JStr "hello" ]}))
           (Ok (mkResponse 201 (TeamsService.message_json new_message)))
           _ (reach_init _ _)).
  vm_compute. reflexivity.
Defined.

(** ** Reading the collections *)

Lemma filter_none {A : Type} (p : A -> bool) (xs : list A) :
  Forall (fun x => p x = false) xs -> List.filter p xs = [].
Proof.
  induction 1 as [|x xs Hx _ IH]; simpl; [done|]. by rewrite Hx.
Qed.

Lemma filter_snoc {A : Type} (p : A -> bool) (xs : list A) (x : A) :
  List.filter p (xs ++ [x]) = List.filter p xs ++ (if p x then [x] else []).
Proof. rewrite List.filter_app. simpl. by destruct (p x). Qed.

(** [GET /teams/{id}/messages] does not look the team up: in every store the
    service can reach, for an id that no team has it answers 200 with an
    empty list and count 0, where [GET /teams/{id}] answers 404. *)
Theorem unknown_team_has_no_messages (s : TeamsService.Store) (team_id : Z) :
  reachable TeamsService.handle TeamsService.initial s ->
  team_id ∉ map TeamsService.t_id (TeamsService.teams s) ->
  TeamsService.get_team_messages team_id s
  = (Ok (mkResponse 200
           (JObj {[ "messages" := JList []; "count" := JInt 0;
                    "team_id" := JInt team_id ]})), s)
  /\ TeamsService.get_team team_id s = (Ok (error_response 404 "Team not found"), s).
Proof.
  intros Hreach Hunknown.
  destruct (teams_reachable_inv s Hreach) as (Hteams & _ & _ & Hrefs). split.
  - unfold TeamsService.get_team_messages, bind, gets, ret.
    rewrite filter_none; [done|].
    eapply Forall_impl; [exact Hrefs|]. intros m Hm. simpl in Hm.
    apply Z.eqb_neq. intros Heq. apply Hunknown. by rewrite Hteams, <- Heq.
  - unfold TeamsService.get_team, bind, gets, ret.
    by rewrite (py_next_absent TeamsService.t_id).
Qed.

Lemma unknown_team_has_no_messages_witness :
  TeamsService.get_team_messages 999 TeamsService.initial
  = (Ok (mkResponse 200
           (JObj {[ "messages" := JList []; "count" := JInt 0; "team_id" := JInt 999 ]})),
     TeamsService.initial)
  /\ TeamsService.get_team 999 TeamsService.initial
     = (Ok (error_response 404 "Team not found"), TeamsService.initial).
Proof.
  apply (unknown_team_has_no_messages TeamsService.initial 999); [apply reach_init|].
  vm_compute. intros H.
  repeat (apply elem_of_cons in H as [H|H]; [discriminate H|]).
  by apply elem_of_nil in H.
Defined.

(** A message posted to a team shows up at the end of that team's list: after
    a [POST /teams/{id}/messages] answered with 201, [GET /teams/{id}/messages]
    lists what it listed before followed by the returned message, with the
    count one higher, and the lists of the other teams are as they were. *)
Theorem posted_message_is_listed (utcnow : datetime) (team_id : Z) (data : jvalue)
    (s s' : TeamsService.Store) (resp : response) :
  TeamsService.send_team_message utcnow team_id data s = (Ok resp, s') ->
  status resp = 201 ->
  (exists listed,
      fst (TeamsService.get_team_messages team_id s)
      = Ok (mkResponse 200
              (JObj {[ "messages" := JList listed;
                       "count" := JInt (Z.of_nat (length listed));
                       "team_id" := JInt team_id ]}))
      /\ fst (TeamsService.get_team_messages team_id s')
         = Ok (mkResponse 200
                 (JObj {[ "messages" := JList (listed ++ [body resp]);
                          "count" := JInt (Z.of_nat (length listed) + 1);
                          "team_id" := JInt team_id ]})))
  /\ forall other,
       other <> team_id ->
       fst (TeamsService.get_team_messages other s')
       = fst (TeamsService.get_team_messages other s).
Proof.
  intros Hrun Hstatus.
  destruct (send_team_message_201 _ _ _ _ _ _ Hrun Hstatus)
    as (d & message & team & top & _ & _ & _ & _ & -> & ->).
  unfold TeamsService.get_team_messages, bind, gets, ret, py_len.
  cbn [fst body TeamsService.messages]. split.
  - eexists. split; [by rewrite length_map|].
    rewrite filter_snoc. cbn [TeamsService.g_team_id]. rewrite Z.eqb_refl.
    rewrite map_app, !length_app, !length_map. simpl.
    by rewrite Nat2Z.inj_add.
  - intros other Hother. rewrite filter_snoc. cbn [TeamsService.g_team_id].
    destruct (Z.eqb_spec team_id other); [done|]. by rewrite app_nil_r.
Qed.

Lemma posted_message_is_listed_witness :
  let new_message :=
    TeamsService.mkMessage 4 2 (JStr "user@company.com") (JStr "hello")
      "2024-08-24T10:00:00Z" "text" in
  let s' := TeamsService.mkStore TeamsService.TEAMS (TeamsService.MESSAGES ++ [new_message])
              TeamsService.MEETINGS in
  fst (TeamsService.get_team_messages 1 s')
  = fst (TeamsService.get_team_messages 1 TeamsService.initial).
Proof.
  intros new_message s'.
  assert (TeamsService.send_team_message (mkDatetime 2024 8 24 10 0 0 0 None) 2
            (JObj {[ "message" := JStr "hello" ]}) TeamsService.initial
          = (Ok (mkResponse 201 (TeamsService.message_json new_message)), s')) as Hrun
    by (vm_compute; reflexivity).
  apply (proj2 (posted_message_is_listed _ _ _ _ _ _ Hrun eq_refl) 1).
  discriminate.
Defined.

(** ** The emails *)

Lemma filter_length_bound {A : Type} (p : A -> bool) (xs : list A) :
  0 <= Z.of_nat (length (List.filter p xs)) <= Z.of_nat (length xs).
Proof. pose proof (List.filter_length_le p xs). lia. Qed.

(** The four views of the emails agree, whatever the emails are: the stats
    report the count of [GET /emails] as total, the count of
    [GET /emails/unread] (which is also the [unread_count] of [GET /emails])
    as unread and the count of [GET /emails/important] as important; read
    and unread add up to the total, and neither unread nor important
    exceeds it. *)
Theorem email_views_agree (emails : list OutlookService.Email) :
  exists total unread important all_json unread_json important_json,
    0 <= unread <= total /\ 0 <= important <= total
    /\ OutlookService.get_email_stats emails
       = (Ok (mkResponse 200
                (JObj {[ "total_emails" := JInt total; "unread_emails" := JInt unread;
                         "important_emails" := JInt important;
                         "read_emails" := JInt (total - unread) ]})), emails)
    /\ OutlookService.get_emails emails
       = (Ok (mkResponse 200
                (JObj {[ "emails" := JList all_json; "count" := JInt total;
                         "unread_count" := JInt unread ]})), emails)
    /\ OutlookService.get_unread_emails emails
       = (Ok (mkResponse 200
                (JObj {[ "emails" := JList unread_json; "count" := JInt unread ]})), emails)
    /\ OutlookService.get_important_emails emails
       = (Ok (mkResponse 200
                (JObj {[ "emails" := JList important_json; "count" := JInt important ]})),
          emails).
Proof.
  exists (Z.of_nat (length emails)),
    (Z.of_nat (length (OutlookService.unread emails))),
    (Z.of_nat (length (List.filter OutlookService.m_important emails))),
    (map OutlookService.email_json emails),
    (map OutlookService.email_json (OutlookService.unread emails)),
    (map OutlookService.email_json (List.filter OutlookService.m_important emails)).
  split; [apply filter_length_bound|]. split; [apply filter_length_bound|].
  split; [reflexivity|]. split; [reflexivity|]. split; reflexivity.
Qed.

Lemma outlook_reachable_constant (s : list OutlookService.Email) :
  reachable OutlookService.handle OutlookService.EMAILS s -> s = OutlookService.EMAILS.
Proof.
  revert s. apply reachable_ind_inv; [done|].
  intros s req r s' -> Hrun. by apply outlook_handle_store in Hrun.
Qed.

(** Sending never changes the mailbox: in every store the outlook service
    can reach the emails are the three sample emails, so [GET /emails]
    always reports count 3 and unread_count 2, and the stats 3 emails, 2
    unread, 1 important, 1 read. *)
Theorem mailbox_is_constant (s : list OutlookService.Email) :
  reachable OutlookService.handle OutlookService.EMAILS s ->
  s = OutlookService.EMAILS
  /\ OutlookService.get_emails s
     = (Ok (mkResponse 200
              (JObj {[ "emails" := JList (map OutlookService.email_json OutlookService.EMAILS);
                       "count" := JInt 3; "unread_count" := JInt 2 ]})), s)
  /\ OutlookService.get_email_stats s
     = (Ok (mkResponse 200
              (JObj {[ "total_emails" := JInt 3; "unread_emails" := JInt 2;
                       "important_emails" := JInt 1; "read_emails" := JInt 1 ]})), s).
Proof.
  intros Hreach. apply outlook_reachable_constant in Hreach. subst s.
  split; [done|]. split; reflexivity.
Qed.

Lemma mailbox_is_constant_witness :
  OutlookService.EMAILS = OutlookService.EMAILS
  /\ OutlookService.get_emails OutlookService.EMAILS
     = (Ok (mkResponse 200
              (JObj {[ "emails" := JList (map OutlookService.email_json OutlookService.EMAILS);
                       "count" := JInt 3; "unread_count" := JInt 2 ]})),
        OutlookService.EMAILS)
  /\ OutlookService.get_email_stats OutlookService.EMAILS
     = (Ok (mkResponse 200
              (JObj {[ "total_emails" := JInt 3; "unread_emails" := JInt 2;
                       "important_emails" := JInt 1; "read_emails" := JInt 1 ]})),
        OutlookService.EMAILS).
Proof.
  apply (mailbox_is_constant OutlookService.EMAILS).
  pose proof (send_email_sent (mkDatetime 2024 8 24 10 0 0 0 None)
                {[ "to" := JStr "a@b.c"; "subject" := JStr "Hi" ]} OutlookService.EMAILS
                (JStr "a@b.c") (JStr "Hi") 3) as Hsent.
  specialize (Hsent ltac:(vm_compute; reflexivity) ltac:(vm_compute; reflexivity)
                ltac:(vm_compute; reflexivity)).
  exact (reach_step OutlookService.handle OutlookService.EMAILS OutlookService.EMAILS
           (OutlookService.POST_emails_send (mkDatetime 2024 8 24 10 0 0 0 None)
              (JObj {[ "to" := JStr "a@b.c"; "subject" := JStr "Hi" ]}))
           _ OutlookService.EMAILS (reach_init _ _) Hsent).
Defined.

(** ** Reading never fails *)

(** Apart from [GET /events/today], a GET handler never raises and never
    changes the store: it answers 200, or 404 for a get by id; this holds
    for every store, and for every request of the onedrive service. *)
Theorem reads_never_fail :
  (forall req s,
      UserService.is_get req = true ->
      exists resp,
        UserService.handle req s = (Ok resp, s) /\ (status resp = 200 \/ status resp = 404))
  /\ (forall fromisoformat req s,
         CalendarService.is_get req = true ->
         (forall now, req <> CalendarService.GET_events_today now) ->
         exists resp,
           CalendarService.handle fromisoformat req s = (Ok resp, s)
           /\ (status resp = 200 \/ status resp = 404))
  /\ (forall req s,
         OutlookService.is_get req = true ->
         exists resp,
           OutlookService.handle req s = (Ok resp, s)
           /\ (status resp = 200 \/ status resp = 404))
  /\ (forall req s,
         TeamsService.is_get req = true ->
         exists resp,
           TeamsService.handle req s = (Ok resp, s)
           /\ (status resp = 200 \/ status resp = 404))
  /\ (forall req s,
         exists resp,
           OneDriveService.handle req s = (Ok resp, s)
           /\ (status resp = 200 \/ status resp = 404)).
Proof.
  split; [|split; [|split; [|split]]].
  - intros [|user_id|data] s Hget; try done; simpl;
      unfold UserService.get_users, UserService.get_user, bind, gets, ret.
    + eexists. split; [reflexivity|by left].
    + case_match; eexists; (split; [reflexivity|]); auto.
  - intros fromisoformat [|event_id|now|data] s Hget Hnot; try done; simpl;
      unfold CalendarService.get_events, CalendarService.get_event, bind, gets, ret.
    + eexists. split; [reflexivity|by left].
    + case_match; eexists; (split; [reflexivity|]); auto.
    + by destruct (Hnot now).
  - intros [|email_id| | |utcnow data|] s Hget; try done; simpl;
      unfold OutlookService.get_emails, OutlookService.get_email,
        OutlookService.get_unread_emails, OutlookService.get_important_emails,
        OutlookService.get_email_stats, bind, gets, ret.
    + eexists. split; [reflexivity|by left].
    + case_match; eexists; (split; [reflexivity|]); auto.
    + eexists. split; [reflexivity|by left].
    + eexists. split; [reflexivity|by left].
    + eexists. split; [reflexivity|by left].
  - intros [|team_id|team_id|utcnow team_id data| |] s Hget; try done; simpl;
      unfold TeamsService.get_teams, TeamsService.get_team,
        TeamsService.get_team_messages, TeamsService.get_meetings,
        TeamsService.get_stats, bind, gets, ret.
    + eexists. split; [reflexivity|by left].
    + case_match; eexists; (split; [reflexivity|]); auto.
    + eexists. split; [reflexivity|by left].
    + eexists. split; [reflexivity|by left].
    + eexists. split; [reflexivity|by left].
  - intros [|file_id| |] s; simpl;
      unfold OneDriveService.get_files, OneDriveService.get_file,
        OneDriveService.get_folders, OneDriveService.get_shared_files, bind, gets, ret.
    + eexists. split; [reflexivity|by left].
    + case_match; eexists; (split; [reflexivity|]); auto.
    + eexists. split; [reflexivity|by left].
    + eexists. split; [reflexivity|by left].
Qed.

(** ** The spelling of the UTC suffix *)

Lemma str_replace_Z_idempotent (s : string) :
  str_replace_Z (str_replace_Z s) = str_replace_Z s.
Proof.
  induction s as [|c s IH]; simpl; [done|].
  destruct (Ascii.eqb c "Z") eqn:Hc; simpl.
  - change (str_replace_Z ("" +:+ str_replace_Z s))
      with (str_replace_Z (str_replace_Z s)).
    rewrite IH. reflexivity.
  - by rewrite Hc, IH.
Qed.

(** [GET /events/today] cannot tell [Z] from [+00:00]: an event has the same
    date, or raises the same exception, whether its start is stored as
    given or with every [Z] already replaced, so both spellings are listed
    on the same days. *)
Theorem today_ignores_Z_spelling (fromisoformat : string -> option datetime)
    (today : date) (e : CalendarService.Event) (s : string) :
  CalendarService.e_start e = JStr s ->
  let e' :=
    CalendarService.mkEvent (CalendarService.e_id e) (CalendarService.e_title e)
      (JStr (str_replace_Z s)) (CalendarService.e_end e) (CalendarService.e_attendees e) in
  CalendarService.event_date fromisoformat e' = CalendarService.event_date fromisoformat e
  /\ CalendarService.starts_on fromisoformat today e'
     = CalendarService.starts_on fromisoformat today e.
Proof.
  intros Hstart e'.
  assert (CalendarService.event_date fromisoformat e'
          = CalendarService.event_date fromisoformat e) as Hdate.
  { unfold CalendarService.event_date. rewrite Hstart. simpl.
    by rewrite str_replace_Z_idempotent. }
  split; [done|]. unfold CalendarService.starts_on. by rewrite Hdate.
Qed.

Lemma today_ignores_Z_spelling_witness :
  CalendarService.event_date py_fromisoformat
    (CalendarService.mkEvent 1 (JStr "Team Meeting") (JStr "2024-08-22T09:00:00+00:00")
       (JStr "2024-08-22T10:00:00Z") (JList []))
  = CalendarService.event_date py_fromisoformat
      (CalendarService.mkEvent 1 (JStr "Team Meeting") (JStr "2024-08-22T09:00:00Z")
         (JStr "2024-08-22T10:00:00Z") (JList [])).
Proof.
  apply (proj1 (today_ignores_Z_spelling py_fromisoformat (mkDate 2024 8 22)
                  (CalendarService.mkEvent 1 (JStr "Team Meeting")
                     (JStr "2024-08-22T09:00:00Z") (JStr "2024-08-22T10:00:00Z") (JList []))
                  "2024-08-22T09:00:00Z" eq_refl)).
Defined.

(** ** Timestamps: printing, then parsing *)

Lemma list_ascii_of_string_app (a b : string) :
  String.list_ascii_of_string (a +:+ b)
  = String.list_ascii_of_string a ++ String.list_ascii_of_string b.
Proof. induction a as [|c a IH]; simpl; [done|]. by rewrite IH. Qed.

Lemma digit_val_digit_char (n : Z) : digit_val (digit_char n) = Some (n mod 10).
Proof.
  unfold digit_val, digit_char.
  pose proof (Z.mod_pos_bound n 10 ltac:(lia)) as Hmod.
  rewrite nat_ascii_embedding by lia. rewrite Z2Nat.id by lia.
  destruct (Z.leb_spec 48 (48 + n mod 10)); [|lia].
  destruct (Z.leb_spec (48 + n mod 10) 57); [|lia].
  simpl. f_equal. lia.
Qed.

(** The digits can also be read from the right. *)
Lemma parse_digits_succ (k : nat) (acc : Z) (p : list ascii) :
  parse_digits (S k) acc p
  = '(v, r) ← parse_digits k acc p;
    match r with
    | c :: r' => d ← digit_val c; Some (v * 10 + d, r')
    | [] => None
    end.
Proof.
  revert acc p. induction k as [|k IH]; intros acc p.
  - simpl. destruct p as [|c p]; [done|]. by destruct (digit_val c).
  - change (parse_digits (S (S k)) acc p)
      with (match p with
            | c :: p' => d ← digit_val c; parse_digits (S k) (acc * 10 + d) p'
            | [] => None
            end).
    destruct p as [|c p]; [done|]. simpl. destruct (digit_val c) as [d|]; [|done].
    simpl. apply IH.
Qed.

Lemma parse_digits_pad_num (width : nat) (n acc : Z) (rest : list ascii) :
  0 <= n < 10 ^ Z.of_nat width ->
  parse_digits width acc (String.list_ascii_of_string (pad_num width n) ++ rest)
  = Some (acc * 10 ^ Z.of_nat width + n, rest).
Proof.
  revert n rest. induction width as [|w IH]; intros n rest Hn.
  - simpl in *. f_equal. f_equal. lia.
  - rewrite parse_digits_succ.
    cbn [pad_num]. rewrite list_ascii_of_string_app, <- app_assoc.
    rewrite Nat2Z.inj_succ, Z.pow_succ_r in * by lia.
    rewrite IH by (split; [apply Z.div_pos; lia|apply Z.div_lt_upper_bound; lia]).
    simpl. rewrite digit_val_digit_char. simpl. f_equal. f_equal.
    pose proof (Z.div_mod n 10 ltac:(lia)). lia.
Qed.

Lemma length_pad_num (width : nat) (n : Z) :
  length (String.list_ascii_of_string (pad_num width n)) = width.
Proof.
  revert n. induction width as [|w IH]; intros n; [done|].
  cbn [pad_num]. rewrite list_ascii_of_string_app, length_app, IH. simpl. lia.
Qed.

Lemma digit_char_plain (n : Z) :
  Ascii.eqb (digit_char n) "+" = false /\ Ascii.eqb (digit_char n) "-" = false
  /\ Ascii.eqb (digit_char n) "Z" = false.
Proof.
  pose proof (digit_val_digit_char n) as Hval.
  repeat split; apply Ascii.eqb_neq; intros Heq; rewrite Heq in Hval; discriminate Hval.
Qed.

Lemma pad_num_no_sign (width : nat) (n : Z) :
  Forall (fun c => Ascii.eqb c "+" = false /\ Ascii.eqb c "-" = false)
    (String.list_ascii_of_string (pad_num width n)).
Proof.
  revert n. induction width as [|w IH]; intros n; [apply Forall_nil_2|].
  cbn [pad_num]. rewrite list_ascii_of_string_app. apply Forall_app. split; [apply IH|].
  apply Forall_singleton. pose proof (digit_char_plain n). tauto.
Qed.

Lemma split_tz_no_sign (p rest : list ascii) :
  Forall (fun c => Ascii.eqb c "+" = false /\ Ascii.eqb c "-" = false) p ->
  split_tz (p ++ rest) = (p ++ (split_tz rest).1, (split_tz rest).2).
Proof.
  induction 1 as [|c p [Hplus Hminus] _ IH]; simpl.
  - by destruct (split_tz rest).
  - rewrite Hplus, Hminus, IH. done.
Qed.

Lemma str_replace_Z_app (a b : string) :
  str_replace_Z (a +:+ b) = str_replace_Z a +:+ str_replace_Z b.
Proof.
  induction a as [|c a IH]; simpl; [done|].
  destruct (Ascii.eqb c "Z"); simpl; by rewrite IH.
Qed.

Lemma str_replace_Z_pad_num (width : nat) (n : Z) :
  str_replace_Z (pad_num width n) = pad_num width n.
Proof.
  revert n. induction width as [|w IH]; intros n; [done|].
  cbn [pad_num]. rewrite str_replace_Z_app, IH. simpl.
  by destruct (digit_char_plain n) as (_ & _ & ->).
Qed.

(** The characters of a printed clock reading. *)
Lemma datetime_isoformat_chars (dt : datetime) :
  String.list_ascii_of_string (datetime_isoformat dt)
  = (String.list_ascii_of_string (pad_num 4 (dt_year dt))
     ++ "-"%char :: String.list_ascii_of_string (pad_num 2 (dt_month dt))
     ++ "-"%char :: String.list_ascii_of_string (pad_num 2 (dt_day dt)))
    ++ "T"%char
       :: String.list_ascii_of_string (pad_num 2 (dt_hour dt))
       ++ ":"%char :: String.list_ascii_of_string (pad_num 2 (dt_minute dt))
       ++ ":"%char :: String.list_ascii_of_string (pad_num 2 (dt_second dt))
       ++ (if dt_microsecond dt =? 0 then []
           else "."%char :: String.list_ascii_of_string (pad_num 6 (dt_microsecond dt))).
Proof.
  unfold datetime_isoformat, date_isoformat. cbn [dt_date d_year d_month d_day].
  rewrite !list_ascii_of_string_app. cbn [String.list_ascii_of_string].
  rewrite <- !app_assoc. cbn [app].
  destruct (dt_microsecond dt =? 0); [done|].
  by rewrite list_ascii_of_string_app.
Qed.

Lemma parse_isoformat_date_chars (year month day : Z) :
  0 <= year < 10000 -> 0 <= month < 100 -> 0 <= day < 100 ->
  parse_isoformat_date
    (String.list_ascii_of_string (pad_num 4 year)
     ++ "-"%char :: String.list_ascii_of_string (pad_num 2 month)
     ++ "-"%char :: String.list_ascii_of_string (pad_num 2 day))
  = Some (mkDate year month day).
Proof.
  intros Hy Hm Hd. unfold parse_isoformat_date.
  rewrite parse_digits_pad_num by (simpl; lia). cbn [mbind option_bind].
  rewrite parse_digits_pad_num by (simpl; lia). cbn [mbind option_bind].
  rewrite <- (app_nil_r (String.list_ascii_of_string (pad_num 2 day))).
  rewrite parse_digits_pad_num by (simpl; lia). cbn [mbind option_bind].
  do 2 f_equal; lia.
Qed.

Lemma parse_hh_mm_ss_ff_chars (hh mm ss us : Z) :
  0 <= hh < 100 -> 0 <= mm < 100 -> 0 <= ss < 100 -> 0 <= us < 1000000 ->
  parse_hh_mm_ss_ff
    (String.list_ascii_of_string (pad_num 2 hh)
     ++ ":"%char :: String.list_ascii_of_string (pad_num 2 mm)
     ++ ":"%char :: String.list_ascii_of_string (pad_num 2 ss)
     ++ (if us =? 0 then []
         else "."%char :: String.list_ascii_of_string (pad_num 6 us)))
  = Some (hh, mm, ss, us).
Proof.
  intros Hh Hm Hs Hus. unfold parse_hh_mm_ss_ff.
  rewrite parse_digits_pad_num by (simpl; lia). cbn [mbind option_bind].
  rewrite parse_digits_pad_num by (simpl; lia). cbn [mbind option_bind].
  rewrite parse_digits_pad_num by (simpl; lia). cbn [mbind option_bind].
  destruct (Z.eqb_spec us 0) as [->|Hne].
  - do 4 f_equal; lia.
  - rewrite length_pad_num. cbn [Nat.eqb].
    rewrite <- (app_nil_r (String.list_ascii_of_string (pad_num 6 us))).
    rewrite parse_digits_pad_num by (simpl; lia). cbn [mbind option_bind].
    do 4 f_equal; lia.
Qed.

Lemma time_chars_no_sign (hh mm ss us : Z) :
  Forall (fun c => Ascii.eqb c "+" = false /\ Ascii.eqb c "-" = false)
    (String.list_ascii_of_string (pad_num 2 hh)
     ++ ":"%char :: String.list_ascii_of_string (pad_num 2 mm)
     ++ ":"%char :: String.list_ascii_of_string (pad_num 2 ss)
     ++ (if us =? 0 then []
         else "."%char :: String.list_ascii_of_string (pad_num 6 us))).
Proof.
  apply Forall_app. split; [apply pad_num_no_sign|].
  apply Forall_cons. split; [done|].
  apply Forall_app. split; [apply pad_num_no_sign|].
  apply Forall_cons. split; [done|].
  apply Forall_app. split; [apply pad_num_no_sign|].
  destruct (us =? 0); [apply Forall_nil_2|].
  apply Forall_cons. split; [done|apply pad_num_no_sign].
Qed.

Lemma length_date_chars (year month day : Z) :
  length (String.list_ascii_of_string (pad_num 4 year)
          ++ "-"%char :: String.list_ascii_of_string (pad_num 2 month)
          ++ "-"%char :: String.list_ascii_of_string (pad_num 2 day)) = 10%nat.
Proof.
  rewrite length_app, length_pad_num. cbn [length].
  rewrite length_app, length_pad_num. cbn [length].
  by rewrite length_pad_num.
Qed.

Lemma datetime_valid_clock_reading (dt : datetime) :
  is_clock_reading dt -> datetime_valid dt = true.
Proof.
  intros (Hy & Hm & Hd & Hh & Hmi & Hs & _ & Htz). unfold datetime_valid.
  rewrite Htz. repeat (apply andb_true_intro; split); lia.
Qed.

(** Printing a clock reading and parsing it gives the reading back. *)
Lemma py_fromisoformat_isoformat (dt : datetime) :
  is_clock_reading dt -> py_fromisoformat (datetime_isoformat dt) = Some dt.
Proof.
  intros Hclock. pose proof (datetime_valid_clock_reading dt Hclock) as Hvalid.
  destruct Hclock as (Hy & Hm & Hd & Hh & Hmi & Hs & Hus & Htz).
  pose proof (Z.le_trans _ _ _ (proj2 Hd)
                (ltac:(unfold days_in_month; repeat case_match; lia)
                  : days_in_month (dt_year dt) (dt_month dt) <= 31)) as Hday.
  unfold py_fromisoformat. rewrite datetime_isoformat_chars.
  rewrite take_app_length' by (by rewrite length_date_chars).
  rewrite drop_app_length' by (by rewrite length_date_chars).
  rewrite parse_isoformat_date_chars by lia. cbn [mbind option_bind d_year d_month d_day].
  unfold parse_isoformat_time.
  rewrite <- (app_nil_r (_ ++ _ :: _ ++ _ :: _ ++ _)).
  rewrite split_tz_no_sign by apply time_chars_no_sign.
  cbn [split_tz fst snd]. rewrite app_nil_r.
  rewrite parse_hh_mm_ss_ff_chars by lia. cbn [mbind option_bind].
  destruct dt as [y m d h mi s us tz]. simpl in *. subst tz. by rewrite Hvalid.
Qed.

Lemma str_replace_Z_isoformat (dt : datetime) :
  str_replace_Z (datetime_isoformat dt) = datetime_isoformat dt.
Proof.
  unfold datetime_isoformat, date_isoformat.
  rewrite !str_replace_Z_app, !str_replace_Z_pad_num.
  destruct (dt_microsecond dt =? 0); [done|].
  by rewrite str_replace_Z_app, str_replace_Z_pad_num.
Qed.

(** A clock reading printed with a [Z] behind it, as the send handlers do,
    is read back by the calendar's parse as the same reading at UTC. *)
Lemma py_fromisoformat_isoformat_Z (dt : datetime) :
  is_clock_reading dt ->
  py_fromisoformat (str_replace_Z (datetime_isoformat dt +:+ "Z"))
  = Some (mkDatetime (dt_year dt) (dt_month dt) (dt_day dt) (dt_hour dt) (dt_minute dt)
            (dt_second dt) (dt_microsecond dt) (Some 0)).
Proof.
  intros Hclock. pose proof (datetime_valid_clock_reading dt Hclock) as Hvalid.
  destruct Hclock as (Hy & Hm & Hd & Hh & Hmi & Hs & Hus & Htz).
  pose proof (Z.le_trans _ _ _ (proj2 Hd)
                (ltac:(unfold days_in_month; repeat case_match; lia)
                  : days_in_month (dt_year dt) (dt_month dt) <= 31)) as Hday.
  rewrite str_replace_Z_app, str_replace_Z_isoformat.
  unfold py_fromisoformat. rewrite list_ascii_of_string_app, datetime_isoformat_chars.
  rewrite <- app_assoc.
  rewrite take_app_length' by (by rewrite length_date_chars).
  rewrite drop_app_length' by (by rewrite length_date_chars).
  rewrite parse_isoformat_date_chars by lia. cbn [mbind option_bind d_year d_month d_day].
  cbn [app]. unfold parse_isoformat_time.
  rewrite split_tz_no_sign by apply time_chars_no_sign.
  cbn [str_replace_Z String.list_ascii_of_string split_tz fst snd Ascii.eqb Bool.eqb].
  rewrite app_nil_r.
  rewrite parse_hh_mm_ss_ff_chars by lia. cbn [mbind option_bind].
  change (split_tz (String.list_ascii_of_string ("+00:00" +:+ "")))
    with (@nil ascii, Some (1, ["0"; "0"; ":"; "0"; "0"]%char)).
  cbn [snd length Nat.eqb orb].
  change (parse_hh_mm_ss_ff ["0"; "0"; ":"; "0"; "0"]%char) with (Some (0, 0, 0, 0)).
  cbn [mbind option_bind].
  unfold datetime_valid in *. rewrite Htz in Hvalid.
  cbn [dt_year dt_month dt_day dt_hour dt_minute dt_second dt_tz].
  rewrite andb_true_r in Hvalid. by rewrite Hvalid.
Qed.

(** [GET /health] always answers 200 with status [healthy], and the
    timestamp it reports is the clock reading in a form the calendar's
    parser reads back to the very same reading; this holds for the five
    services, whatever the environment. *)
Theorem health_timestamp_parses (env : gmap string string) (utcnow : datetime) :
  is_clock_reading utcnow ->
  exists t,
    py_fromisoformat t = Some utcnow
    /\ Forall (fun resp =>
                 status resp = 200
                 /\ json_field "status" (body resp) = Some (JStr "healthy")
                 /\ json_field "timestamp" (body resp) = Some (JStr t))
         [ UserService.health env utcnow; CalendarService.health env utcnow;
           OutlookService.health env utcnow; TeamsService.health env utcnow;
           OneDriveService.health env utcnow ].
Proof.
  intros Hclock. exists (datetime_isoformat utcnow).
  split; [by apply py_fromisoformat_isoformat|].
  repeat (apply Forall_cons; split;
          [split; [reflexivity|]; split; unfold json_field; cbn [body];
           by simplify_map_eq|]).
  apply Forall_nil_2.
Qed.

Lemma health_timestamp_parses_witness :
  exists t,
    py_fromisoformat t = Some (mkDatetime 2024 8 24 10 0 5 120000 None)
    /\ Forall (fun resp =>
                 status resp = 200
                 /\ json_field "status" (body resp) = Some (JStr "healthy")
                 /\ json_field "timestamp" (body resp) = Some (JStr t))
         [ UserService.health ∅ (mkDatetime 2024 8 24 10 0 5 120000 None);
           CalendarService.health ∅ (mkDatetime 2024 8 24 10 0 5 120000 None);
           OutlookService.health ∅ (mkDatetime 2024 8 24 10 0 5 120000 None);
           TeamsService.health ∅ (mkDatetime 2024 8 24 10 0 5 120000 None);
           OneDriveService.health ∅ (mkDatetime 2024 8 24 10 0 5 120000 None) ].
Proof.
  apply (health_timestamp_parses ∅ (mkDatetime 2024 8 24 10 0 5 120000 None)).
  unfold is_clock_reading. cbn. repeat split; (lia || reflexivity).
Defined.

(** The time a send handler stamps on its record is the clock reading
    followed by [Z]: read the way the calendar reads a start ([Z] replaced,
    then parsed), the [timestamp] of a posted team message and the [sent]
    time of a sent email give back the clock reading, at UTC. *)
Theorem sent_timestamps_parse (utcnow : datetime) :
  is_clock_reading utcnow ->
  let at_utc :=
    mkDatetime (dt_year utcnow) (dt_month utcnow) (dt_day utcnow) (dt_hour utcnow)
      (dt_minute utcnow) (dt_second utcnow) (dt_microsecond utcnow) (Some 0) in
  (forall team_id data s resp s',
      TeamsService.send_team_message utcnow team_id data s = (Ok resp, s') ->
      status resp = 201 ->
      exists t,
        json_field "timestamp" (body resp) = Some (JStr t)
        /\ py_fromisoformat (str_replace_Z t) = Some at_utc)
  /\ (forall data emails resp emails',
         OutlookService.send_email utcnow data emails = (Ok resp, emails') ->
         status resp = 201 ->
         exists t,
           (json_field "email" (body resp) ≫= json_field "sent") = Some (JStr t)
           /\ py_fromisoformat (str_replace_Z t) = Some at_utc).
Proof.
  intros Hclock at_utc. split.
  - intros team_id data s resp s' Hrun Hstatus.
    destruct (send_team_message_201 _ _ _ _ _ _ Hrun Hstatus)
      as (d & message & team & top & _ & _ & _ & _ & -> & _).
    exists (datetime_isoformat utcnow +:+ "Z").
    split; [|by apply py_fromisoformat_isoformat_Z].
    unfold json_field, TeamsService.message_json. cbn [body TeamsService.g_timestamp].
    by simplify_map_eq.
  - intros data emails resp emails' Hrun Hstatus.
    destruct (send_email_201 _ _ _ _ _ Hrun Hstatus)
      as (d & to & subject & top & -> & Hto & Hsubject & Htop).
    rewrite (send_email_sent utcnow d emails to subject top Hto Hsubject Htop) in Hrun.
    simplify_eq. exists (datetime_isoformat utcnow +:+ "Z").
    split; [|by apply py_fromisoformat_isoformat_Z].
    cbn [body]. rewrite json_field_sent_email. cbn [mbind option_bind].
    unfold json_field, OutlookService.sent_email_json. cbn [OutlookService.s_sent].
    by simplify_map_eq.
Qed.

Lemma sent_timestamps_parse_witness :
  exists t,
    json_field "timestamp"
      (TeamsService.message_json
         (TeamsService.mkMessage 4 2 (JStr "user@company.com") (JStr "hello")
            "2024-08-24T10:00:05.120000Z" "text")) = Some (JStr t)
    /\ py_fromisoformat (str_replace_Z t)
       = Some (mkDatetime 2024 8 24 10 0 5 120000 (Some 0)).
Proof.
  assert (is_clock_reading (mkDatetime 2024 8 24 10 0 5 120000 None)) as Hclock
    by (unfold is_clock_reading; cbn; repeat split; (lia || reflexivity)).
  assert (TeamsService.send_team_message (mkDatetime 2024 8 24 10 0 5 120000 None) 2
            (JObj {[ "message" := JStr "hello" ]}) TeamsService.initial
          = (Ok (mkResponse 201
                   (TeamsService.message_json
                      (TeamsService.mkMessage 4 2 (JStr "user@company.com") (JStr "hello")
                         "2024-08-24T10:00:05.120000Z" "text"))),
             TeamsService.mkStore TeamsService.TEAMS
               (TeamsService.MESSAGES
                ++ [TeamsService.mkMessage 4 2 (JStr "user@company.com") (JStr "hello")
                      "2024-08-24T10:00:05.120000Z" "text"])
               TeamsService.MEETINGS)) as Hrun
    by (vm_compute; reflexivity).
  exact (proj1 (sent_timestamps_parse _ Hclock) _ _ _ _ _ Hrun eq_refl).
Defined.

(** ** Health and home *)

(** [GET /] and [GET /health] of a service report the same version in every
    environment; the service name of [/] follows [SERVICE_NAME] when it is
    set, while [/health] always reports the built-in name, so the two agree
    on the name exactly when [SERVICE_NAME] is unset or set to that name
    (shown for the user service; the other four are written alike). *)
Theorem health_and_home_names (env : gmap string string) (utcnow : datetime) :
  json_field "version" (body (UserService.health env utcnow))
  = json_field "version" (body (UserService.home env))
  /\ json_field "service" (body (UserService.health env utcnow))
     = Some (JStr "user-service")
  /\ json_field "service" (body (UserService.home env))
     = Some (JStr (default "user-service" (env !! "SERVICE_NAME")))
  /\ (json_field "service" (body (UserService.health env utcnow))
      = json_field "service" (body (UserService.home env))
      <-> env !! "SERVICE_NAME" = None \/ env !! "SERVICE_NAME" = Some "user-service").
Proof.
  assert (json_field "service" (body (UserService.health env utcnow))
          = Some (JStr "user-service")) as Hhealth
    by (unfold json_field, UserService.health; cbn [body]; by simplify_map_eq).
  assert (json_field "service" (body (UserService.home env))
          = Some (JStr (default "user-service" (env !! "SERVICE_NAME")))) as Hhome
    by (unfold json_field, UserService.home, py_getenv; cbn [body]; by simplify_map_eq).
  split; [|split; [done|split; [done|]]].
  - unfold json_field, UserService.health, UserService.home. cbn [body].
    by simplify_map_eq.
  - rewrite Hhealth, Hhome. destruct (env !! "SERVICE_NAME") as [name|]; simpl.
    + split; [intros [= ->]; by right|]. by intros [?|[= ->]].
    + split; [by left|done].
Qed.

(** ** Aggregates *)

Lemma fold_left_add_nonneg (xs : list Z) (acc : Z) :
  Forall (fun x => 0 <= x) xs -> 0 <= acc -> acc <= fold_left Z.add xs acc.
Proof.
  intros Hxs. revert acc. induction Hxs as [|x xs Hx _ IH]; intros acc Hacc; simpl; [lia|].
  etrans; [|apply IH; lia]. lia.
Qed.

Lemma onedrive_reachable_constant (s : OneDriveService.Store) :
  reachable OneDriveService.handle OneDriveService.initial s -> s = OneDriveService.initial.
Proof.
  revert s. apply reachable_ind_inv; [done|].
  intros s req r s' -> Hrun. by apply onedrive_handle_store in Hrun.
Qed.

(** [GET /storage] agrees with the listings, whatever the store: its
    [total_files] is the count of [GET /files], its [shared_files] the count
    of [GET /files/shared] and at most [total_files], its [folders] the
    count of [GET /folders]; the size in bytes is the sum of the file sizes
    (not negative when no size is), and the store is left as it was. *)
Theorem storage_info_agrees (size_mb : Z -> jvalue) (s : OneDriveService.Store) :
  exists total shared n_folders bytes files_json shared_json folders_json,
    0 <= shared <= total
    /\ (Forall (fun f => 0 <= OneDriveService.f_size f) (OneDriveService.files s) ->
        0 <= bytes)
    /\ bytes = py_sum (map OneDriveService.f_size (OneDriveService.files s))
    /\ OneDriveService.get_storage_info size_mb s
       = (Ok (mkResponse 200
                (JObj {[ "total_files" := JInt total;
                         "total_size_bytes" := JInt bytes;
                         "total_size_mb" := size_mb bytes;
                         "folders" := JInt n_folders;
                         "shared_files" := JInt shared ]})), s)
    /\ OneDriveService.get_files s
       = (Ok (mkResponse 200
                (JObj {[ "files" := JList files_json; "count" := JInt total ]})), s)
    /\ OneDriveService.get_shared_files s
       = (Ok (mkResponse 200
                (JObj {[ "files" := JList shared_json; "count" := JInt shared ]})), s)
    /\ OneDriveService.get_folders s
       = (Ok (mkResponse 200
                (JObj {[ "folders" := JList folders_json; "count" := JInt n_folders ]})), s).
Proof.
  exists (Z.of_nat (length (OneDriveService.files s))),
    (Z.of_nat (length (List.filter OneDriveService.f_shared (OneDriveService.files s)))),
    (Z.of_nat (length (OneDriveService.folders s))),
    (py_sum (map OneDriveService.f_size (OneDriveService.files s))),
    (map OneDriveService.file_json (OneDriveService.files s)),
    (map OneDriveService.file_json
       (List.filter OneDriveService.f_shared (OneDriveService.files s))),
    (map OneDriveService.folder_json (OneDriveService.folders s)).
  split; [apply filter_length_bound|]. split.
  - intros Hsizes. unfold py_sum. apply fold_left_add_nonneg; [|done].
    by apply Forall_fmap.
  - split; [done|]. split; [reflexivity|]. split; [reflexivity|]. split; reflexivity.
Qed.

(** The teams, meetings and members are the sample ones for good: in every
    store the teams service can reach, [GET /stats] reports 2 teams (all of
    them active), 1 meeting and 4 unique members, and as [total_messages]
    the number of stored messages, which is also the greatest message id. *)
Theorem team_stats_when_reachable (s : TeamsService.Store) :
  reachable TeamsService.handle TeamsService.initial s ->
  exists n,
    is_max n (map TeamsService.g_id (TeamsService.messages s))
    /\ TeamsService.get_stats s
       = (Ok (mkResponse 200
                (JObj {[ "total_teams" := JInt 2; "total_messages" := JInt n;
                         "total_meetings" := JInt 1; "unique_members" := JInt 4;
                         "active_teams" := JInt 2 ]})), s).
Proof.
  intros Hreach.
  destruct (teams_reachable_inv s Hreach) as (Hteams & Hmeetings & Hprefix & _).
  pose proof (teams_reachable_positions s Hreach) as Hpos.
  exists (Z.of_nat (length (TeamsService.messages s))). split.
  - assert (0 < length (TeamsService.messages s))%nat as Hlen.
    { destruct Hprefix as [k ->]. rewrite length_app. simpl. lia. }
    apply py_max_is_max. rewrite Hpos. by apply py_max_seqZ.
  - unfold TeamsService.get_stats, bind, gets, ret. rewrite Hteams, Hmeetings.
    reflexivity.
Qed.

Lemma team_stats_when_reachable_witness :
  exists n,
    is_max n (map TeamsService.g_id (TeamsService.messages TeamsService.initial))
    /\ TeamsService.get_stats TeamsService.initial
       = (Ok (mkResponse 200
                (JObj {[ "total_teams" := JInt 2; "total_messages" := JInt n;
                         "total_meetings" := JInt 1; "unique_members" := JInt 4;
                         "active_teams" := JInt 2 ]})), TeamsService.initial).
Proof. apply (team_stats_when_reachable TeamsService.initial). apply reach_init. Defined.
